(** * LP8755 multi-phase buck regulator driver: a shallow embedding

    The development follows [drivers/regulator/lp8755.c].  The driver's
    functions become computations in a small state monad over a [world]
    that holds the device register file, the outcome of the coming bus
    transactions, the chip structure and the trace of the effects the
    driver has on its collaborators (bus, regulator framework, interrupt
    line).  A computation that performs an out-of-bounds array access has
    no defined result: the monad then yields [None].

    Diagnostics ([dev_err], [dev_warn], [dev_info]) have no effect on the
    driver's behaviour and are left out. *)

From Stdlib Require Import ZArith Lia Bool.
From stdpp Require Import base option list gmap.

Local Open Scope Z_scope.

(** ** C integers *)

(** [unsigned int]: arithmetic modulo 2^32. *)
Definition u32 (x : Z) : Z := x mod 2 ^ 32.

(** Conversion of an [unsigned int] to [int] (two's complement). *)
Definition s32 (x : Z) : Z :=
  let y := x mod 2 ^ 32 in if y <? 2 ^ 31 then y else y - 2 ^ 32.

(** [ffs]: one plus the index of the least significant set bit, 0 for 0. *)
Definition ffs (x : Z) : Z :=
  if x =? 0 then 0 else Z.log2 (Z.land x (- x)) + 1.

(** Error numbers, with the values of the kernel's [errno.h] and
    [linux/err.h] (neither is part of the sources at hand). *)
Definition EIO : Z := 5.
Definition ENOMEM : Z := 12.
Definition ENODEV : Z := 19.
Definition EINVAL : Z := 22.
Definition EOPNOTSUPP : Z := 95.
Definition MAX_ERRNO : Z := 4095.

(** ** Register map of the chip *)

Definition LP8755_REG_BUCK0 : Z := 0x00.
Definition LP8755_REG_BUCK1 : Z := 0x03.
Definition LP8755_REG_BUCK2 : Z := 0x04.
Definition LP8755_REG_BUCK3 : Z := 0x01.
Definition LP8755_REG_BUCK4 : Z := 0x05.
Definition LP8755_REG_BUCK5 : Z := 0x02.

Definition LP8755_REG_B0_CTRL : Z := 0x07.
Definition LP8755_REG_PH_LEV_B0 : Z := 0x1F.
Definition LP8755_REG_PH_LEV_B3 : Z := 0x20.
Definition LP8755_REG_LOCK : Z := 0xDD.
Definition LP8755_REG_DEBUG : Z := 0xFF.

Definition LP8755_REG_MAX : Z := 0xFF + 1.

Definition LP8755_BUCK_EN_M : Z := Z.shiftl 1 7.
Definition LP8755_BUCK_LINEAR_OUT_MAX : Z := 0x76.
Definition LP8755_BUCK_VOUT_M : Z := 0x7F.

(** [enum bucks] *)
Definition BUCK0 : Z := 0.
Definition BUCK1 : Z := 1.
Definition BUCK2 : Z := 2.
Definition BUCK3 : Z := 3.
Definition BUCK4 : Z := 4.
Definition BUCK5 : Z := 5.

(** Modelled from the spec: [LP8755_BUCK_MAX] and [MPHASE_CONF_MAX] are
    declared in [linux/platform_data/lp8755.h], which is not part of the
    sources at hand.  The spec gives six rail identifiers (0..5) and
    exactly nine valid topology codes (0..8); the table [mphase_buck]
    below has nine initialisers. *)
Definition LP8755_BUCK_MAX : Z := 6.
Definition MPHASE_CONF_MAX : Z := 9.

(** Modelled from the spec: the three operating modes Fast, Normal and
    Idle of the regulator framework ([linux/regulator/consumer.h], not
    part of the sources at hand), as the framework's distinct bit flags. *)
Definition REGULATOR_MODE_FAST : Z := 0x1.
Definition REGULATOR_MODE_NORMAL : Z := 0x2.
Definition REGULATOR_MODE_IDLE : Z := 0x4.

(** Fault classes delivered to rail consumers
    ([LP8755_EVENT_PWR_FAULT], [LP8755_EVENT_OCP], [LP8755_EVENT_OVP]). *)
Inductive lp8755_event : Type :=
  | LP8755_EVENT_PWR_FAULT
  | LP8755_EVENT_OCP
  | LP8755_EVENT_OVP.

Inductive irqreturn_t : Type :=
  | IRQ_NONE
  | IRQ_HANDLED.

(** ** Data structures *)

(** [struct lp8755_mphase] *)
Record lp8755_mphase : Type := Mphase {
  nreg : Z;
  buck_num : list Z
}.

(** The fields of [struct regulator_desc] the driver reads. *)
Record regulator_desc : Type := RegulatorDesc {
  id : Z;
  n_voltages : Z;
  enable_reg : Z;
  enable_mask : Z;
  vsel_reg : Z;
  vsel_mask : Z
}.

(** The constraints of [struct regulator_init_data] the driver sets. *)
Record regulator_init_data : Type := RegulatorInitData {
  min_uV : Z;
  max_uV : Z
}.

(** A registered rail, as returned by [regulator_register]. *)
Record regulator_dev : Type := RegulatorDev {
  desc : regulator_desc;
  init_data : regulator_init_data
}.

Definition rdev_get_id (rdev : regulator_dev) : Z := id (desc rdev).

(** [struct lp8755_platform_data] *)
Record lp8755_platform_data : Type := PlatformData {
  pdata_mphase : Z;
  buck_data : list (option regulator_init_data);
  ramp_us : list Z
}.

(** [struct lp8755_chip]; the bus handle lives in the [world]. *)
Record lp8755_chip : Type := Chip {
  pdata : lp8755_platform_data;
  irq : Z;
  irqmask : Z;
  mphase : Z;
  rdev : list (option regulator_dev);
  test_mode : Z
}.

(** The result of [regulator_register]: an error pointer or a rail. *)
Inductive rdev_ptr : Type :=
  | ERR_PTR (err : Z)
  | PTR (r : regulator_dev).

(** What the driver does to its collaborators, in program order. *)
Inductive effect : Type :=
  | BusRead (reg : Z) (ok : bool)
  | BusWrite (reg val : Z) (ok : bool)
  | RegulatorRegister (buck : Z) (ok : bool)
  | RegulatorUnregister (r : option regulator_dev)
  | DebugfsCreateFile (r : regulator_dev)
  | NotifierCallChain (r : regulator_dev) (ev : lp8755_event)
  | RequestIrq (line : Z)
  | FreeIrq (line : Z).

(** The state the driver runs in.
    - [regs]: the device's registers, one byte each;
    - [faults]: for each coming bus transaction, whether it fails
      (none left: the bus works);
    - [stack]: what an automatic variable holds before it is assigned;
    - [allocs]: for each coming [devm_kzalloc], whether it fails;
    - [regmap_init]: the error of [devm_regmap_init_i2c], if any;
    - [register_errs]: the rails the regulator framework refuses to
      register, with the error it returns;
    - [request_irq_ret]: what [request_threaded_irq] returns;
    - [pchip]: the chip structure (the client data);
    - [trace]: the effects so far, oldest first. *)
Record world : Type := World {
  regs : gmap Z Z;
  faults : list bool;
  stack : Z;
  allocs : list bool;
  regmap_init : option Z;
  register_errs : gmap Z Z;
  request_irq_ret : Z;
  pchip : lp8755_chip;
  trace : list effect
}.

Definition set_regs (f : gmap Z Z → gmap Z Z) (w : world) : world :=
  World (f (regs w)) (faults w) (stack w) (allocs w) (regmap_init w)
        (register_errs w) (request_irq_ret w) (pchip w) (trace w).

Definition set_faults (l : list bool) (w : world) : world :=
  World (regs w) l (stack w) (allocs w) (regmap_init w)
        (register_errs w) (request_irq_ret w) (pchip w) (trace w).

Definition set_allocs (l : list bool) (w : world) : world :=
  World (regs w) (faults w) (stack w) l (regmap_init w)
        (register_errs w) (request_irq_ret w) (pchip w) (trace w).

Definition set_pchip (f : lp8755_chip → lp8755_chip) (w : world) : world :=
  World (regs w) (faults w) (stack w) (allocs w) (regmap_init w)
        (register_errs w) (request_irq_ret w) (f (pchip w)) (trace w).

Definition log (e : effect) (w : world) : world :=
  World (regs w) (faults w) (stack w) (allocs w) (regmap_init w)
        (register_errs w) (request_irq_ret w) (pchip w) (trace w ++ [e]).

(** ** The monad: state, and no result on undefined behaviour *)

Definition M (A : Type) : Type := world → option (A * world).

#[global] Instance M_ret : MRet M := λ A a w, Some (a, w).

#[global] Instance M_bind : MBind M := λ A B f m w,
  match m w with
  | Some (a, w') => f a w'
  | None => None
  end.

Definition gets {A : Type} (f : world → A) : M A := λ w, Some (f w, w).
Definition modify (f : world → world) : M unit := λ w, Some (tt, f w).
Definition undefined {A : Type} : M A := λ _, None.
Definition skip : M unit := mret tt.

(** An automatic variable declared without initialiser. *)
Definition uninitialized : M Z := gets stack.

(** [a[i]] as an rvalue: defined only inside the array. *)
Definition array_get {A : Type} (a : list A) (i : Z) : M A :=
  if (0 <=? i) && (i <? Z.of_nat (length a))
  then match a !! Z.to_nat i with
       | Some x => mret x
       | None => undefined
       end
  else undefined.

(** [a[i] = x]: defined only inside the array. *)
Definition array_set {A : Type} (a : list A) (i : Z) (x : A) : M (list A) :=
  if (0 <=? i) && (i <? Z.of_nat (length a))
  then mret (<[Z.to_nat i := x]> a)
  else undefined.

(** [for (icnt = lo; icnt < hi; icnt++) body], where the body may leave
    the loop with a value (a [goto] out of it). *)
Fixpoint for_each {R : Type} (l : list Z) (body : Z → M (option R))
  : M (option R) :=
  match l with
  | [] => mret None
  | icnt :: l' =>
      r ← body icnt;
      match r with
      | Some x => mret (Some x)
      | None => for_each l' body
      end
  end.

Definition for_loop {R : Type} (lo hi : Z) (body : Z → M (option R))
  : M (option R) :=
  for_each (seqZ lo (hi - lo)) body.

(** A loop that is never left early. *)
Definition for_all (lo hi : Z) (body : Z → M unit) : M unit :=
  _ ← for_loop (R := Empty_set) lo hi (λ icnt, _ ← body icnt; mret None);
  skip.

(** ** Register access layer *)

(** Takes the outcome of the next bus transaction from the schedule. *)
Definition bus_fault : M bool := λ w,
  match faults w with
  | [] => Some (false, w)
  | f :: l => Some (f, set_faults l w)
  end.

(** Modelled from the spec: [regmap_read], [regmap_write] and
    [regmap_update_bits] belong to the kernel's regmap layer, which is not
    part of the sources at hand.  Per the spec a read or write is one bus
    transaction that yields its result or fails with a bus error, and an
    update reads the current byte, clears the masked bits, ORs in
    [value & mask] and writes back.  Registers are one byte wide
    ([val_bits = 8]).  A failed read leaves [*val] as it was. *)
Definition regmap_read (reg val : Z) : M (Z * Z) :=
  f ← bus_fault;
  if f : bool then
    _ ← modify (log (BusRead reg false));
    mret (- EIO, val)
  else
    _ ← modify (log (BusRead reg true));
    v ← gets (λ w, Z.land (regs w !!! reg) 0xFF);
    mret (0, v).

Definition regmap_write (reg val : Z) : M Z :=
  f ← bus_fault;
  if f : bool then
    _ ← modify (log (BusWrite reg (Z.land val 0xFF) false));
    mret (- EIO)
  else
    _ ← modify (log (BusWrite reg (Z.land val 0xFF) true));
    _ ← modify (set_regs <[reg := Z.land val 0xFF]>);
    mret 0.

Definition regmap_update_bits (reg mask val : Z) : M Z :=
  '(ret, orig) ← regmap_read reg 0;
  if ret <? 0 then mret ret
  else regmap_write reg (Z.lor (Z.ldiff orig mask) (Z.land val mask)).

(** [lp8755_read]: read a single register value from lp8755. *)
Definition lp8755_read (reg val : Z) : M (Z * Z) := regmap_read reg val.

(** [lp8755_write]: write a single register value to lp8755. *)
Definition lp8755_write (reg val : Z) : M Z := regmap_write reg val.

(** [lp8755_update_bits]: set the values of bit fields in a register. *)
Definition lp8755_update_bits (reg mask val : Z) : M Z :=
  regmap_update_bits reg mask val.

(** ** Rail controller: the regulator operations *)

Definition lp8755_buck_enable_time (rdev : regulator_dev) : M Z :=
  regval ← uninitialized;
  let id := rdev_get_id rdev in
  '(ret, regval) ← lp8755_read (0x12 + id) regval;
  if ret <? 0 then mret ret
  else mret (Z.land regval 0xff * 100).

Definition lp8755_buck_set_mode (rdev : regulator_dev) (mode : Z) : M Z :=
  let regbval := 0x0 in
  let id := rdev_get_id rdev in
  (* the update that follows the switch, and both ways out of it *)
  let set_forced regbval :=
    ret ← lp8755_update_bits 0x06 (Z.shiftl 0x01 id) regbval;
    if ret <? 0 then mret ret (* err_i2c *) else mret ret in
  if mode =? REGULATOR_MODE_FAST then
    (* forced pwm mode *)
    set_forced (Z.shiftl 0x01 id)
  else if mode =? REGULATOR_MODE_NORMAL then
    (* enable automatic pwm/pfm mode *)
    ret ← lp8755_update_bits (0x08 + id) 0x20 0x00;
    if ret <? 0 then mret ret (* err_i2c *)
    else set_forced regbval
  else if mode =? REGULATOR_MODE_IDLE then
    (* enable automatic pwm/pfm/lppfm mode *)
    ret ← lp8755_update_bits (0x08 + id) 0x20 0x20;
    if ret <? 0 then mret ret (* err_i2c *)
    else
      ret ← lp8755_update_bits 0x10 0x01 0x01;
      if ret <? 0 then mret ret (* err_i2c *)
      else set_forced regbval
  else
    (* not supported: forced pwm mode *)
    set_forced (Z.shiftl 0x01 id).

Definition lp8755_buck_get_mode (rdev : regulator_dev) : M Z :=
  regval ← uninitialized;
  let id := rdev_get_id rdev in
  '(ret, regval) ← lp8755_read 0x06 regval;
  if ret <? 0 then mret 0 (* err_i2c *)
  else
    (* mode fast means forced pwm mode *)
    if negb (Z.land regval (Z.shiftl 0x01 id) =? 0) then
      mret REGULATOR_MODE_FAST
    else
      '(ret, regval) ← lp8755_read (0x08 + id) regval;
      if ret <? 0 then mret 0 (* err_i2c *)
      else
        (* mode idle means automatic pwm/pfm/lppfm mode *)
        if negb (Z.land regval 0x20 =? 0) then mret REGULATOR_MODE_IDLE
        (* mode normal means automatic pwm/pfm mode *)
        else mret REGULATOR_MODE_NORMAL.

(** The [switch] of [lp8755_buck_set_ramp] over the case ranges, in
    uV/us; [None] is the [default] label. *)
Definition ramp_regval (ramp : Z) : option Z :=
  if (0 <=? ramp) && (ramp <=? 230) then Some 0x07
  else if (231 <=? ramp) && (ramp <=? 470) then Some 0x06
  else if (471 <=? ramp) && (ramp <=? 940) then Some 0x05
  else if (941 <=? ramp) && (ramp <=? 1900) then Some 0x04
  else if (1901 <=? ramp) && (ramp <=? 3800) then Some 0x03
  else if (3801 <=? ramp) && (ramp <=? 7500) then Some 0x02
  else if (7501 <=? ramp) && (ramp <=? 15000) then Some 0x01
  else if (15001 <=? ramp) && (ramp <=? 30000) then Some 0x00
  else None.

Definition lp8755_buck_set_ramp (rdev : regulator_dev) (ramp : Z) : M Z :=
  let id := rdev_get_id rdev in
  match ramp_regval ramp with
  | None => mret (- EINVAL)
  | Some regval =>
      ret ← lp8755_update_bits (0x07 + id) 0x07 regval;
      if ret <? 0 then mret ret (* err_i2c *) else mret ret
  end.

Definition lp8755_list_voltage_buck (rdev : regulator_dev) (selector : Z)
  : Z :=
  if n_voltages (desc rdev) <=? selector then - EINVAL
  else s32 (u32 (500000 + u32 (10000 * selector))).

Definition lp8755_set_voltage_buck_sel (rdev : regulator_dev) (sel : Z)
  : M Z :=
  let sel := u32 (Z.shiftl sel (ffs (vsel_mask (desc rdev)) - 1)) in
  lp8755_update_bits (vsel_reg (desc rdev)) (vsel_mask (desc rdev)) sel.

Definition lp8755_get_voltage_buck_sel (rdev : regulator_dev) : M Z :=
  val ← uninitialized;
  '(ret, val) ← lp8755_read (vsel_reg (desc rdev)) val;
  if negb (ret =? 0) then mret ret
  else
    let val := Z.land val (vsel_mask (desc rdev)) in
    let val := Z.shiftr val (ffs (vsel_mask (desc rdev)) - 1) in
    mret val.

Definition lp8755_enable_buck (rdev : regulator_dev) : M Z :=
  lp8755_update_bits (enable_reg (desc rdev)) (enable_mask (desc rdev))
                     (enable_mask (desc rdev)).

Definition lp8755_disable_buck (rdev : regulator_dev) : M Z :=
  lp8755_update_bits (enable_reg (desc rdev)) (enable_mask (desc rdev)) 0.

(** The result of the read is not looked at: after a failed read [reg]
    still holds what the variable held when it was declared. *)
Definition lp8755_is_enabled_buck (rdev : regulator_dev) : M Z :=
  reg ← uninitialized;
  '(_, reg) ← lp8755_read (enable_reg (desc rdev)) reg;
  let reg := Z.land reg (enable_mask (desc rdev)) in
  mret (if reg =? 0 then 0 else 1).

(** ** Fixed tables *)

(** [lp8755_buck_init(_id)] *)
Definition lp8755_buck_init (_id : Z) : regulator_init_data :=
  {| min_uV := 500000; max_uV := 1675000 |}.

Definition lp8755_reg_default : list regulator_init_data :=
  [ lp8755_buck_init 0; lp8755_buck_init 1; lp8755_buck_init 2;
    lp8755_buck_init 3; lp8755_buck_init 4; lp8755_buck_init 5 ].

(** The multi-phase table.  Each [buck_num] array has [LP8755_BUCK_MAX]
    elements; those the initialiser does not list are zero. *)
Definition mphase_buck : list lp8755_mphase :=
  [ Mphase 3 [BUCK0; BUCK3; BUCK5; 0; 0; 0];
    Mphase 6 [BUCK0; BUCK1; BUCK2; BUCK3; BUCK4; BUCK5];
    Mphase 5 [BUCK0; BUCK2; BUCK3; BUCK4; BUCK5; 0];
    Mphase 4 [BUCK0; BUCK3; BUCK4; BUCK5; 0; 0];
    Mphase 3 [BUCK0; BUCK4; BUCK5; 0; 0; 0];
    Mphase 2 [BUCK0; BUCK5; 0; 0; 0; 0];
    Mphase 1 [BUCK0; 0; 0; 0; 0; 0];
    Mphase 2 [BUCK0; BUCK3; 0; 0; 0; 0];
    Mphase 4 [BUCK0; BUCK2; BUCK3; BUCK5; 0; 0] ].

(** [LP8755_REG_BUCK##_id], for the identifiers 0..5 the macros are
    used with. *)
Definition LP8755_REG_BUCK (_id : Z) : Z :=
  if _id =? 0 then LP8755_REG_BUCK0
  else if _id =? 1 then LP8755_REG_BUCK1
  else if _id =? 2 then LP8755_REG_BUCK2
  else if _id =? 3 then LP8755_REG_BUCK3
  else if _id =? 4 then LP8755_REG_BUCK4
  else LP8755_REG_BUCK5.

(** [lp8755_buck_desc(_id)] *)
Definition lp8755_buck_desc (_id : Z) : regulator_desc :=
  {| id := _id;
     n_voltages := LP8755_BUCK_LINEAR_OUT_MAX + 1;
     enable_reg := LP8755_REG_BUCK _id;
     enable_mask := LP8755_BUCK_EN_M;
     vsel_reg := LP8755_REG_BUCK _id;
     vsel_mask := LP8755_BUCK_VOUT_M |}.

Definition lp8755_regulators : list regulator_desc :=
  [ lp8755_buck_desc 0; lp8755_buck_desc 1; lp8755_buck_desc 2;
    lp8755_buck_desc 3; lp8755_buck_desc 4; lp8755_buck_desc 5 ].

(** ** The regulator framework and the interrupt line, as the driver
       sees them *)

(** [regulator_register]: the framework refuses the rails listed in
    [register_errs] and returns a new rail for the others. *)
Definition regulator_register (d : regulator_desc)
    (init : option regulator_init_data) : M rdev_ptr :=
  errs ← gets register_errs;
  match errs !! id d with
  | Some err =>
      _ ← modify (log (RegulatorRegister (id d) false));
      mret (ERR_PTR err)
  | None =>
      _ ← modify (log (RegulatorRegister (id d) true));
      mret (PTR {| desc := d;
                   init_data := default (lp8755_buck_init (id d)) init |})
  end.

(** [regulator_unregister]; the call is recorded with its argument, a
    null pointer included. *)
Definition regulator_unregister (r : option regulator_dev) : M unit :=
  modify (log (RegulatorUnregister r)).

Definition regulator_notifier_call_chain (r : regulator_dev)
    (ev : lp8755_event) : M unit :=
  modify (log (NotifierCallChain r ev)).

Definition lp8755_buck_debug_fs_init (r : regulator_dev) : M unit :=
  modify (log (DebugfsCreateFile r)).

(** Assignments to the fields of [*pchip] and [*pchip->pdata]. *)
Definition set_pdata (p : lp8755_platform_data) (c : lp8755_chip) :=
  Chip p (irq c) (irqmask c) (mphase c) (rdev c) (test_mode c).
Definition set_irq (v : Z) (c : lp8755_chip) :=
  Chip (pdata c) v (irqmask c) (mphase c) (rdev c) (test_mode c).
Definition set_irqmask (v : Z) (c : lp8755_chip) :=
  Chip (pdata c) (irq c) v (mphase c) (rdev c) (test_mode c).
Definition set_mphase (v : Z) (c : lp8755_chip) :=
  Chip (pdata c) (irq c) (irqmask c) v (rdev c) (test_mode c).
Definition set_rdev (l : list (option regulator_dev)) (c : lp8755_chip) :=
  Chip (pdata c) (irq c) (irqmask c) (mphase c) l (test_mode c).
Definition set_buck_data (l : list (option regulator_init_data))
    (c : lp8755_chip) :=
  set_pdata (PlatformData (pdata_mphase (pdata c)) l (ramp_us (pdata c))) c.

(** [pdata->buck_data[buck_num] = &lp8755_reg_default[buck_num]] *)
Definition set_default_data (buck_num : Z) : M unit :=
  dflt ← array_get lp8755_reg_default buck_num;
  data ← gets (λ w, buck_data (pdata (pchip w)));
  data ← array_set data buck_num (Some dflt);
  modify (set_pchip (set_buck_data data)).

(** [pchip->rdev[buck_num] = r] *)
Definition store_rdev (buck_num : Z) (r : option regulator_dev) : M unit :=
  l ← gets (λ w, rdev (pchip w));
  l ← array_set l buck_num r;
  modify (set_pchip (set_rdev l)).

(** ** Chip lifecycle *)

Definition lp8755_init_data : M Z :=
  regval ← uninitialized;
  (* read back muti-phase configuration *)
  '(ret, regval) ← lp8755_read 0x3D regval;
  if ret <? 0 then mret ret (* out_i2c_error *)
  else
    _ ← modify (set_pchip (set_mphase (Z.land regval 0x0F)));
    (* set default data based on multi-phase config *)
    m ← gets (λ w, mphase (pchip w));
    conf ← array_get mphase_buck m;
    _ ← for_all 0 (nreg conf) (λ icnt,
          buck_num ← array_get (buck_num conf) icnt;
          set_default_data buck_num);
    mret ret.

(** The body of the loop of [lp8755_regulator_init] for one buck;
    [Some ret] is the [goto err_buck] with [ret]. *)
Definition regulator_init_buck (buck_num : Z) : M (option Z) :=
  data ← gets (λ w, buck_data (pdata (pchip w)));
  init ← array_get data buck_num;
  _ ← (if init is None then set_default_data buck_num else skip);
  d ← array_get lp8755_regulators buck_num;
  data ← gets (λ w, buck_data (pdata (pchip w)));
  init ← array_get data buck_num;
  p ← regulator_register d init;
  match p with
  | ERR_PTR ret =>
      _ ← store_rdev buck_num None;
      mret (Some ret) (* goto err_buck *)
  | PTR r =>
      _ ← store_rdev buck_num (Some r);
      _ ← lp8755_buck_debug_fs_init r;
      ramps ← gets (λ w, ramp_us (pdata (pchip w)));
      ramp ← array_get ramps buck_num;
      _ ← lp8755_buck_set_ramp r ramp;
      mret None
  end.

Definition lp8755_regulator_init : M Z :=
  m ← gets (λ w, mphase (pchip w));
  conf ← array_get mphase_buck m;
  err ← for_loop 0 (nreg conf) (λ icnt,
    buck_num ← array_get (buck_num conf) icnt;
    regulator_init_buck buck_num);
  match err with
  | None => mret 0
  | Some ret =>
      (* err_buck *)
      _ ← for_all 0 LP8755_BUCK_MAX (λ icnt,
            l ← gets (λ w, rdev (pchip w));
            r ← array_get l icnt;
            regulator_unregister r);
      mret ret
  end.

(** The three fan-out loops of the interrupt handler. *)
Definition notify_pwr_fault (flag0 : Z) : M unit :=
  for_all 0 6 (λ icnt,
    mask ← gets (λ w, irqmask (pchip w));
    if negb (Z.land flag0 (Z.shiftl 0x4 icnt) =? 0)
       && negb (Z.land mask (Z.shiftl 0x04 icnt) =? 0)
    then
      l ← gets (λ w, rdev (pchip w));
      r ← array_get l icnt;
      match r with
      | Some r => regulator_notifier_call_chain r LP8755_EVENT_PWR_FAULT
      | None => skip
      end
    else skip).

Definition notify_all (ev : lp8755_event) : M unit :=
  for_all 0 LP8755_BUCK_MAX (λ icnt,
    l ← gets (λ w, rdev (pchip w));
    r ← array_get l icnt;
    match r with
    | Some r => regulator_notifier_call_chain r ev
    | None => skip
    end).

(** The second half of the interrupt handler, for status register B. *)
Definition irq_flag1 : M irqreturn_t :=
  flag1 ← uninitialized;
  (* read flag1 register *)
  '(ret, flag1) ← lp8755_read 0x0E flag1;
  if ret <? 0 then mret IRQ_NONE (* err_i2c *)
  else
    (* clear flag register to pull up int. pin *)
    ret ← lp8755_write 0x0E 0x00;
    if ret <? 0 then mret IRQ_NONE (* err_i2c *)
    else
      mask ← gets (λ w, irqmask (pchip w));
      (* send OCP event to all regualtor devices *)
      _ ← (if negb (Z.land flag1 0x01 =? 0)
              && negb (Z.land mask 0x01 =? 0)
           then notify_all LP8755_EVENT_OCP else skip);
      (* send OVP event to all regualtor devices *)
      _ ← (if negb (Z.land flag1 0x02 =? 0)
              && negb (Z.land mask 0x02 =? 0)
           then notify_all LP8755_EVENT_OVP else skip);
      mret IRQ_HANDLED.

Definition lp8755_irq_handler : M irqreturn_t :=
  flag0 ← uninitialized;
  (* read flag0 register *)
  '(ret, flag0) ← lp8755_read 0x0D flag0;
  if ret <? 0 then mret IRQ_NONE (* err_i2c *)
  else
    (* clear flag register to pull up int. pin *)
    ret ← lp8755_write 0x0D 0x00;
    if ret <? 0 then mret IRQ_NONE (* err_i2c *)
    else
      (* sent power fault detection event to specific regulator *)
      _ ← notify_pwr_fault flag0;
      irq_flag1.

Definition lp8755_int_config : M Z :=
  regval ← uninitialized;
  line ← gets (λ w, irq (pchip w));
  if line =? 0 then mret 0
  else
    '(ret, regval) ← lp8755_read 0x0F regval;
    if ret <? 0 then mret ret (* err_i2c *)
    else
      _ ← modify (set_pchip (set_irqmask regval));
      _ ← modify (log (RequestIrq line));
      ret ← gets request_irq_ret;
      mret ret.

(** What the driver reads of [struct i2c_client]. *)
Record i2c_client : Type := I2cClient {
  i2c_func_i2c : bool;          (* i2c_check_functionality(.., I2C_FUNC_I2C) *)
  platform_data : option lp8755_platform_data;
  client_irq : Z
}.

(** [devm_kzalloc]: whether the allocation succeeds. *)
Definition devm_kzalloc : M bool := λ w,
  match allocs w with
  | [] => Some (true, w)
  | f :: l => Some (negb f, set_allocs l w)
  end.

(** Zero-filled structures, as [devm_kzalloc] returns them. *)
Definition zero_pdata : lp8755_platform_data :=
  PlatformData 0 (replicate (Z.to_nat LP8755_BUCK_MAX) None)
               (replicate (Z.to_nat LP8755_BUCK_MAX) 0).

Definition zero_chip : lp8755_chip :=
  Chip zero_pdata 0 0 0 (replicate (Z.to_nat LP8755_BUCK_MAX) None) 0.

(** Output disable: [for (icnt = 0; icnt < 0x06; icnt++)
    lp8755_write(pchip, icnt, 0x00)]. *)
Definition output_disable : M unit :=
  for_all 0 0x06 (λ icnt, _ ← lp8755_write icnt 0x00; skip).

(** [for (icnt = 0; icnt < mphase_buck[pchip->mphase].nreg; icnt++)
    regulator_unregister(pchip->rdev[icnt])], as written in both
    [lp8755_probe] (label [err_irq]) and [lp8755_remove]. *)
Definition unregister_first_nreg : M unit :=
  m ← gets (λ w, mphase (pchip w));
  conf ← array_get mphase_buck m;
  for_all 0 (nreg conf) (λ icnt,
    l ← gets (λ w, rdev (pchip w));
    r ← array_get l icnt;
    regulator_unregister r).

Definition lp8755_probe (client : i2c_client) : M Z :=
  if negb (i2c_func_i2c client) then mret (- EOPNOTSUPP)
  else
    ok ← devm_kzalloc;
    if negb ok then mret (- ENOMEM)
    else
      _ ← modify (set_pchip (λ _, zero_chip));
      e ← gets regmap_init;
      match e with
      | Some ret => mret ret
      | None =>
          (* labels of the error path, innermost last *)
          let err_chip_init (ret : Z) : M Z := mret ret in
          let err_regulator (ret : Z) : M Z :=
            _ ← output_disable; err_chip_init ret in
          let err_irq (ret : Z) : M Z :=
            _ ← unregister_first_nreg; err_regulator ret in
          let bring_up : M Z :=
            ret ← lp8755_regulator_init;
            if ret <? 0 then err_regulator ret
            else
              _ ← modify (set_pchip (set_irq (client_irq client)));
              ret ← lp8755_int_config;
              if ret <? 0 then err_irq ret
              else mret ret in
          match platform_data client with
          | Some pd =>
              _ ← modify (set_pchip (set_pdata pd));
              _ ← modify (set_pchip (set_mphase (pdata_mphase pd)));
              bring_up
          | None =>
              ok ← devm_kzalloc;
              if negb ok then mret (- ENOMEM)
              else
                _ ← modify (set_pchip (set_pdata zero_pdata));
                ret ← lp8755_init_data;
                if ret <? 0 then err_chip_init ret
                else bring_up
          end
      end.

Definition lp8755_remove : M Z :=
  _ ← unregister_first_nreg;
  _ ← output_disable;
  line ← gets (λ w, irq (pchip w));
  _ ← (if negb (line =? 0) then modify (log (FreeIrq line)) else skip);
  mret 0.

(** ** Reading traces *)

(** The rails registered with the framework, in order. *)
Definition registered (t : list effect) : list Z :=
  omap (λ e, match e with
             | RegulatorRegister b true => Some b
             | _ => None
             end) t.

(** The rails handed back to the framework, in order; unregistering a
    null pointer hands back nothing. *)
Definition unregistered (t : list effect) : list Z :=
  omap (λ e, match e with
             | RegulatorUnregister (Some r) => Some (rdev_get_id r)
             | _ => None
             end) t.

(** The attempts to register a rail, in order. *)
Definition register_calls (t : list effect) : list Z :=
  omap (λ e, match e with
             | RegulatorRegister b _ => Some b
             | _ => None
             end) t.

(** The register writes that reached the device, in order. *)
Definition writes (t : list effect) : list (Z * Z) :=
  omap (λ e, match e with
             | BusWrite reg val true => Some (reg, val)
             | _ => None
             end) t.

(** The bus transactions attempted. *)
Definition is_bus (e : effect) : bool :=
  match e with
  | BusRead _ _ | BusWrite _ _ _ => true
  | _ => false
  end.

(** The rails an event of class [ev] was sent to, in order. *)
Definition notified (ev : lp8755_event) (t : list effect)
  : list regulator_dev :=
  omap (λ e, match e with
             | NotifierCallChain r ev' =>
                 match ev, ev' with
                 | LP8755_EVENT_PWR_FAULT, LP8755_EVENT_PWR_FAULT
                 | LP8755_EVENT_OCP, LP8755_EVENT_OCP
                 | LP8755_EVENT_OVP, LP8755_EVENT_OVP => Some r
                 | _, _ => None
                 end
             | _ => None
             end) t.

(** A world with the given registers in which nothing fails, no rail is
    refused and the chip structure is not yet set up. *)
Definition quiet_world (r : gmap Z Z) : world :=
  World r [] 0 [] None ∅ 0 zero_chip [].

(** ** Vocabulary of the properties *)

(** The rail the framework returns for buck [i] under the default
    constraints. *)
Definition rail (i : Z) : regulator_dev :=
  RegulatorDev (lp8755_buck_desc i) (lp8755_buck_init i).

(** The coming [n] bus transactions succeed. *)
Definition bus_ok (n : nat) (w : world) : Prop := true ∉ take n (faults w).

(** The effects a computation adds to the trace of [w]. *)
Definition added (w w' : world) : list effect :=
  drop (length (trace w)) (trace w').

(** [set_ramp_delay] turns [ramp] into the hardware code [code]: with a
    working bus the call succeeds and leaves [code] in the three-bit ramp
    field of the rail's register. *)
Definition ramp_maps (r : regulator_dev) (ramp code : Z) : Prop :=
  ∀ w, bus_ok 2 w →
    ∃ w', lp8755_buck_set_ramp r ramp w = Some (0, w')
          ∧ Z.land (regs w' !!! (0x07 + rdev_get_id r)) 0x07 = code.

(** [set_voltage_sel] refuses [sel]: it returns [-EINVAL] and performs no
    register transaction. *)
Definition selector_rejected (r : regulator_dev) (sel : Z) : Prop :=
  ∀ w, ∃ w', lp8755_set_voltage_buck_sel r sel w = Some (- EINVAL, w')
             ∧ filter (λ e, is_bus e = true) (added w w') = [].

(** The value a masked update leaves in a register that held [orig]. *)
Definition updated (orig mask val : Z) : Z :=
  Z.land (Z.lor (Z.ldiff (Z.land orig 0xFF) mask) (Z.land val mask)) 0xFF.

(** [is_enabled] reports "not enabled" when its register read fails. *)
Definition disabled_on_read_error (r : regulator_dev) : Prop :=
  ∀ w l, faults w = true :: l →
    ∃ w', lp8755_is_enabled_buck r w = Some (0, w').

(** [w] with the effects [t] added to its trace. *)
Definition log_all (t : list effect) (w : world) : world :=
  World (regs w) (faults w) (stack w) (allocs w) (regmap_init w)
        (register_errs w) (request_irq_ret w) (pchip w) (trace w ++ t).

(** Whether, for the value [flag0] read from status register A, a power
    fault is to be reported for rail [i], and to which handle: bit
    [2 + i] is set in [flag0] and in the cached interrupt mask, and the
    rail has a live handle. *)
Definition pwr_fault_target (flag0 : Z) (c : lp8755_chip) (i : Z)
  : option regulator_dev :=
  if Z.testbit flag0 (2 + i) && Z.testbit (irqmask c) (2 + i)
  then mjoin (rdev c !! Z.to_nat i)
  else None.

(** The same for the rails 0..5, in this order. *)
Definition pwr_fault_targets (flag0 : Z) (c : lp8755_chip)
  : list regulator_dev :=
  omap (pwr_fault_target flag0 c) (seqZ 0 6).

(** A chip structure with the given handles and cached interrupt mask. *)
Definition chip_with (l : list (option regulator_dev)) (mask : Z)
  : lp8755_chip :=
  Chip zero_pdata 0 mask 0 l 0.

(** A world in which nothing fails, for a chip that holds a handle for
    rail 2 only, with every power-fault bit of the cached mask set and
    [flag0] in status register A. *)
Definition rail2_world (flag0 : Z) : world :=
  World {[ 0x0D := flag0 ]} [] 0 [] None ∅ 0
        (chip_with [None; None; Some (rail 2); None; None; None] 0xFC) [].

(** The effects on the regulator framework and the interrupt line: all
    but the bus transactions. *)
Definition framework_effects (t : list effect) : list effect :=
  filter (λ e, is_bus e = false) t.

(** From [w] to [w'] the driver had the framework effects [evs], and the
    environment's answers are what they were. *)
Definition steps (w w' : world) (evs : list effect) : Prop :=
  stack w' = stack w
  ∧ regmap_init w' = regmap_init w ∧ register_errs w' = register_errs w
  ∧ request_irq_ret w' = request_irq_ret w
  ∧ ∃ t, trace w' = trace w ++ t ∧ framework_effects t = evs.

(** The arrays of the chip structure and of its platform data have
    [LP8755_BUCK_MAX] elements. *)
Definition wf_chip (c : lp8755_chip) : Prop :=
  length (rdev c) = 6%nat
  ∧ length (buck_data (pdata c)) = 6%nat
  ∧ length (ramp_us (pdata c)) = 6%nat.

(** What a computation on the bus alone does to the world. *)
Definition bus_only (w w' : world) : Prop :=
  steps w w' [] ∧ pchip w' = pchip w.

(** From [w] to [w'] the chip structure is the same and no power fault
    was reported. *)
Definition no_pwr_fault (w w' : world) : Prop :=
  pchip w' = pchip w
  ∧ ∃ t, trace w' = trace w ++ t ∧ notified LP8755_EVENT_PWR_FAULT t = [].

(** From [w] to [w'] only the platform data of the chip changed. *)
Definition data_only (w w' : world) : Prop :=
  steps w w' [] ∧ rdev (pchip w') = rdev (pchip w)
  ∧ mphase (pchip w') = mphase (pchip w).

(** ** Scenarios *)

(** A client without platform data and without interrupt line, on an
    adapter with plain I2C. *)
Definition bare_client : i2c_client := I2cClient true None 0.

(** A world in which nothing fails on the bus, the chip reports the
    six-rail topology and the framework refuses buck 3 with [-EINVAL]. *)
Definition refusing_world : world :=
  World {[ 0x3D := 1 ]} [] 0 [] None {[ 3 := - EINVAL ]} 0 zero_chip [].

(** Bring-up of a chip that reports the topology [code], followed by
    teardown, in a world where nothing fails: the rails registered by
    bring-up, the rails unregistered by teardown and the registers
    written by teardown. *)
Definition bring_up_then_remove (code : Z)
  : option (list Z * list Z * list (Z * Z)) :=
  let w := quiet_world {[ 0x3D := code ]} in
  match lp8755_probe bare_client w with
  | Some (_, w1) =>
      match lp8755_remove w1 with
      | Some (_, w2) =>
          Some (registered (added w w1), unregistered (added w1 w2),
                writes (added w1 w2))
      | None => None
      end
  | None => None
  end.

(** The six enable registers, each written with zero. *)
Definition all_outputs_disabled : list (Z * Z) :=
  [(0, 0); (1, 0); (2, 0); (3, 0); (4, 0); (5, 0)].

(** ** The debug surface *)

(** [INT_MAX] and [INT_MIN] of the [int] the counter [test_mode] is
    declared with. *)
Definition INT_MAX : Z := 2 ^ 31 - 1.
Definition INT_MIN : Z := - 2 ^ 31.

Definition set_test_mode (v : Z) (c : lp8755_chip) : lp8755_chip :=
  Chip (pdata c) (irq c) (irqmask c) (mphase c) (rdev c) v.

(** [*val = pchip->test_mode; return 0]: the result and the value stored
    through [val], an unsigned 64-bit integer. *)
Definition lp8755_test_mode_show (rdev : regulator_dev) : M (Z * Z) :=
  t ← gets (λ w, test_mode (pchip w));
  mret (0, t mod 2 ^ 64).

(** The value written to the debug file is not looked at.  The counter is
    an [int] and the increment wraps in two's complement, as the kernel is
    built (with [-fno-strict-overflow]; its build options are not part of
    the sources at hand): at [INT_MAX] it becomes [INT_MIN]. *)
Definition lp8755_test_mode_set (rdev : regulator_dev) (val : Z) : M Z :=
  t ← gets (λ w, test_mode (pchip w));
  _ ← modify (set_pchip (set_test_mode (s32 (t + 1))));
  ret ← lp8755_write LP8755_REG_LOCK 0x00;
  if ret <? 0 then mret ret else
  ret ← lp8755_write LP8755_REG_LOCK 0x2C;
  if ret <? 0 then mret ret else
  ret ← lp8755_write LP8755_REG_LOCK 0x58;
  if ret <? 0 then mret ret else
  ret ← lp8755_write LP8755_REG_DEBUG 0x01;
  if ret <? 0 then mret ret else
  ret ← lp8755_write LP8755_REG_B0_CTRL 0x83;
  if ret <? 0 then mret ret else
  ret ← lp8755_write LP8755_REG_DEBUG 0x00;
  if ret <? 0 then mret ret else
  ret ← lp8755_write LP8755_REG_PH_LEV_B0 0x00;
  if ret <? 0 then mret ret else
  ret ← lp8755_write LP8755_REG_PH_LEV_B3 0x00;
  if ret <? 0 then mret ret else
  mret 0.

(** ** Vocabulary of further properties *)

(** The live handles of the chip, in slot order. *)
Definition live_handles (c : lp8755_chip) : list regulator_dev :=
  omap (λ r, r) (rdev c).

(** Bit [m] of the byte that register [k] yields when read. *)
Definition reg_bit (w : world) (k m : Z) : bool :=
  Z.testbit (Z.land (regs w !!! k) 0xFF) m.

(** [v] is a world in which to ask what the registers of [w] make the
    driver answer: it has the registers of [w], and on its bus the coming
    [n] transactions succeed. *)
Definition observes (n : nat) (v w : world) : Prop :=
  regs v = regs w ∧ bus_ok n v.

(** From [w] to [w'] the register bits outside [touch] read the same. *)
Definition frame (touch : Z → Z → bool) (w w' : world) : Prop :=
  ∀ k m, 0 ≤ m → touch k m = false → reg_bit w' k m = reg_bit w k m.

(** The register bits a masked update may change. *)
Definition touch_update (reg mask : Z) (k m : Z) : bool :=
  (k =? reg) && Z.testbit mask m.

(** The register bits [set_mode] of rail [i] may change: the rail's bit
    of the forced-mode register 0x06, bit 5 of its control register and
    bit 0 of register 0x10. *)
Definition touch_mode (i : Z) (k m : Z) : bool :=
  ((k =? 0x06) && (m =? i))
  || ((k =? 0x08 + i) && (m =? 5))
  || ((k =? 0x10) && (m =? 0)).

(** The register bits [set_ramp_delay] of rail [i] may change. *)
Definition touch_ramp (i : Z) (k m : Z) : bool :=
  (k =? 0x07 + i) && (m <? 3).

(** The upper ends, in uV/us, of the ramp ranges that have a code above
    zero. *)
Definition ramp_thresholds : list Z := [230; 470; 940; 1900; 3800; 7500; 15000].

(** The number of thresholds that [ramp] does not exceed. *)
Definition ramp_threshold_code (ramp : Z) : Z :=
  Z.of_nat (length (filter (λ t, ramp ≤ t) ramp_thresholds)).

(** The events of class [ev] the handler sends for status register B:
    to every live rail, in slot order, when bit [bit] is set in the value
    read and in the cached interrupt mask, and none otherwise. *)
Definition broadcast (ev : lp8755_event) (bit flag1 : Z) (c : lp8755_chip)
  : list effect :=
  if Z.testbit flag1 bit && Z.testbit (irqmask c) bit
  then map (λ r, NotifierCallChain r ev) (live_handles c)
  else [].

(** From [w] to [w'] the chip structure is the same, only the register
    bits in [touch] may read differently, and beside bus transactions
    there were only events sent to live handles of the chip. *)
Definition notify_step (touch : Z → Z → bool) (w w' : world) : Prop :=
  pchip w' = pchip w
  ∧ frame touch w w'
  ∧ ∃ t, trace w' = trace w ++ t
         ∧ ∀ e, e ∈ t →
             is_bus e = true
             ∨ ∃ r ev, e = NotifierCallChain r ev ∧ Some r ∈ rdev (pchip w).

(** The registers the interrupt handler writes: the status registers A
    and B. *)
Definition touch_status (k m : Z) : bool := (k =? 0x0D) || (k =? 0x0E).

(** The same for its second half. *)
Definition touch_status_b (k m : Z) : bool := k =? 0x0E.

(** Register writes issued one after the other until one fails: the
    result is that of the failed write, or 0 when all went through. *)
Definition write_seq (l : list (Z * Z)) : M Z :=
  foldr (λ rv k,
           ret ← lp8755_write rv.1 rv.2;
           if ret <? 0 then mret ret else k)
        (mret 0) l.

(** How many of [n] bus transactions in a row go through before the
    first one fails, under the schedule [fl]. *)
Fixpoint served (n : nat) (fl : list bool) : nat :=
  match n, fl with
  | O, _ => O
  | S n, [] => S n
  | S n, true :: _ => O
  | S n, false :: fl => S (served n fl)
  end.

(** The test-mode writes, in program order. *)
Definition test_mode_writes : list (Z * Z) :=
  [(LP8755_REG_LOCK, 0x00); (LP8755_REG_LOCK, 0x2C); (LP8755_REG_LOCK, 0x58);
   (LP8755_REG_DEBUG, 0x01); (LP8755_REG_B0_CTRL, 0x83);
   (LP8755_REG_DEBUG, 0x00); (LP8755_REG_PH_LEV_B0, 0x00);
   (LP8755_REG_PH_LEV_B3, 0x00)].

(** The registers a sequence of writes may change. *)
Definition touch_writes (l : list (Z * Z)) (k m : Z) : bool :=
  existsb (λ rv, k =? rv.1) l.

(** The rails of a topology, in the order of its table row. *)
Definition rails_of (conf : lp8755_mphase) : list Z :=
  take (Z.to_nat (nreg conf)) (buck_num conf).

(** Of the rails [l], those the framework accepts before it refuses
    one. *)
Fixpoint accepted (errs : gmap Z Z) (l : list Z) : list Z :=
  match l with
  | [] => []
  | b :: l =>
      match errs !! b with
      | None => b :: accepted errs l
      | Some _ => []
      end
  end.

(** The first of the rails [l] that the framework refuses, with the
    error. *)
Fixpoint refused (errs : gmap Z Z) (l : list Z) : option (Z * Z) :=
  match l with
  | [] => None
  | b :: l =>
      match errs !! b with
      | None => refused errs l
      | Some err => Some (b, err)
      end
  end.

(** The handle [r] stored in the slot of its rail. *)
Definition store_handle (d : list (option regulator_dev)) (r : regulator_dev)
  : list (option regulator_dev) :=
  <[Z.to_nat (rdev_get_id r) := Some r]> d.

(** From [w] to [w'] the topology code, the interrupt line and the
    cached mask of the chip structure are the same. *)
Definition same_wiring (w w' : world) : Prop :=
  mphase (pchip w') = mphase (pchip w)
  ∧ irq (pchip w') = irq (pchip w)
  ∧ irqmask (pchip w') = irqmask (pchip w).

(** Every element is below the ones after it. *)
Fixpoint ascending (l : list Z) : Prop :=
  match l with
  | [] => True
  | a :: l => Forall (λ x, a < x) l ∧ ascending l
  end.

(** The default constraints stored in the slot of rail [b]. *)
Definition store_default (d : list (option regulator_init_data)) (b : Z)
  : list (option regulator_init_data) :=
  <[Z.to_nat b := Some (lp8755_buck_init b)]> d.

(** The part of [lp8755_probe] from the call of [lp8755_regulator_init]
    on, with its error labels. *)
Definition probe_bring_up (client : i2c_client) : M Z :=
  ret ← lp8755_regulator_init;
  if ret <? 0 then
    (* err_regulator *)
    _ ← output_disable; mret ret
  else
    _ ← modify (set_pchip (set_irq (client_irq client)));
    ret ← lp8755_int_config;
    if ret <? 0 then
      (* err_irq *)
      _ ← unregister_first_nreg; _ ← output_disable; mret ret
    else mret ret.

(** The topology [conf] is known to bring-up: from the platform data of
    the client, or, without platform data, from the chip's configuration
    register. *)
Definition topology_known (client : i2c_client) (w : world)
    (conf : lp8755_mphase) : Prop :=
  match platform_data client with
  | Some pd =>
      0 ≤ pdata_mphase pd
      ∧ mphase_buck !! Z.to_nat (pdata_mphase pd) = Some conf
      ∧ length (buck_data pd) = 6%nat ∧ length (ramp_us pd) = 6%nat
  | None =>
      bus_ok 1 w
      ∧ mphase_buck !! Z.to_nat (Z.land (regs w !!! 0x3D) 0x0F) = Some conf
  end.
(** * Verification *)

(** ** Tactics and basic facts *)

Ltac munfold :=
  unfold mbind, M_bind, mret, M_ret, gets, modify, uninitialized, skip,
    undefined.

(** Closes a goal in which a bus transaction assumed to succeed is
    scheduled to fail. *)
Ltac faulty H :=
  solve [exfalso; apply H; first [left | right; left]].

Ltac bus_unfold :=
  unfold lp8755_update_bits, regmap_update_bits, lp8755_read, lp8755_write,
    regmap_read, regmap_write, bus_fault.

(** One step of a computation: the outermost bind. *)
Ltac mstep := unfold mbind at 1, M_bind at 1.

(** Projections of a world or chip structure that was updated. *)
Ltac wsimpl :=
  cbn [pchip regs faults stack allocs regmap_init register_errs
       request_irq_ret trace log set_pchip set_regs set_faults set_allocs
       set_rdev set_buck_data set_pdata set_mphase set_irq set_irqmask
       rdev pdata buck_data ramp_us pdata_mphase mphase irq irqmask
       test_mode].

(** The six values of a rail identifier. *)
Ltac six_cases b Hb :=
  let H := fresh in
  assert (b = 0 ∨ b = 1 ∨ b = 2 ∨ b = 3 ∨ b = 4 ∨ b = 5) as H by lia;
  clear Hb; destruct H as [->|[->|[->|[->|[->| ->]]]]].

(** Every rail of the table has an identifier in 0..5 and is built by
    [lp8755_buck_desc]. *)
Lemma regulators_inv (d : regulator_desc) :
  d ∈ lp8755_regulators → ∃ i, 0 ≤ i ≤ 5 ∧ d = lp8755_buck_desc i.
Proof.
  unfold lp8755_regulators. rewrite !elem_of_cons, elem_of_nil.
  intros [->|[->|[->|[->|[->|[->|[]]]]]]]; eexists; (split; [|reflexivity]); lia.
Qed.

Lemma rail_in_table (i : Z) : 0 ≤ i ≤ 5 → desc (rail i) ∈ lp8755_regulators.
Proof.
  intros Hi. assert (i = 0 ∨ i = 1 ∨ i = 2 ∨ i = 3 ∨ i = 4 ∨ i = 5) as Hc by lia.
  clear Hi. destruct Hc as [->|[->|[->|[->|[->| ->]]]]];
    unfold lp8755_regulators, rail; cbn [desc]; set_solver.
Qed.

(** A bit test against a power of two, as the C code writes it. *)
Lemma land_pow2_eqb (x n : Z) :
  0 ≤ n → (Z.land x (2 ^ n) =? 0) = negb (Z.testbit x n).
Proof.
  intros Hn. destruct (Z.testbit x n) eqn:E; cbn.
  - apply Z.eqb_neq. intros H0.
    assert (Z.testbit (Z.land x (2 ^ n)) n = true) as Hb
      by (rewrite Z.land_spec, E, Z.pow2_bits_true; auto).
    rewrite H0, Z.bits_0 in Hb. discriminate.
  - apply Z.eqb_eq. apply Z.bits_inj'. intros m Hm.
    rewrite Z.land_spec, Z.bits_0, Z.pow2_bits_eqb by lia.
    destruct (Z.eqb_spec n m) as [->|]; [rewrite E|]; auto using andb_false_r.
Qed.

(** A masked update on a working bus: one read, one write, and the
    register holds the merged value. *)
Lemma update_bits_ok (reg mask val : Z) (w : world) :
  bus_ok 2 w →
  lp8755_update_bits reg mask val w =
    Some (0, World (<[reg := updated (regs w !!! reg) mask val]> (regs w))
                   (drop 2 (faults w)) (stack w) (allocs w) (regmap_init w)
                   (register_errs w) (request_irq_ret w) (pchip w)
                   (trace w ++ [BusRead reg true;
                                BusWrite reg (updated (regs w !!! reg) mask val) true])).
Proof.
  destruct w as [rg fl st al ri re rq pc tr]. unfold bus_ok. cbn.
  destruct fl as [|[] [|[] fl]]; cbn; intros H;
    try (faulty H);
    bus_unfold; munfold; cbn; unfold log, set_regs, updated; cbn;
    rewrite <- ?app_assoc; reflexivity.
Qed.

(** ** C5: the selector to microvolt table *)

(** C5.  For every rail and every selector 0..118 the listed voltage is
    exactly 500000 + 10000 * selector microvolts; for selector 119 and
    above (any [unsigned int]) the result is [-EINVAL]. *)
Theorem list_voltage_buck_linear (r : regulator_dev) (selector : Z) :
  desc r ∈ lp8755_regulators →
  0 ≤ selector < 2 ^ 32 →
  (selector ≤ 118 →
     lp8755_list_voltage_buck r selector = 500000 + 10000 * selector)
  ∧ (119 ≤ selector → lp8755_list_voltage_buck r selector = - EINVAL).
Proof.
  intros Hr Hs. apply regulators_inv in Hr as (i & _ & Hd).
  unfold lp8755_list_voltage_buck. rewrite Hd.
  change (n_voltages (lp8755_buck_desc i)) with 119.
  split; intros H.
  - destruct (Z.leb_spec 119 selector); [lia|].
    unfold s32, u32.
    rewrite (Z.mod_small (10000 * selector)) by lia.
    rewrite !(Z.mod_small (500000 + 10000 * selector)) by lia.
    destruct (Z.ltb_spec (500000 + 10000 * selector) (2 ^ 31)); lia.
  - destruct (Z.leb_spec 119 selector); [reflexivity|lia].
Qed.

Lemma list_voltage_buck_linear_witness :
  lp8755_list_voltage_buck (rail 3) 118 = 1680000
  ∧ lp8755_list_voltage_buck (rail 3) 119 = -22.
Proof.
  assert (desc (rail 3) ∈ lp8755_regulators) as Hr
    by (apply rail_in_table; lia).
  split.
  - apply (list_voltage_buck_linear (rail 3) 118 Hr); lia.
  - apply (list_voltage_buck_linear (rail 3) 119 Hr); lia.
Defined.

(** ** C3: ramp rate codes *)

Lemma set_ramp_code (r : regulator_dev) (ramp code : Z) :
  ramp_regval ramp = Some code → 0 ≤ code ≤ 7 → ramp_maps r ramp code.
Proof.
  intros Hc Hr w Hw. unfold lp8755_buck_set_ramp. rewrite Hc.
  unfold mbind, M_bind at 1. rewrite update_bits_ok by assumption.
  eexists. split; [reflexivity|]. cbn [regs].
  rewrite lookup_total_insert_eq. unfold updated.
  assert (code = Z.land code 7) as Hcode.
  { assert (code = 0 ∨ code = 1 ∨ code = 2 ∨ code = 3 ∨ code = 4 ∨ code = 5
            ∨ code = 6 ∨ code = 7) as Hcases by lia.
    clear Hc Hr. destruct Hcases as [->|[->|[->|[->|[->|[->|[->| ->]]]]]]];
      reflexivity. }
  rewrite Hcode at 2. apply Z.bits_inj'. intros n Hn.
  rewrite !Z.land_spec, Z.lor_spec, Z.ldiff_spec, !Z.land_spec.
  destruct (Z.testbit 7 n) eqn:E7; [|rewrite !andb_false_r; reflexivity].
  assert (Z.testbit 255 n = true) as E255.
  { change 7 with (Z.ones 3) in E7. change 255 with (Z.ones 8).
    apply Z.ones_spec_iff in E7; [|lia]. apply Z.ones_spec_iff; lia. }
  rewrite E255. cbn. rewrite !andb_true_r, andb_false_r. reflexivity.
Qed.

(** C3, as the spec states it for the input 3800, does not hold: the
    code written for 3800 uV/us is 0x03, not 0x02. *)
Lemma set_ramp_3800_not_0x02 : ¬ ramp_maps (rail 0) 3800 0x02.
Proof.
  intros H. destruct (H (quiet_world ∅)) as (w' & Hrun & Hcode).
  { apply not_elem_of_nil. }
  vm_compute in Hrun. injection Hrun as <-. vm_compute in Hcode.
  discriminate.
Qed.

(** C3 (amended).  For any rail, [set_ramp_delay] maps the boundary inputs
    230, 231, 470, 471, 3800, 3801, 30000 to the hardware codes 0x07,
    0x06, 0x06, 0x05, 0x03, 0x02, 0x00, and rejects 30001 and any larger
    value with [-EINVAL], without touching the bus. *)
Theorem set_ramp_boundaries (r : regulator_dev) :
  ramp_maps r 230 0x07 ∧ ramp_maps r 231 0x06 ∧ ramp_maps r 470 0x06
  ∧ ramp_maps r 471 0x05 ∧ ramp_maps r 3800 0x03 ∧ ramp_maps r 3801 0x02
  ∧ ramp_maps r 30000 0x00
  ∧ ∀ ramp w, 30001 ≤ ramp →
      lp8755_buck_set_ramp r ramp w = Some (- EINVAL, w).
Proof.
  repeat (split; [apply set_ramp_code; [reflexivity|lia]|]).
  intros ramp w Hramp. unfold lp8755_buck_set_ramp, ramp_regval.
  repeat match goal with
         | |- context [?a <=? ?b] => destruct (Z.leb_spec a b); try lia
         end.
  reflexivity.
Qed.

Lemma set_ramp_boundaries_witness :
  (∃ w', lp8755_buck_set_ramp (rail 2) 3800 (quiet_world ∅) = Some (0, w')
         ∧ Z.land (regs w' !!! (0x07 + rdev_get_id (rail 2))) 0x07 = 0x03)
  ∧ lp8755_buck_set_ramp (rail 2) 30001 (quiet_world ∅)
    = Some (-22, quiet_world ∅).
Proof.
  pose proof (set_ramp_boundaries (rail 2))
    as (_ & _ & _ & _ & H3800 & _ & _ & Hrej).
  split.
  - apply (H3800 (quiet_world ∅)). apply not_elem_of_nil.
  - apply Hrej. lia.
Defined.

(** ** C4: voltage selection *)

Lemma updated_field (orig sel : Z) :
  Z.land (updated orig 0x7F sel) 0x7F = Z.land sel 0x7F
  ∧ Z.land (updated orig 0x7F sel) 0x80 = Z.land orig 0x80.
Proof.
  unfold updated. change 0x7F with (Z.ones 7). change 0xFF with (Z.ones 8).
  change 0x80 with (2 ^ 7).
  split; apply Z.bits_inj'; intros n Hn;
    rewrite !Z.land_spec, Z.lor_spec, Z.ldiff_spec, !Z.land_spec,
      ?Z.testbit_ones_nonneg, ?Z.pow2_bits_eqb by lia;
    destruct (Z.ltb_spec n 7), (Z.ltb_spec n 8), (Z.eqb_spec 7 n);
    try lia; cbn; rewrite ?andb_true_r, ?andb_false_r, ?orb_false_r;
    reflexivity.
Qed.

(** C4, as stated, does not hold: selector 119 is not refused; on a
    working bus the call returns 0 after a register update. *)
Lemma set_voltage_119_not_rejected : ¬ selector_rejected (rail 0) 119.
Proof.
  intros H. destruct (H (quiet_world ∅)) as (w' & Hrun & _).
  vm_compute in Hrun. discriminate.
Qed.

(** C4 (amended).  For any rail, [set_voltage_sel] does not check the
    selector: whatever the selector, 119 and above included, it shifts
    it into the voltage-field bit position (bit 0) and masked-updates
    (mask 0x7F) the register the rail shares between enable bit and
    voltage field; on a working bus this is one read and one write, the
    enable bit keeps its value and the field receives the low seven bits
    of the selector, which for 0..118 is the selector itself. *)
Theorem set_voltage_buck_sel_unchecked (r : regulator_dev) (sel : Z)
    (w : world) :
  desc r ∈ lp8755_regulators →
  0 ≤ sel < 2 ^ 32 →
  let reg := enable_reg (desc r) in
  lp8755_set_voltage_buck_sel r sel w = lp8755_update_bits reg 0x7F sel w
  ∧ (bus_ok 2 w →
     ∃ w' v,
       lp8755_set_voltage_buck_sel r sel w = Some (0, w')
       ∧ added w w' = [BusRead reg true; BusWrite reg v true]
       ∧ regs w' !!! reg = v
       ∧ Z.land v 0x7F = Z.land sel 0x7F
       ∧ (sel ≤ 118 → Z.land v 0x7F = sel)
       ∧ Z.land v 0x80 = Z.land (regs w !!! reg) 0x80).
Proof.
  intros Hr Hs reg. apply regulators_inv in Hr as (i & _ & Hd).
  assert (lp8755_set_voltage_buck_sel r sel w
          = lp8755_update_bits reg 0x7F sel w) as Heq.
  { unfold lp8755_set_voltage_buck_sel, reg. rewrite Hd.
    change (vsel_mask (lp8755_buck_desc i)) with 0x7F.
    change (ffs 0x7F - 1) with 0.
    change (vsel_reg (lp8755_buck_desc i))
      with (enable_reg (lp8755_buck_desc i)).
    rewrite Z.shiftl_0_r. unfold u32. rewrite Z.mod_small by lia.
    reflexivity. }
  split; [exact Heq|]. intros Hw. rewrite Heq, update_bits_ok by assumption.
  destruct (updated_field (regs w !!! reg) sel) as [Hf He].
  eexists _, _. split; [reflexivity|]. cbn [regs trace].
  unfold added. cbn [trace]. rewrite drop_app_length, lookup_total_insert_eq.
  repeat split; try assumption.
  intros Hsel. rewrite Hf. change 0x7F with (Z.ones 7).
  rewrite Z.land_ones, Z.mod_small by lia. reflexivity.
Qed.

Lemma set_voltage_buck_sel_unchecked_witness :
  lp8755_set_voltage_buck_sel (rail 0) 119 (quiet_world ∅)
  = lp8755_update_bits 0 0x7F 119 (quiet_world ∅).
Proof.
  apply (set_voltage_buck_sel_unchecked (rail 0) 119 (quiet_world ∅)).
  - apply rail_in_table. lia.
  - lia.
Defined.

(** ** C9: [is_enabled] and a failing read *)

(** The property of C9 does not hold of the code: when the read fails
    the result is computed from a variable nothing was stored in, and
    can be 1. *)
Lemma is_enabled_read_error_not_disabled :
  ¬ disabled_on_read_error (rail 0).
Proof.
  intros H.
  destruct (H (World ∅ [true] 0x80 [] None ∅ 0 zero_chip []) [])
    as (w' & Hrun); [reflexivity|].
  vm_compute in Hrun. discriminate.
Qed.

(** C9 fails on the code.  When the register read inside [is_enabled]
    fails, nothing is stored in the local [reg], which is declared
    without initialiser, and the result is computed from it all the
    same: the call returns 1, "enabled", whenever what the variable
    happened to hold has the enable bit set, and 0 otherwise.  The
    error of the read is dropped, and the failed read is all the call
    did. *)
Theorem is_enabled_read_error_follows_stack (r : regulator_dev) (w : world)
    (l : list bool) :
  faults w = true :: l →
  lp8755_is_enabled_buck r w
  = Some (if Z.land (stack w) (enable_mask (desc r)) =? 0 then 0 else 1,
          log (BusRead (enable_reg (desc r)) false) (set_faults l w)).
Proof.
  intros Hf. destruct w as [rg fl st al ri re rq pc tr]. cbn in Hf. subst fl.
  unfold lp8755_is_enabled_buck. bus_unfold. munfold. reflexivity.
Qed.

Lemma is_enabled_read_error_follows_stack_witness :
  lp8755_is_enabled_buck (rail 1)
    (World ∅ [true] 0x80 [] None ∅ 0 zero_chip [])
  = Some (1, World ∅ [] 0x80 [] None ∅ 0 zero_chip [BusRead 0x03 false]).
Proof.
  rewrite (is_enabled_read_error_follows_stack (rail 1)
             (World ∅ [true] 0x80 [] None ∅ 0 zero_chip []) []).
  - reflexivity.
  - reflexivity.
Defined.

(** ** C6: mode round trip *)

Lemma bind_inv {A B : Type} (m : M A) (k : A → M B) (w w2 : world) (b : B) :
  (m ≫= k) w = Some (b, w2) →
  ∃ a w1, m w = Some (a, w1) ∧ k a w1 = Some (b, w2).
Proof.
  unfold mbind, M_bind. destruct (m w) as [[a w1]|]; [|discriminate].
  intros H. eauto.
Qed.

(** A masked update that reports success has stored the merged value. *)
Lemma update_bits_inv (reg mask val : Z) (w w1 : world) (ret : Z) :
  lp8755_update_bits reg mask val w = Some (ret, w1) →
  (ret < 0 ∧ regs w1 = regs w)
  ∨ (ret = 0 ∧ regs w1 = <[reg := updated (regs w !!! reg) mask val]> (regs w)).
Proof.
  destruct w as [rg fl st al ri re rq pc tr].
  bus_unfold. munfold.
  destruct fl as [|[] [|[] fl]]; cbn; intros H; inversion H; subst; cbn;
    first [ left; split; [reflexivity|reflexivity]
          | right; split; reflexivity ].
Qed.

Lemma read_ok (reg val : Z) (w : world) :
  bus_ok 1 w →
  lp8755_read reg val w =
    Some ((0, Z.land (regs w !!! reg) 0xFF),
          World (regs w) (drop 1 (faults w)) (stack w) (allocs w)
                (regmap_init w) (register_errs w) (request_irq_ret w)
                (pchip w) (trace w ++ [BusRead reg true])).
Proof.
  destruct w as [rg fl st al ri re rq pc tr]. unfold bus_ok. cbn.
  destruct fl as [|[] fl]; cbn; intros H;
    try (faulty H);
    bus_unfold; munfold; reflexivity.
Qed.

Lemma take_2_head (l : list bool) : true ∉ take 2 l → true ∉ take 1 l.
Proof.
  destruct l as [|a [|b l]]; cbn; intros H Hin; apply H;
    rewrite ?elem_of_cons in *; tauto.
Qed.

Lemma bus_ok_2_drop (l : list bool) : true ∉ take 2 l → true ∉ take 1 (drop 1 l).
Proof.
  destruct l as [|a [|b l]]; cbn; intros H Hin; apply H;
    rewrite ?elem_of_cons in *; tauto.
Qed.

Lemma bus_ok_2_1 (w : world) : bus_ok 2 w → bus_ok 1 w.
Proof. apply take_2_head. Qed.

Lemma updated_bit (orig v n : Z) :
  0 ≤ n < 8 →
  Z.testbit (Z.land (updated orig (2 ^ n) v) 0xFF) n = Z.testbit v n.
Proof.
  intros Hn. unfold updated. change 0xFF with (Z.ones 8).
  rewrite !Z.land_spec, Z.lor_spec, Z.ldiff_spec, !Z.land_spec,
    Z.testbit_ones_nonneg, Z.pow2_bits_true by lia.
  destruct (Z.ltb_spec n 8); [|lia]. cbn.
  rewrite !andb_true_r, andb_false_r. reflexivity.
Qed.

(** [get_mode] on a working bus, from the two registers it looks at. *)
Lemma get_mode_ok (r : regulator_dev) (w : world) :
  0 ≤ rdev_get_id r ≤ 5 →
  bus_ok 2 w →
  ∃ w2, lp8755_buck_get_mode r w =
    Some (if Z.testbit (Z.land (regs w !!! 0x06) 0xFF) (rdev_get_id r)
          then REGULATOR_MODE_FAST
          else if Z.testbit (Z.land (regs w !!! (0x08 + rdev_get_id r)) 0xFF) 5
               then REGULATOR_MODE_IDLE
               else REGULATOR_MODE_NORMAL, w2).
Proof.
  intros Hi Hw. unfold lp8755_buck_get_mode.
  unfold mbind at 1, M_bind at 1, uninitialized, gets.
  unfold mbind at 1, M_bind at 1. rewrite read_ok by (apply bus_ok_2_1, Hw).
  change (0 <? 0) with false. cbv iota.
  rewrite Z.shiftl_1_l, land_pow2_eqb, negb_involutive by lia.
  destruct (Z.testbit _ (rdev_get_id r)); [eexists; reflexivity|].
  unfold mbind at 1, M_bind at 1. rewrite read_ok
    by (unfold bus_ok; cbn [faults]; apply bus_ok_2_drop, Hw).
  cbn [regs]. change (0 <? 0) with false. cbv iota.
  change 0x20 with (2 ^ 5). rewrite land_pow2_eqb, negb_involutive by lia.
  destruct (Z.testbit _ 5); eexists; reflexivity.
Qed.

(** C6.  For every rail 0..5 and every mode among Fast, Normal and Idle:
    when [set_mode] has succeeded and the bus then works, [get_mode]
    returns the mode that was set. *)
Theorem set_mode_get_mode (r : regulator_dev) (mode ret : Z) (w w1 : world) :
  desc r ∈ lp8755_regulators →
  mode = REGULATOR_MODE_FAST ∨ mode = REGULATOR_MODE_NORMAL
    ∨ mode = REGULATOR_MODE_IDLE →
  lp8755_buck_set_mode r mode w = Some (ret, w1) →
  0 ≤ ret →
  bus_ok 2 w1 →
  ∃ w2, lp8755_buck_get_mode r w1 = Some (mode, w2).
Proof.
  intros Hr Hmode Hset Hret Hbus.
  assert (0 ≤ rdev_get_id r ≤ 5) as Hi.
  { apply regulators_inv in Hr as (i & Hi & Hd). unfold rdev_get_id.
    rewrite Hd. exact Hi. }
  destruct (get_mode_ok r w1 Hi Hbus) as (w2 & Hget).
  exists w2. rewrite Hget. clear Hget. f_equal. f_equal.
  unfold lp8755_buck_set_mode in Hset.
  rewrite Z.shiftl_1_l in Hset.
  set (i := rdev_get_id r) in *.
  destruct Hmode as [->|[->| ->]].
  - (* Fast *)
    change (REGULATOR_MODE_FAST =? REGULATOR_MODE_FAST) with true in Hset.
    cbv iota in Hset.
    apply bind_inv in Hset as (ret1 & wa & Hu & Hk).
    apply update_bits_inv in Hu as [[Hneg _]|[-> Hregs]].
    + destruct (Z.ltb_spec ret1 0); [|lia].
      injection Hk as -> _. lia.
    + change (0 <? 0) with false in Hk. injection Hk as _ <-.
      rewrite Hregs, lookup_total_insert_eq, updated_bit by lia.
      rewrite Z.pow2_bits_true by lia. reflexivity.
  - (* Normal *)
    change (REGULATOR_MODE_NORMAL =? REGULATOR_MODE_FAST) with false in Hset.
    change (REGULATOR_MODE_NORMAL =? REGULATOR_MODE_NORMAL) with true in Hset.
    cbv iota in Hset.
    apply bind_inv in Hset as (ret1 & wa & Hu1 & Hk).
    apply update_bits_inv in Hu1 as [[Hneg _]|[-> Hregs1]].
    { destruct (Z.ltb_spec ret1 0); [|lia]. injection Hk as -> _. lia. }
    change (0 <? 0) with false in Hk. cbv iota in Hk.
    apply bind_inv in Hk as (ret2 & wb & Hu2 & Hk).
    apply update_bits_inv in Hu2 as [[Hneg _]|[-> Hregs2]].
    { destruct (Z.ltb_spec ret2 0); [|lia]. injection Hk as -> _. lia. }
    injection Hk as _ <-.
    rewrite Hregs2, lookup_total_insert_eq, updated_bit by lia.
    rewrite Z.bits_0, lookup_total_insert_ne by lia.
    rewrite Hregs1, lookup_total_insert_eq.
    change 0x20 with (2 ^ 5). rewrite updated_bit by lia.
    rewrite Z.bits_0. reflexivity.
  - (* Idle *)
    change (REGULATOR_MODE_IDLE =? REGULATOR_MODE_FAST) with false in Hset.
    change (REGULATOR_MODE_IDLE =? REGULATOR_MODE_NORMAL) with false in Hset.
    change (REGULATOR_MODE_IDLE =? REGULATOR_MODE_IDLE) with true in Hset.
    cbv iota in Hset.
    apply bind_inv in Hset as (ret1 & wa & Hu1 & Hk).
    apply update_bits_inv in Hu1 as [[Hneg _]|[-> Hregs1]].
    { destruct (Z.ltb_spec ret1 0); [|lia]. injection Hk as -> _. lia. }
    change (0 <? 0) with false in Hk. cbv iota in Hk.
    apply bind_inv in Hk as (ret2 & wb & Hu2 & Hk).
    apply update_bits_inv in Hu2 as [[Hneg _]|[-> Hregs2]].
    { destruct (Z.ltb_spec ret2 0); [|lia]. injection Hk as -> _. lia. }
    change (0 <? 0) with false in Hk. cbv iota in Hk.
    apply bind_inv in Hk as (ret3 & wc & Hu3 & Hk).
    apply update_bits_inv in Hu3 as [[Hneg _]|[-> Hregs3]].
    { destruct (Z.ltb_spec ret3 0); [|lia]. injection Hk as -> _. lia. }
    injection Hk as _ <-.
    rewrite Hregs3, lookup_total_insert_eq, updated_bit by lia.
    rewrite Z.bits_0, lookup_total_insert_ne by lia.
    rewrite Hregs2, lookup_total_insert_ne by lia.
    rewrite Hregs1, lookup_total_insert_eq.
    change 0x20 with (2 ^ 5). rewrite updated_bit by lia.
    reflexivity.
Qed.

Lemma set_mode_get_mode_witness :
  ∃ w1,
    lp8755_buck_set_mode (rail 2) REGULATOR_MODE_IDLE (quiet_world ∅)
    = Some (0, w1)
    ∧ ∃ w2, lp8755_buck_get_mode (rail 2) w1 = Some (REGULATOR_MODE_IDLE, w2).
Proof.
  eexists. split; [vm_compute; reflexivity|].
  eapply (set_mode_get_mode (rail 2) REGULATOR_MODE_IDLE 0 (quiet_world ∅)).
  - apply rail_in_table. lia.
  - right. right. reflexivity.
  - vm_compute. reflexivity.
  - lia.
  - apply not_elem_of_nil.
Defined.

(** ** The interrupt handler *)

Lemma log_all_nil (w : world) : log_all [] w = w.
Proof. destruct w. unfold log_all. cbn. rewrite app_nil_r. reflexivity. Qed.

Lemma log_all_app (t1 t2 : list effect) (w : world) :
  log_all t2 (log_all t1 w) = log_all (t1 ++ t2) w.
Proof. unfold log_all. cbn. rewrite app_assoc. reflexivity. Qed.

Lemma array_get_ok {A : Type} (a : list A) (i : Z) (x : A) (w : world) :
  0 ≤ i → a !! Z.to_nat i = Some x → array_get a i w = Some (x, w).
Proof.
  intros Hi Hx. unfold array_get.
  assert (i < Z.of_nat (length a)) as Hlt
    by (apply lookup_lt_Some in Hx; lia).
  destruct (Z.leb_spec 0 i); [|lia].
  destruct (Z.ltb_spec i (Z.of_nat (length a))); [|lia].
  cbn. rewrite Hx. reflexivity.
Qed.

(** A loop whose body only adds effects that depend on the chip
    structure adds them in index order. *)
Lemma for_each_log (c : lp8755_chip) (body : Z → M unit)
    (ev : Z → list effect) (l : list Z) :
  (∀ i w, i ∈ l → pchip w = c → body i w = Some (tt, log_all (ev i) w)) →
  ∀ w, pchip w = c →
    for_each (R := Empty_set) l (λ icnt, _ ← body icnt; mret None) w
    = Some (None, log_all (concat (map ev l)) w).
Proof.
  induction l as [|i l IH]; intros Hbody w Hc.
  - cbn. rewrite log_all_nil. reflexivity.
  - cbn [for_each]. unfold mbind at 1, M_bind at 1.
    unfold mbind at 1, M_bind at 1.
    rewrite (Hbody i w) by (auto; left).
    unfold mret at 1, M_ret at 1.
    rewrite IH; [|intros; apply Hbody; auto; right; assumption|exact Hc].
    cbn [map concat]. rewrite log_all_app. reflexivity.
Qed.

Lemma for_all_log (c : lp8755_chip) (body : Z → M unit)
    (ev : Z → list effect) (lo hi : Z) (w : world) :
  (∀ i w, lo ≤ i < hi → pchip w = c →
     body i w = Some (tt, log_all (ev i) w)) →
  pchip w = c →
  for_all lo hi body w
  = Some (tt, log_all (concat (map ev (seqZ lo (hi - lo)))) w).
Proof.
  intros Hbody Hc. unfold for_all, for_loop.
  unfold mbind at 1, M_bind at 1.
  rewrite (for_each_log c body ev); [reflexivity| |exact Hc].
  intros i w0 Hi. apply Hbody. apply elem_of_seqZ in Hi. lia.
Qed.

Lemma concat_map_omap {A B : Type} (f : B → effect) (g : A → option B)
    (l : list A) :
  concat (map (λ i, match g i with Some b => [f b] | None => [] end) l)
  = map f (omap g l).
Proof.
  induction l as [|a l IH]; [reflexivity|].
  cbn. destruct (g a); cbn; rewrite IH; reflexivity.
Qed.

Lemma shiftl_4 (i : Z) : 0 ≤ i → Z.shiftl 4 i = 2 ^ (2 + i).
Proof.
  intros Hi. rewrite Z.shiftl_mul_pow2, Z.pow_add_r by lia. reflexivity.
Qed.

(** The slot of a rail exists in a chip structure of six slots. *)
Lemma rdev_slot (c : lp8755_chip) (i : Z) :
  length (rdev c) = 6%nat → 0 ≤ i < 6 →
  ∃ x, rdev c !! Z.to_nat i = Some x.
Proof.
  intros Hlen Hi. apply lookup_lt_is_Some_2. lia.
Qed.

(** The power-fault loop reports to [pwr_fault_targets], in order, and
    does nothing else. *)
Lemma notify_pwr_fault_run (flag0 : Z) (w : world) :
  length (rdev (pchip w)) = 6%nat →
  notify_pwr_fault flag0 w
  = Some (tt, log_all (map (λ r, NotifierCallChain r LP8755_EVENT_PWR_FAULT)
                           (pwr_fault_targets flag0 (pchip w))) w).
Proof.
  intros Hlen. unfold notify_pwr_fault, pwr_fault_targets.
  rewrite <- concat_map_omap. unfold pwr_fault_target.
  apply (for_all_log (pchip w)); [|reflexivity].
  intros i w0 Hi Hc. munfold. rewrite Hc.
  rewrite !shiftl_4, !land_pow2_eqb, !negb_involutive by lia.
  destruct (Z.testbit flag0 (2 + i) && Z.testbit (irqmask (pchip w)) (2 + i));
    [|rewrite log_all_nil; reflexivity].
  destruct (rdev_slot (pchip w) i Hlen) as (x & Hx); [lia|].
  rewrite Hc, (array_get_ok _ _ x) by (lia || assumption).
  rewrite Hx. destruct x as [r|]; cbn.
  - reflexivity.
  - rewrite log_all_nil. reflexivity.
Qed.

(** The broadcast loops report to every live rail, in slot order. *)
Lemma notify_all_run (ev : lp8755_event) (w : world) :
  length (rdev (pchip w)) = 6%nat →
  notify_all ev w
  = Some (tt, log_all (map (λ r, NotifierCallChain r ev)
                           (omap (λ i, mjoin (rdev (pchip w) !! Z.to_nat i))
                                 (seqZ 0 6))) w).
Proof.
  intros Hlen. unfold notify_all. rewrite <- concat_map_omap.
  apply (for_all_log (pchip w)); [|reflexivity].
  intros i w0 Hi Hc. munfold. rewrite Hc.
  destruct (rdev_slot (pchip w) i Hlen) as (x & Hx); [exact Hi|].
  rewrite (array_get_ok _ _ x) by (lia || assumption).
  rewrite Hx. destruct x as [r|]; cbn.
  - reflexivity.
  - rewrite log_all_nil. reflexivity.
Qed.

Lemma notified_pwr_fault_other (ev : lp8755_event) (l : list regulator_dev) :
  ev ≠ LP8755_EVENT_PWR_FAULT →
  notified LP8755_EVENT_PWR_FAULT (map (λ r, NotifierCallChain r ev) l) = [].
Proof.
  intros Hev. induction l as [|r l IH]; [reflexivity|].
  cbn. destruct ev; try congruence; exact IH.
Qed.

Lemma notified_app (ev : lp8755_event) (t1 t2 : list effect) :
  notified ev (t1 ++ t2) = notified ev t1 ++ notified ev t2.
Proof. apply omap_app. Qed.

Lemma notified_pwr_fault_same (l : list regulator_dev) :
  notified LP8755_EVENT_PWR_FAULT
    (map (λ r, NotifierCallChain r LP8755_EVENT_PWR_FAULT) l) = l.
Proof.
  unfold notified. induction l as [|r l IH]; [reflexivity|].
  cbn. rewrite IH. reflexivity.
Qed.

Lemma no_pwr_fault_refl (w : world) : no_pwr_fault w w.
Proof.
  split; [reflexivity|]. exists []. rewrite app_nil_r. split; reflexivity.
Qed.

Lemma no_pwr_fault_trans (w w1 w2 : world) :
  no_pwr_fault w w1 → no_pwr_fault w1 w2 → no_pwr_fault w w2.
Proof.
  intros (Hc1 & t1 & Ht1 & Hn1) (Hc2 & t2 & Ht2 & Hn2).
  split; [congruence|]. exists (t1 ++ t2).
  rewrite Ht2, Ht1, app_assoc, notified_app, Hn1, Hn2. split; reflexivity.
Qed.

Ltac solve_no_pwr_fault :=
  split; [reflexivity|]; eexists; cbn [trace];
  rewrite <- ?app_assoc; split; reflexivity.

Lemma read_no_pwr_fault (reg val : Z) (w : world) :
  ∃ ret v w', lp8755_read reg val w = Some ((ret, v), w') ∧ no_pwr_fault w w'.
Proof.
  destruct w as [rg fl st al ri re rq pc tr].
  bus_unfold. munfold. unfold log, set_faults.
  destruct fl as [|[] fl]; cbn [faults];
    eexists _, _, _; (split; [reflexivity|]); solve_no_pwr_fault.
Qed.

Lemma write_no_pwr_fault (reg val : Z) (w : world) :
  ∃ ret w', lp8755_write reg val w = Some (ret, w') ∧ no_pwr_fault w w'.
Proof.
  destruct w as [rg fl st al ri re rq pc tr].
  bus_unfold. munfold. unfold log, set_faults, set_regs.
  destruct fl as [|[] fl]; cbn [faults];
    eexists _, _; (split; [reflexivity|]); solve_no_pwr_fault.
Qed.

Lemma notify_all_no_pwr_fault (b : bool) (ev : lp8755_event) (w : world) :
  ev ≠ LP8755_EVENT_PWR_FAULT →
  length (rdev (pchip w)) = 6%nat →
  ∃ w', (if b then notify_all ev else skip) w = Some (tt, w')
        ∧ no_pwr_fault w w'.
Proof.
  intros Hev Hlen. destruct b.
  - rewrite notify_all_run by exact Hlen. eexists. split; [reflexivity|].
    split; [reflexivity|]. eexists. split; [reflexivity|].
    apply notified_pwr_fault_other, Hev.
  - exists w. split; [reflexivity|apply no_pwr_fault_refl].
Qed.

(** The second half of the handler is defined whatever the bus does,
    and reports no power fault. *)
Lemma irq_flag1_run (w : world) :
  length (rdev (pchip w)) = 6%nat →
  ∃ ret w', irq_flag1 w = Some (ret, w') ∧ no_pwr_fault w w'.
Proof.
  intros Hlen. unfold irq_flag1.
  unfold mbind at 1, M_bind at 1, uninitialized, gets.
  destruct (read_no_pwr_fault 0x0E (stack w) w) as (ret & flag1 & w1 & Hr & H1).
  unfold mbind at 1, M_bind at 1. rewrite Hr.
  destruct (ret <? 0); [exists IRQ_NONE, w1; split; [reflexivity|exact H1]|].
  destruct (write_no_pwr_fault 0x0E 0x00 w1) as (ret2 & w2 & Hw & H2).
  unfold mbind at 1, M_bind at 1. rewrite Hw.
  pose proof (no_pwr_fault_trans _ _ _ H1 H2) as H12.
  destruct (ret2 <? 0); [exists IRQ_NONE, w2; split; [reflexivity|exact H12]|].
  assert (length (rdev (pchip w2)) = 6%nat) as Hlen2
    by (destruct H12 as [-> _]; exact Hlen).
  unfold mbind at 1, M_bind at 1. cbv beta iota.
  unfold mbind at 1, M_bind at 1.
  match goal with
  | |- context [(if ?b then notify_all LP8755_EVENT_OCP else skip) w2] =>
      destruct (notify_all_no_pwr_fault b LP8755_EVENT_OCP w2
                  ltac:(discriminate) Hlen2) as (w3 & Hn3 & H3)
  end.
  rewrite Hn3.
  assert (length (rdev (pchip w3)) = 6%nat) as Hlen3
    by (destruct H3 as [-> _]; exact Hlen2).
  unfold mbind at 1, M_bind at 1.
  match goal with
  | |- context [(if ?b then notify_all LP8755_EVENT_OVP else skip) w3] =>
      destruct (notify_all_no_pwr_fault b LP8755_EVENT_OVP w3
                  ltac:(discriminate) Hlen3) as (w4 & Hn4 & H4)
  end.
  rewrite Hn4.
  exists IRQ_HANDLED, w4. split; [reflexivity|].
  eauto using no_pwr_fault_trans.
Qed.

Lemma write_ok (reg val : Z) (w : world) :
  bus_ok 1 w →
  lp8755_write reg val w =
    Some (0, World (<[reg := Z.land val 0xFF]> (regs w)) (drop 1 (faults w))
                   (stack w) (allocs w) (regmap_init w) (register_errs w)
                   (request_irq_ret w) (pchip w)
                   (trace w ++ [BusWrite reg (Z.land val 0xFF) true])).
Proof.
  destruct w as [rg fl st al ri re rq pc tr]. unfold bus_ok. cbn.
  destruct fl as [|[] fl]; cbn; intros H;
    try (faulty H);
    bus_unfold; munfold; reflexivity.
Qed.

(** One run of the interrupt handler in which the read of status register
    A and its acknowledgement succeed: the register is read, cleared, and
    then the power faults are reported; whatever follows reports no power
    fault. *)
Lemma irq_handler_run (w : world) :
  length (rdev (pchip w)) = 6%nat →
  bus_ok 2 w →
  ∃ ret w' t,
    lp8755_irq_handler w = Some (ret, w')
    ∧ trace w' = trace w
        ++ [BusRead 0x0D true; BusWrite 0x0D 0 true]
        ++ map (λ r, NotifierCallChain r LP8755_EVENT_PWR_FAULT)
               (pwr_fault_targets (Z.land (regs w !!! 0x0D) 0xFF) (pchip w))
        ++ t
    ∧ notified LP8755_EVENT_PWR_FAULT t = [].
Proof.
  intros Hlen Hbus. unfold lp8755_irq_handler.
  unfold mbind at 1, M_bind at 1, uninitialized, gets.
  unfold mbind at 1, M_bind at 1. rewrite read_ok by (apply bus_ok_2_1, Hbus).
  change (0 <? 0) with false. cbv iota.
  unfold mbind at 1, M_bind at 1. rewrite write_ok
    by (unfold bus_ok; cbn [faults]; apply bus_ok_2_drop, Hbus).
  change (0 <? 0) with false. cbv iota.
  unfold mbind at 1, M_bind at 1.
  rewrite notify_pwr_fault_run by exact Hlen.
  match goal with
  | |- context [irq_flag1 ?w1] =>
      destruct (irq_flag1_run w1 Hlen) as (ret & w' & Hrun & _ & t & Htr & Ht)
  end.
  exists ret, w', t. split; [exact Hrun|]. split; [|exact Ht].
  rewrite Htr. cbn [trace log_all pchip regs]. rewrite <- !app_assoc.
  reflexivity.
Qed.

Lemma added_app (w w' : world) (t : list effect) :
  trace w' = trace w ++ t → added w w' = t.
Proof. intros H. unfold added. rewrite H. apply drop_app_length. Qed.

Lemma pwr_fault_target_high_bits (v : Z) (c : lp8755_chip) (i : Z) :
  0 ≤ i ≤ 5 →
  pwr_fault_target (Z.land v 0xFC) c i = pwr_fault_target v c i.
Proof.
  intros Hi. unfold pwr_fault_target. rewrite Z.land_spec.
  assert (Z.testbit 0xFC (2 + i) = true) as ->; [|rewrite andb_true_r; reflexivity].
  assert (i = 0 ∨ i = 1 ∨ i = 2 ∨ i = 3 ∨ i = 4 ∨ i = 5) as Hc by lia.
  clear Hi. destruct Hc as [->|[->|[->|[->|[->| ->]]]]]; reflexivity.
Qed.

Lemma pwr_fault_targets_high_bits (v : Z) (c : lp8755_chip) :
  pwr_fault_targets (Z.land v 0xFC) c = pwr_fault_targets v c.
Proof.
  unfold pwr_fault_targets. change (seqZ 0 6) with [0; 1; 2; 3; 4; 5].
  cbn [omap list_omap]. rewrite !pwr_fault_target_high_bits by lia.
  reflexivity.
Qed.

(** ** C7: a power fault of rail 2 *)

(** C7.  When the handler runs with only rail 2's power-fault bit set
    among the six in status register A, that bit set in the cached
    interrupt mask and a live handle in slot 2, and the read of the status
    register and its acknowledgement go through, then the register is
    cleared to 0x00 first, and exactly one power-fault event follows,
    sent to the handle of rail 2. *)
Theorem irq_handler_rail2_fault (w : world) (r2 : regulator_dev) :
  length (rdev (pchip w)) = 6%nat →
  rdev (pchip w) !! 2%nat = Some (Some r2) →
  bus_ok 2 w →
  Z.land (regs w !!! 0x0D) 0xFC = 0x10 →
  Z.testbit (irqmask (pchip w)) 4 = true →
  ∃ ret w' t,
    lp8755_irq_handler w = Some (ret, w')
    ∧ added w w' = [BusRead 0x0D true; BusWrite 0x0D 0x00 true;
                    NotifierCallChain r2 LP8755_EVENT_PWR_FAULT] ++ t
    ∧ notified LP8755_EVENT_PWR_FAULT t = []
    ∧ notified LP8755_EVENT_PWR_FAULT (added w w') = [r2].
Proof.
  intros Hlen Hr2 Hbus Hflag Hmask.
  destruct (irq_handler_run w Hlen Hbus) as (ret & w' & t & Hrun & Htr & Ht).
  assert (pwr_fault_targets (Z.land (regs w !!! 0x0D) 0xFF) (pchip w) = [r2])
    as Htargets.
  { rewrite <- pwr_fault_targets_high_bits, <- Z.land_assoc.
    change (Z.land 0xFF 0xFC) with 0xFC. rewrite Hflag.
    unfold pwr_fault_targets, pwr_fault_target.
    change (seqZ 0 6) with [0; 1; 2; 3; 4; 5]. cbn [omap list_omap].
    change (Z.testbit 0x10 (2 + 0)) with false.
    change (Z.testbit 0x10 (2 + 1)) with false.
    change (Z.testbit 0x10 (2 + 2)) with true.
    change (Z.testbit 0x10 (2 + 3)) with false.
    change (Z.testbit 0x10 (2 + 4)) with false.
    change (Z.testbit 0x10 (2 + 5)) with false.
    change (2 + 2) with 4. rewrite Hmask.
    change (Z.to_nat 2) with 2%nat. rewrite Hr2. reflexivity. }
  rewrite Htargets in Htr. apply added_app in Htr.
  exists ret, w', t. repeat split; try assumption.
  rewrite Htr. cbn. unfold notified in Ht. rewrite Ht. reflexivity.
Qed.


Lemma irq_handler_rail2_fault_witness :
  ∃ ret w' t,
    lp8755_irq_handler (rail2_world 0x10) = Some (ret, w')
    ∧ added (rail2_world 0x10) w'
      = [BusRead 0x0D true; BusWrite 0x0D 0x00 true;
         NotifierCallChain (rail 2) LP8755_EVENT_PWR_FAULT] ++ t
    ∧ notified LP8755_EVENT_PWR_FAULT t = []
    ∧ notified LP8755_EVENT_PWR_FAULT (added (rail2_world 0x10) w')
      = [rail 2].
Proof.
  apply (irq_handler_rail2_fault (rail2_world 0x10) (rail 2)).
  - reflexivity.
  - reflexivity.
  - apply not_elem_of_nil.
  - vm_compute. reflexivity.
  - reflexivity.
Defined.

(** ** C10: which status bits report a power fault *)

(** The mask the handler tests against is the one [lp8755_int_config]
    read from register 0x0F when it armed the interrupt line. *)
Lemma int_config_caches_mask (w : world) :
  irq (pchip w) ≠ 0 →
  bus_ok 1 w →
  ∃ w', lp8755_int_config w = Some (request_irq_ret w, w')
        ∧ irqmask (pchip w') = Z.land (regs w !!! 0x0F) 0xFF
        ∧ rdev (pchip w') = rdev (pchip w).
Proof.
  intros Hirq Hbus. unfold lp8755_int_config.
  mstep. unfold uninitialized, gets at 1. mstep. unfold gets at 1.
  destruct (Z.eqb_spec (irq (pchip w)) 0) as [|_]; [contradiction|].
  mstep. rewrite read_ok by exact Hbus.
  change (0 <? 0) with false. cbv iota.
  mstep. unfold modify at 1. mstep. unfold modify at 1.
  mstep. unfold gets at 1. unfold mret, M_ret.
  eexists. split; [reflexivity|]. split; reflexivity.
Qed.

(** C10.  In the interrupt handler (the read of status register A and its
    acknowledgement having gone through) the power-fault events sent are
    exactly those of [pwr_fault_targets]: for rail [i] of 0..5, in this
    order, one event to the rail's handle if and only if bit [2 + i] of
    the value read is set, bit [2 + i] of the cached mask is set and the
    rail has a live handle.  Bits 0 and 1 of the value read play no part:
    the events are those for the value with these bits cleared, and a
    value with no other bit set produces none. *)
Theorem irq_handler_pwr_fault_bits (w : world) :
  length (rdev (pchip w)) = 6%nat →
  bus_ok 2 w →
  let flag0 := Z.land (regs w !!! 0x0D) 0xFF in
  let c := pchip w in
  ∃ ret w',
    lp8755_irq_handler w = Some (ret, w')
    ∧ notified LP8755_EVENT_PWR_FAULT (added w w')
      = omap (pwr_fault_target flag0 c) [0; 1; 2; 3; 4; 5]
    ∧ (∀ i r, 0 ≤ i ≤ 5 →
         pwr_fault_target flag0 c i = Some r
         ↔ Z.testbit flag0 (2 + i) = true
           ∧ Z.testbit (irqmask c) (2 + i) = true
           ∧ rdev c !! Z.to_nat i = Some (Some r))
    ∧ notified LP8755_EVENT_PWR_FAULT (added w w')
      = pwr_fault_targets (Z.land flag0 0xFC) c
    ∧ (Z.land flag0 0xFC = 0 →
       notified LP8755_EVENT_PWR_FAULT (added w w') = []).
Proof.
  intros Hlen Hbus flag0 c.
  destruct (irq_handler_run w Hlen Hbus) as (ret & w' & t & Hrun & Htr & Ht).
  apply added_app in Htr.
  assert (notified LP8755_EVENT_PWR_FAULT (added w w')
          = pwr_fault_targets flag0 c) as Hev.
  { rewrite Htr.
    rewrite !notified_app, notified_pwr_fault_same, Ht, app_nil_r.
    reflexivity. }
  exists ret, w'. split; [exact Hrun|]. split; [exact Hev|]. split; [|split].
  - intros i r Hi. unfold pwr_fault_target.
    destruct (Z.testbit flag0 (2 + i)), (Z.testbit (irqmask c) (2 + i)); cbn.
    + destruct (rdev c !! Z.to_nat i) as [[r'|]|]; cbn; split.
      * intros [= ->]. auto.
      * intros (_ & _ & [= ->]). reflexivity.
      * discriminate.
      * intros (_ & _ & H). discriminate.
      * discriminate.
      * intros (_ & _ & H). discriminate.
    + split; [discriminate|]. intros (_ & H & _). discriminate.
    + split; [discriminate|]. intros (H & _). discriminate.
    + split; [discriminate|]. intros (H & _). discriminate.
  - rewrite pwr_fault_targets_high_bits. exact Hev.
  - intros H0. rewrite Hev, <- pwr_fault_targets_high_bits, H0.
    reflexivity.
Qed.

Lemma irq_handler_pwr_fault_bits_witness :
  ∃ ret w',
    lp8755_irq_handler (rail2_world 0x13) = Some (ret, w')
    ∧ notified LP8755_EVENT_PWR_FAULT (added (rail2_world 0x13) w')
      = [rail 2].
Proof.
  destruct (irq_handler_pwr_fault_bits (rail2_world 0x13))
    as (ret & w' & Hrun & Hev & _).
  - reflexivity.
  - apply not_elem_of_nil.
  - exists ret, w'. split; [exact Hrun|]. rewrite Hev. reflexivity.
Defined.

(** ** Bring-up and teardown *)

Lemma steps_refl (w : world) : steps w w [].
Proof.
  unfold steps. do 4 (split; [reflexivity|]).
  exists []. rewrite app_nil_r. split; reflexivity.
Qed.

Lemma framework_effects_app (t1 t2 : list effect) :
  framework_effects (t1 ++ t2) = framework_effects t1 ++ framework_effects t2.
Proof. apply filter_app. Qed.

Lemma steps_trans (w w1 w2 : world) (e1 e2 : list effect) :
  steps w w1 e1 → steps w1 w2 e2 → steps w w2 (e1 ++ e2).
Proof.
  intros (? & ? & ? & ? & t1 & Ht1 & He1) (? & ? & ? & ? & t2 & Ht2 & He2).
  unfold steps. do 4 (split; [congruence|]).
  exists (t1 ++ t2). rewrite Ht2, Ht1, app_assoc, framework_effects_app, He1, He2.
  split; reflexivity.
Qed.

Lemma bus_only_refl (w : world) : bus_only w w.
Proof. split; [apply steps_refl|reflexivity]. Qed.

Lemma bus_only_trans (w w1 w2 : world) :
  bus_only w w1 → bus_only w1 w2 → bus_only w w2.
Proof.
  intros [H1 Hc1] [H2 Hc2]. split; [|congruence].
  apply (steps_trans w w1 w2 [] [] H1 H2).
Qed.

Ltac solve_bus_only :=
  eexists _, _; split; [reflexivity|];
  split; [|reflexivity];
  unfold steps, log, set_regs, set_faults; cbn;
  do 4 (split; [reflexivity|]);
  eexists; rewrite <- ?app_assoc; split; reflexivity.

Lemma write_total (reg val : Z) (w : world) :
  ∃ ret w', lp8755_write reg val w = Some (ret, w') ∧ bus_only w w'.
Proof.
  destruct w as [rg fl st al ri re rq pc tr].
  bus_unfold. munfold. destruct fl as [|[] fl]; cbn; solve_bus_only.
Qed.

Lemma update_bits_total (reg mask val : Z) (w : world) :
  ∃ ret w', lp8755_update_bits reg mask val w = Some (ret, w') ∧ bus_only w w'.
Proof.
  destruct w as [rg fl st al ri re rq pc tr].
  bus_unfold. munfold. destruct fl as [|[] [|[] fl]]; cbn; solve_bus_only.
Qed.

Lemma set_ramp_total (r : regulator_dev) (ramp : Z) (w : world) :
  ∃ ret w', lp8755_buck_set_ramp r ramp w = Some (ret, w') ∧ bus_only w w'.
Proof.
  unfold lp8755_buck_set_ramp. destruct (ramp_regval ramp) as [regval|].
  - destruct (update_bits_total (0x07 + rdev_get_id r) 0x07 regval w)
      as (ret & w' & Hu & Hb).
    exists ret, w'. split; [|exact Hb].
    unfold mbind, M_bind. rewrite Hu. destruct (ret <? 0); reflexivity.
  - exists (- EINVAL), w. split; [reflexivity|apply bus_only_refl].
Qed.

(** A loop whose body is defined under an invariant and keeps it, and
    keeps a reflexive and transitive relation, runs to its end. *)
Lemma for_all_inv (I : world → Prop) (R : world → world → Prop)
    (body : Z → M unit) (lo hi : Z) :
  (∀ w, R w w) →
  (∀ w w1 w2, R w w1 → R w1 w2 → R w w2) →
  (∀ i w, lo ≤ i < hi → I w →
     ∃ w', body i w = Some (tt, w') ∧ R w w' ∧ I w') →
  ∀ w, I w → ∃ w', for_all lo hi body w = Some (tt, w') ∧ R w w' ∧ I w'.
Proof.
  intros Hrefl Htrans Hbody w HI.
  assert (∀ l w, (∀ i, i ∈ l → lo ≤ i < hi) → I w →
            ∃ w', for_each (R := Empty_set) l
                    (λ icnt, _ ← body icnt; mret None) w = Some (None, w')
                  ∧ R w w' ∧ I w') as Hloop.
  { induction l as [|i l IH]; intros w0 Hl HI0.
    - exists w0. split; [reflexivity|]. split; [apply Hrefl|exact HI0].
    - destruct (Hbody i w0) as (w1 & Hb & HR1 & HI1); [apply Hl; left|exact HI0|].
      destruct (IH w1) as (w2 & Hl2 & HR2 & HI2);
        [intros j Hj; apply Hl; right; exact Hj|exact HI1|].
      exists w2. split; [|split; [eapply Htrans; eassumption|exact HI2]].
      cbn [for_each]. unfold mbind at 1, M_bind at 1.
      unfold mbind at 1, M_bind at 1. rewrite Hb.
      unfold mret at 1, M_ret at 1. exact Hl2. }
  destruct (Hloop (seqZ lo (hi - lo)) w) as (w' & Hrun & HR & HI');
    [intros i Hi; apply elem_of_seqZ in Hi; lia|exact HI|].
  exists w'. split; [|split; [exact HR|exact HI']].
  unfold for_all, for_loop. unfold mbind at 1, M_bind at 1.
  rewrite Hrun. reflexivity.
Qed.

Lemma for_all_rel (R : world → world → Prop) (body : Z → M unit) (lo hi : Z) :
  (∀ w, R w w) →
  (∀ w w1 w2, R w w1 → R w1 w2 → R w w2) →
  (∀ i w, lo ≤ i < hi → ∃ w', body i w = Some (tt, w') ∧ R w w') →
  ∀ w, ∃ w', for_all lo hi body w = Some (tt, w') ∧ R w w'.
Proof.
  intros Hrefl Htrans Hbody w.
  destruct (for_all_inv (λ _, True) R body lo hi Hrefl Htrans) with (w := w)
    as (w' & Hrun & HR & _); [|exact I|eauto].
  intros i w0 Hi _. destruct (Hbody i w0 Hi) as (w' & ? & ?). eauto.
Qed.

Lemma output_disable_total (w : world) :
  ∃ w', output_disable w = Some (tt, w') ∧ bus_only w w'.
Proof.
  unfold output_disable. revert w.
  apply (for_all_rel bus_only (λ icnt, _ ← lp8755_write icnt 0x00; skip) 0 0x06);
    [apply bus_only_refl|apply bus_only_trans|].
  intros i w0 _. destruct (write_total i 0x00 w0) as (ret & w' & Hw & Hb).
  exists w'. split; [|exact Hb]. unfold mbind, M_bind. rewrite Hw. reflexivity.
Qed.

Lemma array_set_ok {A : Type} (a : list A) (i : Z) (x : A) (w : world) :
  0 ≤ i < Z.of_nat (length a) →
  array_set a i x w = Some (<[Z.to_nat i := x]> a, w).
Proof.
  intros Hi. unfold array_set.
  destruct (Z.leb_spec 0 i); [|lia].
  destruct (Z.ltb_spec i (Z.of_nat (length a))); [|lia]. reflexivity.
Qed.

Lemma reg_default_lookup (b : Z) :
  0 ≤ b < 6 → lp8755_reg_default !! Z.to_nat b = Some (lp8755_buck_init b).
Proof. intros Hb. six_cases b Hb; reflexivity. Qed.

Lemma regulators_lookup (b : Z) :
  0 ≤ b < 6 → lp8755_regulators !! Z.to_nat b = Some (lp8755_buck_desc b).
Proof. intros Hb. six_cases b Hb; reflexivity. Qed.

Lemma set_default_data_ok (b : Z) (w : world) :
  0 ≤ b < 6 →
  length (buck_data (pdata (pchip w))) = 6%nat →
  set_default_data b w
  = Some (tt, set_pchip
                (set_buck_data (<[Z.to_nat b := Some (lp8755_buck_init b)]>
                                  (buck_data (pdata (pchip w))))) w).
Proof.
  intros Hb Hlen. unfold set_default_data.
  mstep. rewrite (array_get_ok _ _ (lp8755_buck_init b))
    by (lia || apply reg_default_lookup, Hb).
  mstep. unfold gets at 1. mstep. rewrite array_set_ok by lia.
  reflexivity.
Qed.

(** Registering one buck that the framework accepts: the handle is
    stored in the buck's slot, and the effects on the framework are the
    registration and the debug file. *)
Lemma regulator_init_buck_ok (b : Z) (w : world) :
  0 ≤ b < 6 →
  wf_chip (pchip w) →
  register_errs w !! b = None →
  ∃ w' r,
    regulator_init_buck b w = Some (None, w')
    ∧ desc r = lp8755_buck_desc b
    ∧ rdev (pchip w') = <[Z.to_nat b := Some r]> (rdev (pchip w))
    ∧ wf_chip (pchip w')
    ∧ steps w w' [RegulatorRegister b true; DebugfsCreateFile r].
Proof.
  intros Hb (Hl1 & Hl2 & Hl3) Herr.
  unfold regulator_init_buck.
  (* the platform data of the buck, defaulted when absent *)
  mstep. unfold gets at 1.
  destruct (lookup_lt_is_Some_2 (buck_data (pdata (pchip w))) (Z.to_nat b))
    as (init0 & Hinit0); [lia|].
  mstep. rewrite (array_get_ok _ _ init0) by (lia || assumption).
  mstep.
  assert (∃ w1, (if init0 is None then set_default_data b else skip) w
                = Some (tt, w1)
          ∧ steps w w1 [] ∧ trace w1 = trace w
          ∧ rdev (pchip w1) = rdev (pchip w)
          ∧ wf_chip (pchip w1)) as (w1 & Hw1 & Hs1 & Ht1 & Hr1 & Hwf1).
  { destruct init0.
    - exists w. repeat split; try assumption. apply steps_refl.
    - rewrite set_default_data_ok by assumption. eexists. split; [reflexivity|].
      split; [|split; [reflexivity|split; [reflexivity|]]].
      + unfold steps. wsimpl. do 4 (split; [reflexivity|]).
        exists []. rewrite app_nil_r. split; reflexivity.
      + unfold wf_chip. wsimpl. rewrite length_insert. auto. }
  rewrite Hw1. destruct Hwf1 as (Hl1' & Hl2' & Hl3').
  mstep. rewrite (array_get_ok _ _ (lp8755_buck_desc b))
    by (lia || apply regulators_lookup, Hb).
  mstep. unfold gets at 1.
  destruct (lookup_lt_is_Some_2 (buck_data (pdata (pchip w1))) (Z.to_nat b))
    as (init1 & Hinit1); [lia|].
  mstep. rewrite (array_get_ok _ _ init1) by (lia || assumption).
  (* the registration *)
  mstep. unfold regulator_register at 1. mstep. unfold gets at 1.
  assert (register_errs w1 = register_errs w) as Herrs
    by (destruct Hs1 as (_ & _ & H & _); exact H).
  change (id (lp8755_buck_desc b)) with b. rewrite Herrs, Herr.
  mstep. unfold modify at 1. unfold mret at 1, M_ret at 1.
  set (r := {| desc := lp8755_buck_desc b;
               init_data := default (lp8755_buck_init b) init1 |}).
  (* the handle goes into its slot *)
  mstep. unfold store_rdev at 1. mstep. unfold gets at 1. wsimpl.
  mstep. rewrite array_set_ok by lia.
  unfold modify at 1. mstep. unfold lp8755_buck_debug_fs_init, modify at 1.
  mstep. unfold gets at 1. wsimpl.
  destruct (lookup_lt_is_Some_2 (ramp_us (pdata (pchip w1))) (Z.to_nat b))
    as (ramp & Hramp); [lia|].
  mstep. rewrite (array_get_ok _ _ ramp) by (lia || assumption).
  mstep.
  match goal with
  | |- context [lp8755_buck_set_ramp r ramp ?w2] =>
      destruct (set_ramp_total r ramp w2) as (ret & w3 & Hset & Hb3 & Hc3)
  end.
  rewrite Hset. unfold mret, M_ret.
  exists w3, r. split; [reflexivity|]. split; [reflexivity|].
  rewrite Hc3. wsimpl. rewrite Hr1. split; [reflexivity|].
  split.
  { unfold wf_chip. wsimpl. rewrite length_insert. auto. }
  match type of Hb3 with
  | steps ?w2 _ _ =>
      assert (steps w1 w2 [RegulatorRegister b true; DebugfsCreateFile r])
        as H12
  end.
  { unfold steps. wsimpl. do 4 (split; [reflexivity|]).
    eexists. rewrite <- app_assoc. split; reflexivity. }
  pose proof (steps_trans _ _ _ _ _ H12 Hb3) as H13.
  rewrite app_nil_r in H13.
  exact (steps_trans _ _ _ _ _ Hs1 H13).
Qed.

(** Registering a buck that the framework refuses: the slot is cleared
    and the error leaves the loop. *)
Lemma regulator_init_buck_err (b err : Z) (w : world) :
  0 ≤ b < 6 →
  wf_chip (pchip w) →
  register_errs w !! b = Some err →
  ∃ w',
    regulator_init_buck b w = Some (Some err, w')
    ∧ rdev (pchip w') = <[Z.to_nat b := None]> (rdev (pchip w))
    ∧ wf_chip (pchip w')
    ∧ steps w w' [RegulatorRegister b false].
Proof.
  intros Hb (Hl1 & Hl2 & Hl3) Herr.
  unfold regulator_init_buck.
  mstep. unfold gets at 1.
  destruct (lookup_lt_is_Some_2 (buck_data (pdata (pchip w))) (Z.to_nat b))
    as (init0 & Hinit0); [lia|].
  mstep. rewrite (array_get_ok _ _ init0) by (lia || assumption).
  mstep.
  assert (∃ w1, (if init0 is None then set_default_data b else skip) w
                = Some (tt, w1)
          ∧ steps w w1 [] ∧ trace w1 = trace w
          ∧ rdev (pchip w1) = rdev (pchip w)
          ∧ wf_chip (pchip w1)) as (w1 & Hw1 & Hs1 & Ht1 & Hr1 & Hwf1).
  { destruct init0.
    - exists w. repeat split; try assumption. apply steps_refl.
    - rewrite set_default_data_ok by assumption. eexists. split; [reflexivity|].
      split; [|split; [reflexivity|split; [reflexivity|]]].
      + unfold steps. wsimpl. do 4 (split; [reflexivity|]).
        exists []. rewrite app_nil_r. split; reflexivity.
      + unfold wf_chip. wsimpl. rewrite length_insert. auto. }
  rewrite Hw1. destruct Hwf1 as (Hl1' & Hl2' & Hl3').
  mstep. rewrite (array_get_ok _ _ (lp8755_buck_desc b))
    by (lia || apply regulators_lookup, Hb).
  mstep. unfold gets at 1.
  destruct (lookup_lt_is_Some_2 (buck_data (pdata (pchip w1))) (Z.to_nat b))
    as (init1 & Hinit1); [lia|].
  mstep. rewrite (array_get_ok _ _ init1) by (lia || assumption).
  mstep. unfold regulator_register at 1. mstep. unfold gets at 1.
  assert (register_errs w1 = register_errs w) as Herrs
    by (destruct Hs1 as (_ & _ & H & _); exact H).
  change (id (lp8755_buck_desc b)) with b. rewrite Herrs, Herr.
  mstep. unfold modify at 1. unfold mret at 1, M_ret at 1.
  mstep. unfold store_rdev at 1. mstep. unfold gets at 1. wsimpl.
  mstep. rewrite array_set_ok by lia.
  unfold modify at 1. unfold mret, M_ret.
  eexists. split; [reflexivity|]. wsimpl. rewrite Hr1.
  split; [reflexivity|]. split.
  { unfold wf_chip. wsimpl. rewrite length_insert. auto. }
  rewrite <- (app_nil_l [RegulatorRegister b false]).
  apply (steps_trans _ _ _ _ _ Hs1).
  unfold steps. wsimpl. do 4 (split; [reflexivity|]).
  eexists. split; reflexivity.
Qed.

(** The unwinding loop at [err_buck]: every slot of the chip structure is
    handed to [regulator_unregister], in slot order. *)
Lemma unregister_all_run (w : world) :
  length (rdev (pchip w)) = 6%nat →
  for_all 0 LP8755_BUCK_MAX (λ icnt,
      l ← gets (λ w, rdev (pchip w));
      r ← array_get l icnt;
      regulator_unregister r) w
  = Some (tt, log_all (map RegulatorUnregister (rdev (pchip w))) w).
Proof.
  intros Hlen.
  rewrite (for_all_log (pchip w) _
             (λ i, match rdev (pchip w) !! Z.to_nat i with
                   | Some x => [RegulatorUnregister x]
                   | None => []
                   end)); [|  |reflexivity].
  - f_equal. f_equal. f_equal.
    destruct (rdev (pchip w)) as [|? [|? [|? [|? [|? [|? [|? ?]]]]]]];
      try discriminate. reflexivity.
  - intros i w0 Hi Hc. mstep. unfold gets at 1. rewrite Hc.
    destruct (rdev_slot (pchip w) i Hlen) as (x & Hx);
      [unfold LP8755_BUCK_MAX in Hi; lia|].
    mstep. rewrite (array_get_ok _ _ x) by (lia || assumption).
    rewrite Hx. reflexivity.
Qed.

Lemma steps_errs (w w' : world) (evs : list effect) :
  steps w w' evs → register_errs w' = register_errs w.
Proof. intros (_ & _ & H & _). exact H. Qed.

Lemma steps_log_all (t : list effect) (w : world) :
  steps w (log_all t w) (framework_effects t).
Proof.
  unfold steps. cbn. do 4 (split; [reflexivity|]).
  exists t. split; reflexivity.
Qed.

(** [lp8755_regulator_init] for the six-rail topology, when the framework
    accepts bucks 0, 1 and 2 and refuses buck 3. *)
Lemma regulator_init_fails_4th (w : world) (err : Z) :
  mphase (pchip w) = 1 →
  wf_chip (pchip w) →
  rdev (pchip w) = replicate 6 None →
  register_errs w !! 0 = None →
  register_errs w !! 1 = None →
  register_errs w !! 2 = None →
  register_errs w !! 3 = Some err →
  ∃ w' r0 r1 r2,
    lp8755_regulator_init w = Some (err, w')
    ∧ desc r0 = lp8755_buck_desc 0
    ∧ desc r1 = lp8755_buck_desc 1
    ∧ desc r2 = lp8755_buck_desc 2
    ∧ steps w w'
        [RegulatorRegister 0 true; DebugfsCreateFile r0;
         RegulatorRegister 1 true; DebugfsCreateFile r1;
         RegulatorRegister 2 true; DebugfsCreateFile r2;
         RegulatorRegister 3 false;
         RegulatorUnregister (Some r0); RegulatorUnregister (Some r1);
         RegulatorUnregister (Some r2); RegulatorUnregister None;
         RegulatorUnregister None; RegulatorUnregister None].
Proof.
  intros Hm Hwf Hrd He0 He1 He2 He3.
  unfold lp8755_regulator_init.
  mstep. unfold gets at 1. rewrite Hm.
  mstep. rewrite (array_get_ok _ _
                    (Mphase 6 [BUCK0; BUCK1; BUCK2; BUCK3; BUCK4; BUCK5]))
    by (lia || reflexivity).
  cbn [nreg buck_num]. unfold for_loop.
  change (seqZ 0 (6 - 0)) with [0; 1; 2; 3; 4; 5]. cbn [for_each].
  (* buck 0 *)
  destruct (regulator_init_buck_ok 0 w ltac:(lia) Hwf He0)
    as (w1 & r0 & Hrun0 & Hd0 & Hrd0 & Hwf0 & Hs0).
  do 3 mstep. rewrite (array_get_ok _ _ 0) by (lia || reflexivity).
  rewrite Hrun0.
  (* buck 1 *)
  rewrite <- (steps_errs _ _ _ Hs0) in He1, He2, He3.
  destruct (regulator_init_buck_ok 1 w1 ltac:(lia) Hwf0 He1)
    as (w2 & r1 & Hrun1 & Hd1 & Hrd1 & Hwf1 & Hs1).
  do 2 mstep. rewrite (array_get_ok _ _ 1) by (lia || reflexivity).
  rewrite Hrun1.
  (* buck 2 *)
  rewrite <- (steps_errs _ _ _ Hs1) in He2, He3.
  destruct (regulator_init_buck_ok 2 w2 ltac:(lia) Hwf1 He2)
    as (w3 & r2 & Hrun2 & Hd2 & Hrd2 & Hwf2 & Hs2).
  do 2 mstep. rewrite (array_get_ok _ _ 2) by (lia || reflexivity).
  rewrite Hrun2.
  (* buck 3 is refused *)
  rewrite <- (steps_errs _ _ _ Hs2) in He3.
  destruct (regulator_init_buck_err 3 err w3 ltac:(lia) Hwf2 He3)
    as (w4 & Hrun3 & Hrd3 & Hwf3 & Hs3).
  do 2 mstep. rewrite (array_get_ok _ _ 3) by (lia || reflexivity).
  rewrite Hrun3. unfold mret at 1, M_ret at 1.
  (* err_buck *)
  mstep. rewrite unregister_all_run by apply Hwf3.
  unfold mret, M_ret.
  eexists. exists r0, r1, r2. split; [reflexivity|]. do 3 (split; [assumption|]).
  assert (rdev (pchip w4) = [Some r0; Some r1; Some r2; None; None; None])
    as Hslots.
  { rewrite Hrd3, Hrd2, Hrd1, Hrd0, Hrd. reflexivity. }
  rewrite Hslots.
  pose proof (steps_trans _ _ _ _ _ Hs0 Hs1) as H01.
  pose proof (steps_trans _ _ _ _ _ H01 Hs2) as H02.
  pose proof (steps_trans _ _ _ _ _ H02 Hs3) as H03.
  exact (steps_trans _ _ _ _ _ H03 (steps_log_all _ w4)).
Qed.

Lemma data_only_refl (w : world) : data_only w w.
Proof. split; [apply steps_refl|split; reflexivity]. Qed.

Lemma data_only_trans (w w1 w2 : world) :
  data_only w w1 → data_only w1 w2 → data_only w w2.
Proof.
  intros (H1 & Hr1 & Hm1) (H2 & Hr2 & Hm2).
  split; [apply (steps_trans w w1 w2 [] [] H1 H2)|split; congruence].
Qed.

Lemma land_byte_nibble (v : Z) : Z.land (Z.land v 0xFF) 0x0F = Z.land v 0x0F.
Proof. rewrite <- Z.land_assoc. reflexivity. Qed.

(** [lp8755_init_data] when the chip reports the six-rail topology. *)
Lemma init_data_six_rails (w : world) :
  bus_ok 1 w →
  Z.land (regs w !!! 0x3D) 0x0F = 1 →
  wf_chip (pchip w) →
  ∃ w', lp8755_init_data w = Some (0, w')
        ∧ mphase (pchip w') = 1
        ∧ rdev (pchip w') = rdev (pchip w)
        ∧ wf_chip (pchip w')
        ∧ steps w w' [].
Proof.
  intros Hbus Hcode Hwf. unfold lp8755_init_data.
  mstep. unfold uninitialized, gets at 1.
  mstep. rewrite read_ok by exact Hbus.
  change (0 <? 0) with false. cbv iota.
  mstep. unfold modify at 1. mstep. unfold gets at 1. wsimpl.
  rewrite land_byte_nibble, Hcode.
  mstep. rewrite (array_get_ok _ _
                    (Mphase 6 [BUCK0; BUCK1; BUCK2; BUCK3; BUCK4; BUCK5]))
    by (lia || reflexivity).
  cbn [nreg buck_num]. mstep.
  match goal with
  | |- context [for_all 0 6 ?body ?w0] =>
      destruct (for_all_inv (λ w, wf_chip (pchip w)) data_only body 0 6
                  data_only_refl data_only_trans) with (w := w0)
        as (w1 & Hrun & (Hs & Hr & Hm) & Hwf1)
  end.
  - intros i w0 Hi (Hl1 & Hl2 & Hl3).
    mstep. rewrite (array_get_ok _ _ i)
      by (lia || (six_cases i Hi; reflexivity)).
    rewrite set_default_data_ok by assumption.
    eexists. split; [reflexivity|]. split; [split; [|split; reflexivity]|].
    + unfold steps. wsimpl. do 4 (split; [reflexivity|]).
      exists []. rewrite app_nil_r. split; reflexivity.
    + unfold wf_chip. wsimpl. rewrite length_insert. auto.
  - exact Hwf.
  - rewrite Hrun. unfold mret, M_ret. exists w1.
    split; [reflexivity|]. split; [exact Hm|]. split; [exact Hr|].
    split; [exact Hwf1|].
    rewrite <- (app_nil_l []). refine (steps_trans _ _ _ _ _ _ Hs).
    unfold steps. wsimpl. do 4 (split; [reflexivity|]).
    eexists. split; reflexivity.
Qed.

Lemma kzalloc_ok (w : world) :
  true ∉ take 1 (allocs w) →
  devm_kzalloc w = Some (true, set_allocs (drop 1 (allocs w)) w).
Proof.
  destruct w as [rg fl st al ri re rq pc tr]. unfold devm_kzalloc. cbn.
  destruct al as [|[] al]; cbn; intros H; try (faulty H); reflexivity.
Qed.

Lemma steps_added (w w' : world) (evs : list effect) :
  steps w w' evs → framework_effects (added w w') = evs.
Proof.
  intros (_ & _ & _ & _ & t & Ht & He).
  rewrite (added_app _ _ _ Ht). exact He.
Qed.

(** A reading of the trace that ignores the bus reads the same from the
    framework effects alone. *)
Lemma omap_framework_effects {B : Type} (f : effect → option B)
    (t : list effect) :
  (∀ e, is_bus e = true → f e = None) →
  omap f (framework_effects t) = omap f t.
Proof.
  intros Hf. unfold framework_effects.
  induction t as [|e t IH]; [reflexivity|].
  rewrite filter_cons. destruct (decide (is_bus e = false)) as [Hb|Hb]; cbn.
  - rewrite IH. reflexivity.
  - rewrite IH, Hf; [reflexivity|]. destruct (is_bus e); congruence.
Qed.

Lemma registered_framework (t : list effect) :
  registered (framework_effects t) = registered t.
Proof. apply omap_framework_effects. intros [] ?; try discriminate; reflexivity. Qed.

Lemma register_calls_framework (t : list effect) :
  register_calls (framework_effects t) = register_calls t.
Proof. apply omap_framework_effects. intros [] ?; try discriminate; reflexivity. Qed.

Lemma unregistered_framework (t : list effect) :
  unregistered (framework_effects t) = unregistered t.
Proof. apply omap_framework_effects. intros [] ?; try discriminate; reflexivity. Qed.

(** ** C8: a registration failure during bring-up *)

(** C8.  When bring-up reaches the six-rail topology (from the platform
    data, or from the chip's configuration register when there is none)
    and the framework accepts bucks 0, 1 and 2 and refuses the fourth,
    buck 3, with an error, then whatever the bus does: the three rails
    registered are unregistered in the order of their registration
    (followed by the three empty slots), no further rail is registered,
    and [lp8755_probe] returns the error of the refused registration. *)
Theorem probe_fails_on_4th_rail (client : i2c_client) (w : world) (err : Z) :
  i2c_func_i2c client = true →
  true ∉ take 2 (allocs w) →
  regmap_init w = None →
  match platform_data client with
  | Some pd =>
      pdata_mphase pd = 1
      ∧ length (buck_data pd) = 6%nat ∧ length (ramp_us pd) = 6%nat
  | None => bus_ok 1 w ∧ Z.land (regs w !!! 0x3D) 0x0F = 1
  end →
  register_errs w !! 0 = None →
  register_errs w !! 1 = None →
  register_errs w !! 2 = None →
  register_errs w !! 3 = Some err →
  - MAX_ERRNO ≤ err < 0 →
  ∃ w' r0 r1 r2,
    lp8755_probe client w = Some (err, w')
    ∧ desc r0 = lp8755_buck_desc 0
    ∧ desc r1 = lp8755_buck_desc 1
    ∧ desc r2 = lp8755_buck_desc 2
    ∧ framework_effects (added w w')
      = [RegulatorRegister 0 true; DebugfsCreateFile r0;
         RegulatorRegister 1 true; DebugfsCreateFile r1;
         RegulatorRegister 2 true; DebugfsCreateFile r2;
         RegulatorRegister 3 false;
         RegulatorUnregister (Some r0); RegulatorUnregister (Some r1);
         RegulatorUnregister (Some r2); RegulatorUnregister None;
         RegulatorUnregister None; RegulatorUnregister None]
    ∧ registered (added w w') = [0; 1; 2]
    ∧ register_calls (added w w') = [0; 1; 2; 3]
    ∧ unregistered (added w w') = [0; 1; 2].
Proof.
  intros Hfunc Halloc Hregmap Htopo He0 He1 He2 He3 Herr.
  assert (∃ w' r0 r1 r2,
    lp8755_probe client w = Some (err, w')
    ∧ desc r0 = lp8755_buck_desc 0
    ∧ desc r1 = lp8755_buck_desc 1
    ∧ desc r2 = lp8755_buck_desc 2
    ∧ steps w w'
        [RegulatorRegister 0 true; DebugfsCreateFile r0;
         RegulatorRegister 1 true; DebugfsCreateFile r1;
         RegulatorRegister 2 true; DebugfsCreateFile r2;
         RegulatorRegister 3 false;
         RegulatorUnregister (Some r0); RegulatorUnregister (Some r1);
         RegulatorUnregister (Some r2); RegulatorUnregister None;
         RegulatorUnregister None; RegulatorUnregister None]) as Hmain.
  { unfold lp8755_probe. rewrite Hfunc. cbn [negb]. cbv zeta.
    pose proof (take_2_head _ Halloc) as Ha1.
    mstep. rewrite kzalloc_ok by exact Ha1. cbn [negb].
    mstep. unfold modify at 1. mstep. unfold gets at 1. wsimpl.
    rewrite Hregmap.
    (* the tail shared by both ways to the topology *)
    assert (∀ w0,
      steps w w0 [] →
      mphase (pchip w0) = 1 → wf_chip (pchip w0) →
      rdev (pchip w0) = replicate 6 None →
      ∃ w' r0 r1 r2,
        (lp8755_regulator_init ≫= λ ret,
           if ret <? 0 then output_disable ≫= λ _, mret ret
           else
             modify (set_pchip (set_irq (client_irq client))) ≫= λ _,
             lp8755_int_config ≫= λ ret,
               if ret <? 0
               then unregister_first_nreg ≫= λ _,
                    output_disable ≫= λ _, mret ret
               else mret ret) w0 = Some (err, w')
        ∧ desc r0 = lp8755_buck_desc 0
        ∧ desc r1 = lp8755_buck_desc 1
        ∧ desc r2 = lp8755_buck_desc 2
        ∧ steps w w'
            [RegulatorRegister 0 true; DebugfsCreateFile r0;
             RegulatorRegister 1 true; DebugfsCreateFile r1;
             RegulatorRegister 2 true; DebugfsCreateFile r2;
             RegulatorRegister 3 false;
             RegulatorUnregister (Some r0); RegulatorUnregister (Some r1);
             RegulatorUnregister (Some r2); RegulatorUnregister None;
             RegulatorUnregister None; RegulatorUnregister None])
      as Htail.
    { intros w0 Hs0 Hm Hwf Hrd.
      rewrite <- (steps_errs _ _ _ Hs0) in He0, He1, He2, He3.
      destruct (regulator_init_fails_4th w0 err Hm Hwf Hrd He0 He1 He2 He3)
        as (w1 & r0 & r1 & r2 & Hrun & Hd0 & Hd1 & Hd2 & Hs1).
      mstep. rewrite Hrun.
      destruct (Z.ltb_spec err 0); [|lia].
      destruct (output_disable_total w1) as (w2 & Hout & Hs2 & _).
      mstep. rewrite Hout. unfold mret, M_ret.
      exists w2, r0, r1, r2. split; [reflexivity|].
      do 3 (split; [assumption|]).
      pose proof (steps_trans _ _ _ _ _ Hs0 Hs1) as H01.
      pose proof (steps_trans _ _ _ _ _ H01 Hs2) as H02.
      rewrite app_nil_r in H02. exact H02. }
    destruct (platform_data client) as [pd|].
    - destruct Htopo as (Hpm & Hl2 & Hl3).
      mstep. unfold modify at 1. mstep. unfold modify at 1. wsimpl.
      apply Htail.
      + unfold steps. wsimpl. do 4 (split; [reflexivity|]).
        exists []. rewrite app_nil_r. split; reflexivity.
      + wsimpl. cbn. exact Hpm.
      + unfold wf_chip. wsimpl. cbn. auto.
      + reflexivity.
    - destruct Htopo as (Hbus & Hcode).
      pose proof (bus_ok_2_drop _ Halloc) as Ha2.
      mstep. rewrite kzalloc_ok by (wsimpl; exact Ha2). cbn [negb].
      mstep. unfold modify at 1. mstep.
      match goal with
      | |- context [lp8755_init_data ?w0] =>
          destruct (init_data_six_rails w0)
            as (w1 & Hrun & Hm & Hrd & Hwf & Hs)
      end.
      + exact Hbus.
      + exact Hcode.
      + unfold wf_chip. wsimpl. cbn. auto.
      + rewrite Hrun. change (0 <? 0) with false. cbv iota.
        apply Htail.
        * rewrite <- (app_nil_l []). refine (steps_trans _ _ _ _ _ _ Hs).
          unfold steps. wsimpl. do 4 (split; [reflexivity|]).
          exists []. rewrite app_nil_r. split; reflexivity.
        * exact Hm.
        * exact Hwf.
        * rewrite Hrd. reflexivity. }
  destruct Hmain as (w' & r0 & r1 & r2 & Hrun & Hd0 & Hd1 & Hd2 & Hs).
  exists w', r0, r1, r2. do 4 (split; [assumption|]).
  apply steps_added in Hs. split; [exact Hs|].
  rewrite <- registered_framework, <- register_calls_framework,
    <- unregistered_framework, Hs.
  cbn. unfold rdev_get_id. rewrite Hd0, Hd1, Hd2. auto.
Qed.

Lemma probe_fails_on_4th_rail_witness :
  ∃ w' r0 r1 r2,
    lp8755_probe bare_client refusing_world = Some (- EINVAL, w')
    ∧ desc r0 = lp8755_buck_desc 0
    ∧ desc r1 = lp8755_buck_desc 1
    ∧ desc r2 = lp8755_buck_desc 2
    ∧ framework_effects (added refusing_world w')
      = [RegulatorRegister 0 true; DebugfsCreateFile r0;
         RegulatorRegister 1 true; DebugfsCreateFile r1;
         RegulatorRegister 2 true; DebugfsCreateFile r2;
         RegulatorRegister 3 false;
         RegulatorUnregister (Some r0); RegulatorUnregister (Some r1);
         RegulatorUnregister (Some r2); RegulatorUnregister None;
         RegulatorUnregister None; RegulatorUnregister None]
    ∧ registered (added refusing_world w') = [0; 1; 2]
    ∧ register_calls (added refusing_world w') = [0; 1; 2; 3]
    ∧ unregistered (added refusing_world w') = [0; 1; 2].
Proof.
  apply (probe_fails_on_4th_rail bare_client refusing_world (- EINVAL)).
  - reflexivity.
  - apply not_elem_of_nil.
  - reflexivity.
  - split; [apply not_elem_of_nil|vm_compute; reflexivity].
  - vm_compute. reflexivity.
  - vm_compute. reflexivity.
  - vm_compute. reflexivity.
  - vm_compute. reflexivity.
  - unfold MAX_ERRNO, EINVAL. lia.
Defined.

(** ** C2: teardown *)

(** C2 fails on the code.  [lp8755_remove] hands the first [nreg] slots
    of the chip structure to [regulator_unregister], not the slots of the
    rails of the topology.  After a bring-up in which nothing fails,
    teardown therefore unregisters all the registered rails only for the
    codes 1 and 6; for code 0, of the rails 0, 3 and 5 only rail 0 is
    unregistered.  The six enable registers are written with zero for
    every code. *)
Theorem remove_unregisters_first_slots :
  map bring_up_then_remove [0; 1; 2; 3; 4; 5; 6; 7; 8]
  = [ Some ([0; 3; 5], [0], all_outputs_disabled);
      Some ([0; 1; 2; 3; 4; 5], [0; 1; 2; 3; 4; 5], all_outputs_disabled);
      Some ([0; 2; 3; 4; 5], [0; 2; 3; 4], all_outputs_disabled);
      Some ([0; 3; 4; 5], [0; 3], all_outputs_disabled);
      Some ([0; 4; 5], [0], all_outputs_disabled);
      Some ([0; 5], [0], all_outputs_disabled);
      Some ([0], [0], all_outputs_disabled);
      Some ([0; 3], [0], all_outputs_disabled);
      Some ([0; 2; 3; 5], [0; 2; 3], all_outputs_disabled) ].
Proof. vm_compute. reflexivity. Qed.

(** ** C1: topology codes outside the table *)

Lemma init_data_out_of_table (w : world) :
  bus_ok 1 w →
  9 ≤ Z.land (regs w !!! 0x3D) 0x0F →
  lp8755_init_data w = None.
Proof.
  intros Hbus Hcode. unfold lp8755_init_data.
  mstep. unfold uninitialized, gets at 1.
  mstep. rewrite read_ok by exact Hbus.
  change (0 <? 0) with false. cbv iota.
  mstep. unfold modify at 1. mstep. unfold gets at 1. wsimpl.
  rewrite land_byte_nibble.
  mstep. unfold array_get.
  change (Z.of_nat (length mphase_buck)) with 9.
  destruct (Z.ltb_spec (Z.land (regs w !!! 0x3D) 0x0F) 9); [lia|].
  rewrite andb_false_r. reflexivity.
Qed.

(** C1 fails on the code.  When the configuration register yields a code
    of 9 or more (the mask 0x0F allows up to 15), [lp8755_init_data]
    does not return an error: it indexes [mphase_buck] outside its nine
    entries, which has no defined result, and so has the bring-up that
    reads the code from the chip. *)
Theorem init_data_invalid_code_undefined (client : i2c_client) (w : world) :
  bus_ok 1 w →
  9 ≤ Z.land (regs w !!! 0x3D) 0x0F →
  lp8755_init_data w = None
  ∧ (i2c_func_i2c client = true →
     true ∉ take 2 (allocs w) →
     regmap_init w = None →
     platform_data client = None →
     lp8755_probe client w = None).
Proof.
  intros Hbus Hcode. split; [apply init_data_out_of_table; assumption|].
  intros Hfunc Halloc Hregmap Hpd.
  unfold lp8755_probe. rewrite Hfunc, Hpd. cbn [negb]. cbv zeta.
  pose proof (take_2_head _ Halloc) as Ha1.
  pose proof (bus_ok_2_drop _ Halloc) as Ha2.
  mstep. rewrite kzalloc_ok by exact Ha1. cbn [negb].
  mstep. unfold modify at 1. mstep. unfold gets at 1. wsimpl.
  rewrite Hregmap.
  mstep. rewrite kzalloc_ok by (wsimpl; exact Ha2). cbn [negb].
  mstep. unfold modify at 1. mstep.
  rewrite init_data_out_of_table; [reflexivity| |].
  - unfold bus_ok. wsimpl. exact Hbus.
  - wsimpl. exact Hcode.
Qed.

Lemma init_data_invalid_code_undefined_witness :
  lp8755_init_data (quiet_world {[ 0x3D := 9 ]}) = None
  ∧ lp8755_probe bare_client (quiet_world {[ 0x3D := 9 ]}) = None.
Proof.
  destruct (init_data_invalid_code_undefined bare_client
              (quiet_world {[ 0x3D := 9 ]})) as [Hinit Hprobe].
  - apply not_elem_of_nil.
  - vm_compute. discriminate.
  - split; [exact Hinit|]. apply Hprobe.
    + reflexivity.
    + apply not_elem_of_nil.
    + reflexivity.
    + reflexivity.
Defined.

(** * Further properties of the driver *)

(** ** The rail operations on the shared enable and voltage register *)

Lemma bus_ok_split (n k : nat) (l : list bool) :
  true ∉ take (n + k) l → (true ∉ take n l) ∧ (true ∉ take k (drop n l)).
Proof.
  rewrite <- take_take_drop, elem_of_app. tauto.
Qed.

(** Names the world a computation ends in and leaves its result to be
    shown equal to the one stated. *)
Ltac result_is :=
  match goal with
  | |- ∃ w', Some (?a, ?W) = Some (?b, w') ∧ _ =>
      exists W; split; [|reflexivity];
      let H := fresh in assert (a = b) as H; [|rewrite H; reflexivity]
  end.

Lemma rail_desc (r : regulator_dev) :
  desc r ∈ lp8755_regulators →
  0 ≤ rdev_get_id r ≤ 5
  ∧ enable_reg (desc r) = LP8755_REG_BUCK (rdev_get_id r)
  ∧ vsel_reg (desc r) = LP8755_REG_BUCK (rdev_get_id r)
  ∧ enable_mask (desc r) = 0x80
  ∧ vsel_mask (desc r) = 0x7F
  ∧ 0 ≤ LP8755_REG_BUCK (rdev_get_id r) ≤ 5.
Proof.
  intros Hr. apply regulators_inv in Hr as (i & Hi & Hd).
  unfold rdev_get_id. rewrite Hd. cbn [id enable_reg vsel_reg enable_mask
    vsel_mask lp8755_buck_desc].
  repeat split; try lia; try reflexivity;
    six_cases i Hi; vm_compute; discriminate.
Qed.

(** [is_enabled] when its read succeeds: bit 7 of the rail's register. *)
Lemma is_enabled_ok (r : regulator_dev) (w : world) :
  desc r ∈ lp8755_regulators →
  bus_ok 1 w →
  ∃ w', lp8755_is_enabled_buck r w
        = Some (if Z.testbit (regs w !!! enable_reg (desc r)) 7
                then 1 else 0, w')
        ∧ regs w' = regs w.
Proof.
  intros Hr Hbus. destruct (rail_desc r Hr) as (_ & _ & _ & Hm & _).
  unfold lp8755_is_enabled_buck. mstep. unfold uninitialized, gets at 1.
  mstep. rewrite read_ok by exact Hbus. cbv iota beta.
  unfold mret, M_ret. result_is.
  rewrite Hm. change 0x80 with (2 ^ 7).
  rewrite land_pow2_eqb, Z.land_spec by lia.
  change (Z.testbit 255 7) with true. rewrite andb_true_r.
  destruct (Z.testbit _ 7); reflexivity.
Qed.

(** [get_voltage_sel] when its read succeeds: the low seven bits of the
    rail's register. *)
Lemma get_voltage_ok (r : regulator_dev) (w : world) :
  desc r ∈ lp8755_regulators →
  bus_ok 1 w →
  ∃ w', lp8755_get_voltage_buck_sel r w
        = Some ((regs w !!! enable_reg (desc r)) mod 128, w')
        ∧ regs w' = regs w.
Proof.
  intros Hr Hbus. destruct (rail_desc r Hr) as (_ & He & Hv & _ & Hm & _).
  unfold lp8755_get_voltage_buck_sel. mstep. unfold uninitialized, gets at 1.
  mstep. rewrite read_ok by exact Hbus.
  change (negb (0 =? 0)) with false. cbv iota beta.
  unfold mret, M_ret. result_is.
  rewrite Hm, Hv, He. change (ffs 0x7F - 1) with 0. rewrite Z.shiftr_0_r.
  rewrite <- Z.land_assoc. change (Z.land 255 127) with (Z.ones 7).
  apply Z.land_ones. lia.
Qed.

Lemma set_voltage_as_update (r : regulator_dev) (sel : Z) (w : world) :
  desc r ∈ lp8755_regulators →
  0 ≤ sel < 2 ^ 32 →
  lp8755_set_voltage_buck_sel r sel w
  = lp8755_update_bits (enable_reg (desc r)) 0x7F sel w.
Proof.
  intros Hr Hs. destruct (rail_desc r Hr) as (_ & He & Hv & _ & Hm & _).
  unfold lp8755_set_voltage_buck_sel. rewrite Hm, Hv, He.
  change (ffs 0x7F - 1) with 0. rewrite Z.shiftl_0_r. unfold u32.
  rewrite Z.mod_small by lia. reflexivity.
Qed.

(** The register after a masked update, read as selector and as enable
    bit. *)
Lemma updated_vsel (orig sel : Z) :
  (updated orig 0x7F sel) mod 128 = sel mod 128
  ∧ Z.testbit (updated orig 0x7F sel) 7 = Z.testbit orig 7.
Proof.
  destruct (updated_field orig sel) as [Hf He]. split.
  - change 0x7F with (Z.ones 7) in Hf. rewrite !Z.land_ones in Hf by lia.
    exact Hf.
  - apply (f_equal (λ x, Z.testbit x 7)) in He.
    rewrite !Z.land_spec in He. change (Z.testbit 0x80 7) with true in He.
    rewrite !andb_true_r in He. exact He.
Qed.

Lemma updated_enable (orig v : Z) :
  (updated orig 0x80 v) mod 128 = orig mod 128
  ∧ Z.testbit (updated orig 0x80 v) 7 = Z.testbit v 7.
Proof.
  unfold updated. split.
  - rewrite <- !(Z.land_ones _ 7) by lia. change (Z.ones 7) with 0x7F.
    change 0xFF with (Z.ones 8). change 0x7F with (Z.ones 7).
    change 0x80 with (2 ^ 7).
    apply Z.bits_inj'. intros n Hn.
    rewrite !Z.land_spec, Z.lor_spec, Z.ldiff_spec, !Z.land_spec,
      ?Z.testbit_ones_nonneg, ?Z.pow2_bits_eqb by lia.
    destruct (Z.ltb_spec n 7), (Z.ltb_spec n 8), (Z.eqb_spec 7 n);
      try lia; cbn; rewrite ?andb_true_r, ?andb_false_r, ?orb_false_r;
      reflexivity.
  - change 0x80 with (2 ^ 7). change 0xFF with (Z.ones 8).
    rewrite !Z.land_spec, Z.lor_spec, Z.ldiff_spec, !Z.land_spec,
      Z.testbit_ones_nonneg, Z.pow2_bits_true by lia.
    cbn. rewrite !andb_true_r, andb_false_r. reflexivity.
Qed.

(** X1.  Voltage round trip: on a working bus, [set_voltage_sel] with any
    selector followed by [get_voltage_sel] returns the selector modulo
    128, hence the selector itself for every selector up to 127. *)
Theorem set_get_voltage_round_trip (r : regulator_dev) (sel : Z) (w : world) :
  desc r ∈ lp8755_regulators →
  0 ≤ sel < 2 ^ 32 →
  bus_ok 3 w →
  ∃ w1 w2,
    lp8755_set_voltage_buck_sel r sel w = Some (0, w1)
    ∧ lp8755_get_voltage_buck_sel r w1 = Some (sel mod 128, w2)
    ∧ (sel ≤ 127 → sel mod 128 = sel).
Proof.
  intros Hr Hs Hbus. apply (bus_ok_split 2 1) in Hbus as [Hb2 Hb1].
  rewrite set_voltage_as_update, update_bits_ok by assumption.
  match goal with
  | |- ∃ w1 w2, Some (0, ?W) = _ ∧ _ =>
      exists W; destruct (get_voltage_ok r W Hr Hb1) as (w2 & Hget & _)
  end.
  exists w2. split; [reflexivity|]. split.
  - rewrite Hget. cbn [regs]. rewrite lookup_total_insert_eq.
    destruct (updated_vsel (regs w !!! enable_reg (desc r)) sel) as [-> _].
    reflexivity.
  - intros H. apply Z.mod_small. lia.
Qed.

Lemma set_get_voltage_round_trip_witness :
  ∃ w1 w2,
    lp8755_set_voltage_buck_sel (rail 4) 118 (quiet_world ∅) = Some (0, w1)
    ∧ lp8755_get_voltage_buck_sel (rail 4) w1 = Some (118 mod 128, w2)
    ∧ (118 ≤ 127 → 118 mod 128 = 118).
Proof.
  apply (set_get_voltage_round_trip (rail 4) 118 (quiet_world ∅)).
  - apply rail_in_table. lia.
  - lia.
  - apply not_elem_of_nil.
Defined.

Lemma enable_as_update (r : regulator_dev) (w : world) :
  desc r ∈ lp8755_regulators →
  lp8755_enable_buck r w
  = lp8755_update_bits (enable_reg (desc r)) 0x80 0x80 w
  ∧ lp8755_disable_buck r w
    = lp8755_update_bits (enable_reg (desc r)) 0x80 0 w.
Proof.
  intros Hr. destruct (rail_desc r Hr) as (_ & _ & _ & Hm & _).
  unfold lp8755_enable_buck, lp8755_disable_buck. rewrite Hm.
  split; reflexivity.
Qed.

(** Runs a masked update on a working bus and names the world it ends
    in. *)
Ltac after_update Hb2 :=
  rewrite update_bits_ok by exact Hb2;
  match goal with
  | |- ∃ w1, Some (0, ?W) = Some (0, w1) ∧ _ =>
      exists W; split; [reflexivity|]
  | |- ∃ w1 w2, Some (0, ?W) = Some (0, w1) ∧ _ =>
      exists W
  end.

(** X2.  Enable round trip: on a working bus [is_enabled] returns 1
    after [enable] and 0 after [disable], whatever the register held. *)
Theorem enable_disable_is_enabled (r : regulator_dev) (w : world) :
  desc r ∈ lp8755_regulators →
  bus_ok 3 w →
  (∃ w1 w2, lp8755_enable_buck r w = Some (0, w1)
            ∧ lp8755_is_enabled_buck r w1 = Some (1, w2))
  ∧ (∃ w1 w2, lp8755_disable_buck r w = Some (0, w1)
              ∧ lp8755_is_enabled_buck r w1 = Some (0, w2)).
Proof.
  intros Hr Hbus. apply (bus_ok_split 2 1) in Hbus as [Hb2 Hb1].
  destruct (enable_as_update r w Hr) as [-> ->].
  split; after_update Hb2;
    match goal with
    | |- ∃ w2, _ ∧ lp8755_is_enabled_buck r ?W = _ =>
        destruct (is_enabled_ok r W Hr Hb1) as (w2 & Hen & _); exists w2;
        split; [reflexivity|]; rewrite Hen; cbn [regs];
        rewrite lookup_total_insert_eq
    end.
  - destruct (updated_enable (regs w !!! enable_reg (desc r)) 0x80) as [_ ->].
    reflexivity.
  - destruct (updated_enable (regs w !!! enable_reg (desc r)) 0) as [_ ->].
    reflexivity.
Qed.

Lemma enable_disable_is_enabled_witness :
  (∃ w1 w2, lp8755_enable_buck (rail 1) (quiet_world ∅) = Some (0, w1)
            ∧ lp8755_is_enabled_buck (rail 1) w1 = Some (1, w2))
  ∧ (∃ w1 w2, lp8755_disable_buck (rail 1) (quiet_world ∅) = Some (0, w1)
              ∧ lp8755_is_enabled_buck (rail 1) w1 = Some (0, w2)).
Proof.
  apply (enable_disable_is_enabled (rail 1) (quiet_world ∅)).
  - apply rail_in_table. lia.
  - apply not_elem_of_nil.
Defined.

(** X3.  The two fields of the shared register do not disturb each
    other: on a working bus [enable] and [disable] leave the selector
    that [get_voltage_sel] returns as it was, and [set_voltage_sel]
    leaves the answer of [is_enabled] as it was. *)
Theorem enable_and_voltage_independent (r : regulator_dev) (sel : Z)
    (w : world) :
  desc r ∈ lp8755_regulators →
  0 ≤ sel < 2 ^ 32 →
  bus_ok 3 w →
  ∃ v en w0 w0',
    lp8755_get_voltage_buck_sel r w = Some (v, w0)
    ∧ lp8755_is_enabled_buck r w = Some (en, w0')
    ∧ (∃ w1 w2, lp8755_enable_buck r w = Some (0, w1)
                ∧ lp8755_get_voltage_buck_sel r w1 = Some (v, w2))
    ∧ (∃ w1 w2, lp8755_disable_buck r w = Some (0, w1)
                ∧ lp8755_get_voltage_buck_sel r w1 = Some (v, w2))
    ∧ (∃ w1 w2, lp8755_set_voltage_buck_sel r sel w = Some (0, w1)
                ∧ lp8755_is_enabled_buck r w1 = Some (en, w2)).
Proof.
  intros Hr Hs Hbus. apply (bus_ok_split 2 1) in Hbus as [Hb2 Hb1].
  pose proof (take_2_head _ Hb2) as Hb.
  destruct (get_voltage_ok r w Hr Hb) as (w0 & Hv & _).
  destruct (is_enabled_ok r w Hr Hb) as (w0' & Hen & _).
  eexists _, _, w0, w0'. split; [exact Hv|]. split; [exact Hen|].
  destruct (enable_as_update r w Hr) as [-> ->].
  rewrite set_voltage_as_update by assumption.
  split; [|split]; after_update Hb2.
  - match goal with
    | |- ∃ w2, _ ∧ lp8755_get_voltage_buck_sel r ?W = _ =>
        destruct (get_voltage_ok r W Hr Hb1) as (w2 & Hg & _); exists w2;
        split; [reflexivity|]; rewrite Hg; cbn [regs];
        rewrite lookup_total_insert_eq
    end.
    destruct (updated_enable (regs w !!! enable_reg (desc r)) 0x80) as [-> _].
    reflexivity.
  - match goal with
    | |- ∃ w2, _ ∧ lp8755_get_voltage_buck_sel r ?W = _ =>
        destruct (get_voltage_ok r W Hr Hb1) as (w2 & Hg & _); exists w2;
        split; [reflexivity|]; rewrite Hg; cbn [regs];
        rewrite lookup_total_insert_eq
    end.
    destruct (updated_enable (regs w !!! enable_reg (desc r)) 0) as [-> _].
    reflexivity.
  - match goal with
    | |- ∃ w2, _ ∧ lp8755_is_enabled_buck r ?W = _ =>
        destruct (is_enabled_ok r W Hr Hb1) as (w2 & Hg & _); exists w2;
        split; [reflexivity|]; rewrite Hg; cbn [regs];
        rewrite lookup_total_insert_eq
    end.
    destruct (updated_vsel (regs w !!! enable_reg (desc r)) sel) as [_ ->].
    reflexivity.
Qed.

Lemma enable_and_voltage_independent_witness :
  ∃ v en w0 w0',
    lp8755_get_voltage_buck_sel (rail 5) (quiet_world {[ 2 := 0x8A ]})
    = Some (v, w0)
    ∧ lp8755_is_enabled_buck (rail 5) (quiet_world {[ 2 := 0x8A ]})
      = Some (en, w0')
    ∧ (∃ w1 w2, lp8755_enable_buck (rail 5) (quiet_world {[ 2 := 0x8A ]})
                = Some (0, w1)
                ∧ lp8755_get_voltage_buck_sel (rail 5) w1 = Some (v, w2))
    ∧ (∃ w1 w2, lp8755_disable_buck (rail 5) (quiet_world {[ 2 := 0x8A ]})
                = Some (0, w1)
                ∧ lp8755_get_voltage_buck_sel (rail 5) w1 = Some (v, w2))
    ∧ (∃ w1 w2, lp8755_set_voltage_buck_sel (rail 5) 30
                  (quiet_world {[ 2 := 0x8A ]}) = Some (0, w1)
                ∧ lp8755_is_enabled_buck (rail 5) w1 = Some (en, w2)).
Proof.
  apply (enable_and_voltage_independent (rail 5) 30
           (quiet_world {[ 2 := 0x8A ]})).
  - apply rail_in_table. lia.
  - lia.
  - apply not_elem_of_nil.
Defined.

(** ** What an operation leaves alone *)

(** Decides the integer comparisons of a goal by [lia] and computes the
    boolean that remains. *)
Ltac eqb_lia :=
  repeat match goal with
         | |- context [?a =? ?b] => destruct (Z.eqb_spec a b); try lia
         | |- context [?a <? ?b] => destruct (Z.ltb_spec a b); try lia
         | |- context [?a <=? ?b] => destruct (Z.leb_spec a b); try lia
         end;
  cbn; try reflexivity; try congruence.

Lemma frame_refl (touch : Z → Z → bool) (w : world) : frame touch w w.
Proof. intros k m _ _. reflexivity. Qed.

Lemma frame_trans (touch : Z → Z → bool) (w w1 w2 : world) :
  frame touch w w1 → frame touch w1 w2 → frame touch w w2.
Proof.
  intros H1 H2 k m Hm Ht. rewrite (H2 k m Hm Ht). apply H1; assumption.
Qed.

Lemma frame_weaken (t1 t2 : Z → Z → bool) (w w1 : world) :
  (∀ k m, 0 ≤ m → t2 k m = false → t1 k m = false) →
  frame t1 w w1 → frame t2 w w1.
Proof. intros Hsub H k m Hm Ht. apply H; auto. Qed.

Lemma frame_same_regs (touch : Z → Z → bool) (w w1 : world) :
  regs w1 = regs w → frame touch w w1.
Proof. intros H k m _ _. unfold reg_bit. rewrite H. reflexivity. Qed.

(** A bit outside the mask survives a masked update. *)
Lemma updated_unmasked_bit (orig mask v m : Z) :
  0 ≤ m → Z.testbit mask m = false →
  Z.testbit (Z.land (updated orig mask v) 0xFF) m
  = Z.testbit (Z.land orig 0xFF) m.
Proof.
  intros Hm Hmask. unfold updated.
  rewrite !Z.land_spec, Z.lor_spec, Z.ldiff_spec, !Z.land_spec, Hmask.
  cbn. rewrite andb_false_r, orb_false_r, andb_true_r.
  destruct (Z.testbit orig m), (Z.testbit 255 m); reflexivity.
Qed.

(** A masked update, whatever its outcome, changes no bit outside the
    mask and no other register. *)
Lemma update_bits_frame (reg mask val : Z) (w w1 : world) (ret : Z) :
  lp8755_update_bits reg mask val w = Some (ret, w1) →
  frame (touch_update reg mask) w w1.
Proof.
  intros H. apply update_bits_inv in H as [[_ Hregs]|[_ Hregs]].
  - apply frame_same_regs, Hregs.
  - intros k m Hm Ht. unfold reg_bit. rewrite Hregs.
    unfold touch_update in Ht. destruct (Z.eqb_spec k reg) as [->|Hne].
    + cbn in Ht. rewrite lookup_total_insert_eq.
      apply updated_unmasked_bit; assumption.
    + rewrite lookup_total_insert_ne by congruence. reflexivity.
Qed.

Lemma write_frame (reg val : Z) (w w1 : world) (ret : Z) :
  lp8755_write reg val w = Some (ret, w1) →
  frame (λ k _, k =? reg) w w1.
Proof.
  destruct w as [rg fl st al ri re rq pc tr].
  bus_unfold. munfold.
  destruct fl as [|[] fl]; cbn; intros H; inversion H; subst;
    intros k m Hm Ht; unfold reg_bit; cbn;
    try reflexivity;
    apply Z.eqb_neq in Ht; rewrite lookup_total_insert_ne by congruence;
    reflexivity.
Qed.

Lemma read_frame (reg val : Z) (w w1 : world) (res : Z * Z) :
  lp8755_read reg val w = Some (res, w1) → regs w1 = regs w.
Proof.
  destruct w as [rg fl st al ri re rq pc tr].
  bus_unfold. munfold.
  destruct fl as [|[] fl]; cbn; intros H; inversion H; reflexivity.
Qed.

(** The footprint of [set_mode]. *)
Lemma set_mode_frame (r : regulator_dev) (mode ret : Z) (w w1 : world) :
  0 ≤ rdev_get_id r →
  lp8755_buck_set_mode r mode w = Some (ret, w1) →
  frame (touch_mode (rdev_get_id r)) w w1.
Proof.
  intros Hid Hset. set (i := rdev_get_id r) in *.
  assert (∀ regbval wa wb reta,
            lp8755_update_bits 0x06 (Z.shiftl 1 i) regbval wa = Some (reta, wb) →
            frame (touch_mode i) wa wb) as Hforced.
  { intros regbval wa wb reta Hu. apply update_bits_frame in Hu.
    revert Hu. apply frame_weaken. intros k m Hm Ht.
    unfold touch_mode in Ht. unfold touch_update.
    rewrite Z.shiftl_1_l, Z.pow2_bits_eqb by lia.
    destruct (Z.eqb_spec k 6); [|reflexivity]. cbn in Ht.
    destruct (Z.eqb_spec m i) as [->|]; [discriminate|].
    destruct (Z.eqb_spec i m); [congruence|reflexivity]. }
  assert (∀ v wa wb reta,
            lp8755_update_bits (0x08 + i) 0x20 v wa = Some (reta, wb) →
            frame (touch_mode i) wa wb) as Hctrl.
  { intros v wa wb reta Hu. apply update_bits_frame in Hu.
    revert Hu. apply frame_weaken. intros k m Hm Ht.
    unfold touch_mode in Ht. unfold touch_update.
    change 0x20 with (2 ^ 5). rewrite Z.pow2_bits_eqb by lia.
    destruct (Z.eqb_spec k (8 + i)); [|reflexivity].
    destruct (Z.eqb_spec 5 m) as [<-|]; [|reflexivity].
    rewrite orb_true_r in Ht. cbn in Ht. discriminate. }
  assert (∀ wa wb reta,
            lp8755_update_bits 0x10 0x01 0x01 wa = Some (reta, wb) →
            frame (touch_mode i) wa wb) as Hlp.
  { intros wa wb reta Hu. apply update_bits_frame in Hu.
    revert Hu. apply frame_weaken. intros k m Hm Ht.
    unfold touch_mode in Ht. unfold touch_update.
    change 0x01 with (2 ^ 0). rewrite Z.pow2_bits_eqb by lia.
    destruct (Z.eqb_spec k 16); [|reflexivity].
    destruct (Z.eqb_spec 0 m) as [<-|]; [|reflexivity].
    rewrite !orb_true_r in Ht. discriminate. }
  assert (∀ regbval wa,
            (lp8755_update_bits 0x06 (Z.shiftl 1 i) regbval ≫= λ ret0,
               if ret0 <? 0 then mret ret0 else mret ret0) wa
            = Some (ret, w1) → frame (touch_mode i) wa w1) as Hlast.
  { intros regbval wa H. apply bind_inv in H as (reta & wb & Hu & Hk).
    assert (wb = w1) as <-
      by (destruct (reta <? 0); injection Hk as _ Hw; exact Hw).
    eapply Hforced, Hu. }
  unfold lp8755_buck_set_mode in Hset. fold i in Hset.
  destruct (mode =? REGULATOR_MODE_FAST); [eapply Hlast, Hset|].
  destruct (mode =? REGULATOR_MODE_NORMAL).
  { apply bind_inv in Hset as (ret1 & wa & Hu1 & Hk).
    pose proof (Hctrl _ _ _ _ Hu1) as H1.
    destruct (ret1 <? 0).
    - injection Hk as _ <-. exact H1.
    - eapply frame_trans; [exact H1|]. eapply Hlast, Hk. }
  destruct (mode =? REGULATOR_MODE_IDLE); [|eapply Hlast, Hset].
  apply bind_inv in Hset as (ret1 & wa & Hu1 & Hk).
  pose proof (Hctrl _ _ _ _ Hu1) as H1.
  destruct (ret1 <? 0); [injection Hk as _ <-; exact H1|].
  apply bind_inv in Hk as (ret2 & wb & Hu2 & Hk).
  pose proof (frame_trans _ _ _ _ H1 (Hlp _ _ _ Hu2)) as H2.
  destruct (ret2 <? 0); [injection Hk as _ <-; exact H2|].
  eapply frame_trans; [exact H2|]. eapply Hlast, Hk.
Qed.

(** The footprint of [set_ramp_delay]. *)
Lemma set_ramp_frame (r : regulator_dev) (ramp ret : Z) (w w1 : world) :
  lp8755_buck_set_ramp r ramp w = Some (ret, w1) →
  frame (touch_ramp (rdev_get_id r)) w w1.
Proof.
  unfold lp8755_buck_set_ramp. destruct (ramp_regval ramp) as [regval|].
  - intros H. apply bind_inv in H as (reta & wb & Hu & Hk).
    assert (wb = w1) as <-
      by (destruct (reta <? 0); injection Hk as _ Hw; exact Hw).
    apply update_bits_frame in Hu. revert Hu. apply frame_weaken.
    intros k m Hm Ht. unfold touch_ramp in Ht. unfold touch_update.
    destruct (Z.eqb_spec k (7 + rdev_get_id r)); [|reflexivity].
    cbn in Ht. change 0x07 with (Z.ones 3).
    rewrite Z.testbit_ones_nonneg by lia. exact Ht.
  - intros [= _ <-]. apply frame_refl.
Qed.

(** The answers of [is_enabled] and [get_voltage_sel] depend on the bits
    of the rail's register only. *)
Lemma enable_voltage_same (r : regulator_dev) (w w1 : world) :
  desc r ∈ lp8755_regulators →
  (∀ m, 0 ≤ m →
     reg_bit w1 (enable_reg (desc r)) m = reg_bit w (enable_reg (desc r)) m) →
  bus_ok 1 w → bus_ok 1 w1 →
  ∃ en v a b c d,
    lp8755_is_enabled_buck r w = Some (en, a)
    ∧ lp8755_is_enabled_buck r w1 = Some (en, b)
    ∧ lp8755_get_voltage_buck_sel r w = Some (v, c)
    ∧ lp8755_get_voltage_buck_sel r w1 = Some (v, d).
Proof.
  intros Hr Hbits Hb Hb1.
  destruct (is_enabled_ok r w Hr Hb) as (a & Ha & _).
  destruct (is_enabled_ok r w1 Hr Hb1) as (b & Hb' & _).
  destruct (get_voltage_ok r w Hr Hb) as (c & Hc & _).
  destruct (get_voltage_ok r w1 Hr Hb1) as (d & Hd & _).
  eexists _, _, a, b, c, d. split; [exact Ha|]. split; [|split; [exact Hc|]].
  - rewrite Hb'. f_equal. f_equal.
    pose proof (Hbits 7 ltac:(lia)) as H7. unfold reg_bit in H7.
    rewrite !Z.land_spec in H7. change (Z.testbit 255 7) with true in H7.
    rewrite !andb_true_r in H7. rewrite H7. reflexivity.
  - rewrite Hd. f_equal. f_equal.
    rewrite <- !(Z.land_ones _ 7) by lia.
    apply Z.bits_inj'. intros n Hn. rewrite !Z.land_spec.
    rewrite Z.testbit_ones_nonneg by lia.
    destruct (Z.ltb_spec n 7); [|rewrite !andb_false_r; reflexivity].
    rewrite !andb_true_r.
    pose proof (Hbits n Hn) as Hb7. unfold reg_bit in Hb7.
    rewrite !Z.land_spec in Hb7. change 255 with (Z.ones 8) in Hb7.
    rewrite Z.testbit_ones_nonneg in Hb7 by lia.
    destruct (Z.ltb_spec n 8); [|lia]. rewrite !andb_true_r in Hb7.
    exact Hb7.
Qed.

(** The answer of [get_mode] depends on two register bits only. *)
Lemma mode_same (r : regulator_dev) (w w1 : world) :
  desc r ∈ lp8755_regulators →
  reg_bit w1 0x06 (rdev_get_id r) = reg_bit w 0x06 (rdev_get_id r) →
  reg_bit w1 (0x08 + rdev_get_id r) 5 = reg_bit w (0x08 + rdev_get_id r) 5 →
  bus_ok 2 w → bus_ok 2 w1 →
  ∃ md a b,
    lp8755_buck_get_mode r w = Some (md, a)
    ∧ lp8755_buck_get_mode r w1 = Some (md, b).
Proof.
  intros Hr H6 H8 Hb Hb1. destruct (rail_desc r Hr) as (Hid & _).
  destruct (get_mode_ok r w Hid Hb) as (a & Ha).
  destruct (get_mode_ok r w1 Hid Hb1) as (b & Hb').
  eexists _, a, b. split; [exact Ha|]. rewrite Hb'.
  unfold reg_bit in H6, H8. rewrite H6, H8. reflexivity.
Qed.

Lemma reg_bit_regs (v w : world) (k m : Z) :
  regs v = regs w → reg_bit v k m = reg_bit w k m.
Proof. intros H. unfold reg_bit. rewrite H. reflexivity. Qed.

(** The same, asked on a working bus before and after a step that need
    not have had one. *)
Lemma enable_voltage_observed (r : regulator_dev) (w w1 v v1 : world) :
  desc r ∈ lp8755_regulators →
  (∀ m, 0 ≤ m →
     reg_bit w1 (enable_reg (desc r)) m = reg_bit w (enable_reg (desc r)) m) →
  observes 1 v w → observes 1 v1 w1 →
  ∃ en vs a b c d,
    lp8755_is_enabled_buck r v = Some (en, a)
    ∧ lp8755_is_enabled_buck r v1 = Some (en, b)
    ∧ lp8755_get_voltage_buck_sel r v = Some (vs, c)
    ∧ lp8755_get_voltage_buck_sel r v1 = Some (vs, d).
Proof.
  intros Hr Hbits [Hv Hb] [Hv1 Hb1].
  apply enable_voltage_same; try assumption.
  intros m Hm. rewrite (reg_bit_regs v1 w1), (reg_bit_regs v w) by assumption.
  apply Hbits, Hm.
Qed.

Lemma mode_observed (r : regulator_dev) (w w1 v v1 : world) :
  desc r ∈ lp8755_regulators →
  reg_bit w1 0x06 (rdev_get_id r) = reg_bit w 0x06 (rdev_get_id r) →
  reg_bit w1 (0x08 + rdev_get_id r) 5 = reg_bit w (0x08 + rdev_get_id r) 5 →
  observes 2 v w → observes 2 v1 w1 →
  ∃ md a b,
    lp8755_buck_get_mode r v = Some (md, a)
    ∧ lp8755_buck_get_mode r v1 = Some (md, b).
Proof.
  intros Hr H6 H8 [Hv Hb] [Hv1 Hb1].
  apply mode_same; try assumption;
    rewrite (reg_bit_regs v1 w1), (reg_bit_regs v w) by assumption;
    assumption.
Qed.

Lemma reg_buck_injective (i j : Z) :
  0 ≤ i ≤ 5 → 0 ≤ j ≤ 5 →
  LP8755_REG_BUCK i = LP8755_REG_BUCK j → i = j.
Proof.
  intros Hi Hj. six_cases i Hi; six_cases j Hj; vm_compute; congruence.
Qed.

(** X4.  Rails are isolated from each other on the enable and voltage
    registers: [enable], [disable] and [set_voltage_sel] of one rail,
    whatever their outcome, a bus error at the read or at the write
    included, leave what [is_enabled] and [get_voltage_sel] answer on a
    working bus for every other rail as it was. *)
Theorem enable_voltage_rails_isolated (r r' : regulator_dev) (sel ret : Z)
    (w w1 v v1 : world) :
  desc r ∈ lp8755_regulators →
  desc r' ∈ lp8755_regulators →
  rdev_get_id r ≠ rdev_get_id r' →
  0 ≤ sel < 2 ^ 32 →
  lp8755_enable_buck r w = Some (ret, w1)
  ∨ lp8755_disable_buck r w = Some (ret, w1)
  ∨ lp8755_set_voltage_buck_sel r sel w = Some (ret, w1) →
  observes 1 v w → observes 1 v1 w1 →
  ∃ en vs a b c d,
    lp8755_is_enabled_buck r' v = Some (en, a)
    ∧ lp8755_is_enabled_buck r' v1 = Some (en, b)
    ∧ lp8755_get_voltage_buck_sel r' v = Some (vs, c)
    ∧ lp8755_get_voltage_buck_sel r' v1 = Some (vs, d).
Proof.
  intros Hr Hr' Hne Hs Hop Hv Hv1.
  apply (enable_voltage_observed r' w w1 v v1 Hr'); try assumption.
  destruct (rail_desc r Hr) as (Hi & He & _).
  destruct (rail_desc r' Hr') as (Hi' & He' & _).
  assert (enable_reg (desc r') ≠ enable_reg (desc r)) as Hreg.
  { rewrite He, He'. intros H. apply reg_buck_injective in H; auto. }
  destruct (enable_as_update r w Hr) as [Hen Hdis].
  rewrite Hen, Hdis, set_voltage_as_update in Hop by assumption.
  intros m Hm.
  destruct Hop as [H|[H|H]]; apply update_bits_frame in H;
    apply H; try assumption; unfold touch_update;
    destruct (Z.eqb_spec (enable_reg (desc r')) (enable_reg (desc r)));
    try contradiction; reflexivity.
Qed.

Lemma enable_voltage_rails_isolated_witness :
  ∃ w1,
    lp8755_enable_buck (rail 0)
      (World {[ 3 := 0x85 ]} [false; true] 0 [] None ∅ 0 zero_chip [])
    = Some (- EIO, w1)
    ∧ ∃ en vs a b c d,
        lp8755_is_enabled_buck (rail 1) (quiet_world {[ 3 := 0x85 ]})
        = Some (en, a)
        ∧ lp8755_is_enabled_buck (rail 1) (set_faults [] w1) = Some (en, b)
        ∧ lp8755_get_voltage_buck_sel (rail 1) (quiet_world {[ 3 := 0x85 ]})
          = Some (vs, c)
        ∧ lp8755_get_voltage_buck_sel (rail 1) (set_faults [] w1)
          = Some (vs, d).
Proof.
  eexists. split; [vm_compute; reflexivity|].
  eapply (enable_voltage_rails_isolated (rail 0) (rail 1) 0 (- EIO)
            (World {[ 3 := 0x85 ]} [false; true] 0 [] None ∅ 0 zero_chip [])).
  - apply rail_in_table. lia.
  - apply rail_in_table. lia.
  - vm_compute. discriminate.
  - lia.
  - left. vm_compute. reflexivity.
  - split; [reflexivity|apply not_elem_of_nil].
  - split; [reflexivity|apply not_elem_of_nil].
Defined.

(** X5.  [set_mode] and [set_ramp_delay] of any rail, whatever their
    argument and their outcome, a bus error included, leave what
    [is_enabled] and [get_voltage_sel] answer on a working bus for every
    rail as it was. *)
Theorem mode_ramp_keep_enable_voltage (r r' : regulator_dev) (x ret : Z)
    (w w1 v v1 : world) :
  desc r ∈ lp8755_regulators →
  desc r' ∈ lp8755_regulators →
  lp8755_buck_set_mode r x w = Some (ret, w1)
  ∨ lp8755_buck_set_ramp r x w = Some (ret, w1) →
  observes 1 v w → observes 1 v1 w1 →
  ∃ en vs a b c d,
    lp8755_is_enabled_buck r' v = Some (en, a)
    ∧ lp8755_is_enabled_buck r' v1 = Some (en, b)
    ∧ lp8755_get_voltage_buck_sel r' v = Some (vs, c)
    ∧ lp8755_get_voltage_buck_sel r' v1 = Some (vs, d).
Proof.
  intros Hr Hr' Hop Hv Hv1.
  apply (enable_voltage_observed r' w w1 v v1 Hr'); try assumption.
  destruct (rail_desc r Hr) as (Hi & _).
  destruct (rail_desc r' Hr') as (_ & He' & _ & _ & _ & Hrange).
  rewrite He'. intros m Hm.
  destruct Hop as [H|H].
  - apply set_mode_frame in H; [|lia]. apply H; [exact Hm|].
    unfold touch_mode.
    destruct (Z.eqb_spec (LP8755_REG_BUCK (rdev_get_id r')) 6); [lia|].
    destruct (Z.eqb_spec (LP8755_REG_BUCK (rdev_get_id r'))
                (8 + rdev_get_id r)); [lia|].
    destruct (Z.eqb_spec (LP8755_REG_BUCK (rdev_get_id r')) 16); [lia|].
    reflexivity.
  - apply set_ramp_frame in H. apply H; [exact Hm|].
    unfold touch_ramp.
    destruct (Z.eqb_spec (LP8755_REG_BUCK (rdev_get_id r'))
                (7 + rdev_get_id r)); [lia|].
    reflexivity.
Qed.

Lemma mode_ramp_keep_enable_voltage_witness :
  ∃ w1,
    lp8755_buck_set_mode (rail 0) REGULATOR_MODE_IDLE
      (World {[ 0 := 0x85 ]} [false; false; true] 0 [] None ∅ 0 zero_chip [])
    = Some (- EIO, w1)
    ∧ ∃ en vs a b c d,
        lp8755_is_enabled_buck (rail 0) (quiet_world {[ 0 := 0x85 ]})
        = Some (en, a)
        ∧ lp8755_is_enabled_buck (rail 0) (set_faults [] w1) = Some (en, b)
        ∧ lp8755_get_voltage_buck_sel (rail 0) (quiet_world {[ 0 := 0x85 ]})
          = Some (vs, c)
        ∧ lp8755_get_voltage_buck_sel (rail 0) (set_faults [] w1)
          = Some (vs, d).
Proof.
  eexists. split; [vm_compute; reflexivity|].
  eapply (mode_ramp_keep_enable_voltage (rail 0) (rail 0)
            REGULATOR_MODE_IDLE (- EIO)
            (World {[ 0 := 0x85 ]} [false; false; true] 0 [] None ∅ 0
               zero_chip [])).
  - apply rail_in_table. lia.
  - apply rail_in_table. lia.
  - left. vm_compute. reflexivity.
  - split; [reflexivity|apply not_elem_of_nil].
  - split; [reflexivity|apply not_elem_of_nil].
Defined.
(** ** Operating modes *)

(** X6.  [set_mode] of one rail, whatever the mode asked for and
    whatever its outcome, a bus error at any of its transactions
    included, leaves the mode that [get_mode] reports on a working bus
    for every other rail as it was. *)
Theorem set_mode_rails_isolated (r r' : regulator_dev) (mode ret : Z)
    (w w1 v v1 : world) :
  desc r ∈ lp8755_regulators →
  desc r' ∈ lp8755_regulators →
  rdev_get_id r ≠ rdev_get_id r' →
  lp8755_buck_set_mode r mode w = Some (ret, w1) →
  observes 2 v w → observes 2 v1 w1 →
  ∃ md a b,
    lp8755_buck_get_mode r' v = Some (md, a)
    ∧ lp8755_buck_get_mode r' v1 = Some (md, b).
Proof.
  intros Hr Hr' Hne Hset Hv Hv1.
  destruct (rail_desc r Hr) as (Hi & _).
  destruct (rail_desc r' Hr') as (Hi' & _).
  apply set_mode_frame in Hset; [|lia].
  apply (mode_observed r' w w1 v v1 Hr'); try assumption;
    apply Hset; try lia; unfold touch_mode; eqb_lia.
Qed.

Lemma set_mode_rails_isolated_witness :
  ∃ w1,
    lp8755_buck_set_mode (rail 3) REGULATOR_MODE_NORMAL
      (World {[ 0x06 := 0x18; 0x0C := 0x20 ]} [false; false; true] 0 [] None
         ∅ 0 zero_chip [])
    = Some (- EIO, w1)
    ∧ ∃ md a b,
        lp8755_buck_get_mode (rail 4)
          (quiet_world {[ 0x06 := 0x18; 0x0C := 0x20 ]})
        = Some (md, a)
        ∧ lp8755_buck_get_mode (rail 4) (set_faults [] w1) = Some (md, b).
Proof.
  eexists. split; [vm_compute; reflexivity|].
  eapply (set_mode_rails_isolated (rail 3) (rail 4) REGULATOR_MODE_NORMAL
            (- EIO)
            (World {[ 0x06 := 0x18; 0x0C := 0x20 ]} [false; false; true] 0 []
               None ∅ 0 zero_chip [])).
  - apply rail_in_table. lia.
  - apply rail_in_table. lia.
  - vm_compute. discriminate.
  - vm_compute. reflexivity.
  - split; [reflexivity|apply not_elem_of_nil].
  - split; [reflexivity|apply not_elem_of_nil].
Defined.

(** X7.  [set_ramp_delay] with any ramp, and [enable], [disable] and
    [set_voltage_sel] of any rail, whatever their outcome, a refused
    argument or a bus error included, leave the mode that [get_mode]
    reports on a working bus for every rail as it was, although the
    ramp field of rail [i + 1] lies in the register that holds the mode
    bit of rail [i]. *)
Theorem other_operations_keep_mode (r r' : regulator_dev) (ramp sel ret : Z)
    (w w1 v v1 : world) :
  desc r ∈ lp8755_regulators →
  desc r' ∈ lp8755_regulators →
  0 ≤ sel < 2 ^ 32 →
  lp8755_buck_set_ramp r ramp w = Some (ret, w1)
  ∨ lp8755_enable_buck r w = Some (ret, w1)
  ∨ lp8755_disable_buck r w = Some (ret, w1)
  ∨ lp8755_set_voltage_buck_sel r sel w = Some (ret, w1) →
  observes 2 v w → observes 2 v1 w1 →
  ∃ md a b,
    lp8755_buck_get_mode r' v = Some (md, a)
    ∧ lp8755_buck_get_mode r' v1 = Some (md, b).
Proof.
  intros Hr Hr' Hx Hop Hv Hv1.
  destruct (rail_desc r Hr) as (Hi & He & _ & _ & _ & Hrange).
  destruct (rail_desc r' Hr') as (Hi' & _).
  destruct (enable_as_update r w Hr) as [Hen Hdis].
  rewrite Hen, Hdis, set_voltage_as_update in Hop by assumption.
  assert (frame (λ k m, (k <=? 5) || ((k =? 0x07 + rdev_get_id r) && (m <? 3)))
            w w1) as Hframe.
  { destruct Hop as [H|[H|[H|H]]].
    - apply set_ramp_frame in H. revert H. apply frame_weaken.
      intros k m _ Ht. apply orb_false_elim in Ht as [_ Ht]. exact Ht.
    - apply update_bits_frame in H. revert H. apply frame_weaken.
      intros k m _ Ht. apply orb_false_elim in Ht as [Ht _].
      unfold touch_update. rewrite He.
      destruct (Z.eqb_spec k (LP8755_REG_BUCK (rdev_get_id r))); [|reflexivity].
      apply Z.leb_gt in Ht. lia.
    - apply update_bits_frame in H. revert H. apply frame_weaken.
      intros k m _ Ht. apply orb_false_elim in Ht as [Ht _].
      unfold touch_update. rewrite He.
      destruct (Z.eqb_spec k (LP8755_REG_BUCK (rdev_get_id r))); [|reflexivity].
      apply Z.leb_gt in Ht. lia.
    - apply update_bits_frame in H. revert H. apply frame_weaken.
      intros k m _ Ht. apply orb_false_elim in Ht as [Ht _].
      unfold touch_update. rewrite He.
      destruct (Z.eqb_spec k (LP8755_REG_BUCK (rdev_get_id r))); [|reflexivity].
      apply Z.leb_gt in Ht. lia. }
  apply (mode_observed r' w w1 v v1 Hr'); try assumption; apply Hframe;
    try lia; eqb_lia.
Qed.

Lemma other_operations_keep_mode_witness :
  ∃ w1,
    lp8755_buck_set_ramp (rail 1) 500
      (World {[ 0x08 := 0x27 ]} [true] 0 [] None ∅ 0 zero_chip [])
    = Some (- EIO, w1)
    ∧ ∃ md a b,
        lp8755_buck_get_mode (rail 0) (quiet_world {[ 0x08 := 0x27 ]})
        = Some (md, a)
        ∧ lp8755_buck_get_mode (rail 0) (set_faults [] w1) = Some (md, b).
Proof.
  eexists. split; [vm_compute; reflexivity|].
  eapply (other_operations_keep_mode (rail 1) (rail 0) 500 0 (- EIO)
            (World {[ 0x08 := 0x27 ]} [true] 0 [] None ∅ 0 zero_chip [])).
  - apply rail_in_table. lia.
  - apply rail_in_table. lia.
  - lia.
  - left. vm_compute. reflexivity.
  - split; [reflexivity|apply not_elem_of_nil].
  - split; [reflexivity|apply not_elem_of_nil].
Defined.




(** X9.  [get_mode] does not surface a bus error: when its first read
    fails it returns 0, which is none of the modes, and when the second
    read fails (the rail not being in forced mode) it returns 0 as well;
    the registers are as they were. *)
Theorem get_mode_read_error (r : regulator_dev) (w : world) (l : list bool) :
  desc r ∈ lp8755_regulators →
  (faults w = true :: l →
   ∃ w', lp8755_buck_get_mode r w = Some (0, w') ∧ regs w' = regs w)
  ∧ (faults w = false :: true :: l →
     reg_bit w 0x06 (rdev_get_id r) = false →
     ∃ w', lp8755_buck_get_mode r w = Some (0, w') ∧ regs w' = regs w).
Proof.
  intros Hr. destruct (rail_desc r Hr) as (Hid & _).
  destruct w as [rg fl st al ri re rq pc tr]. cbn [faults].
  unfold lp8755_buck_get_mode. split.
  - intros ->. bus_unfold. munfold. cbn.
    eexists. split; reflexivity.
  - intros -> Hbit. unfold reg_bit in Hbit. cbn [regs] in Hbit.
    mstep. unfold uninitialized, gets at 1. mstep.
    rewrite read_ok
      by (unfold bus_ok; cbn; rewrite elem_of_cons, elem_of_nil;
          intros [H|[]]; discriminate).
    change (0 <? 0) with false. cbv iota. cbn [regs].
    rewrite Z.shiftl_1_l, land_pow2_eqb, negb_involutive, Hbit by lia.
    bus_unfold. munfold. cbn. eexists. split; reflexivity.
Qed.

Lemma get_mode_read_error_witness :
  ∃ w', lp8755_buck_get_mode (rail 0)
          (World {[ 0x06 := 1 ]} [true] 0 [] None ∅ 0 zero_chip [])
        = Some (0, w')
        ∧ regs w' = {[ 0x06 := 1 ]}.
Proof.
  destruct (get_mode_read_error (rail 0)
              (World {[ 0x06 := 1 ]} [true] 0 [] None ∅ 0 zero_chip []) [])
    as [H _].
  - apply rail_in_table. lia.
  - apply H. reflexivity.
Defined.

(** ** Ramp rate *)

Lemma ramp_regval_code (ramp : Z) :
  0 ≤ ramp ≤ 30000 → ramp_regval ramp = Some (ramp_threshold_code ramp).
Proof.
  intros Hr. unfold ramp_regval, ramp_threshold_code, ramp_thresholds.
  repeat match goal with
         | |- context [?a <=? ?b] => destruct (Z.leb_spec a b); try lia
         end;
    cbn [andb];
    repeat (rewrite filter_cons;
            match goal with
            | |- context [decide (?a ≤ ?b)] =>
                destruct (decide (a ≤ b)); try lia
            end);
    reflexivity.
Qed.

Lemma ramp_threshold_code_range (ramp : Z) : 0 ≤ ramp_threshold_code ramp ≤ 7.
Proof.
  unfold ramp_threshold_code.
  pose proof (length_filter (λ t, ramp ≤ t) ramp_thresholds) as H.
  change (length ramp_thresholds) with 7%nat in H. lia.
Qed.

Lemma ramp_threshold_code_antitone (ramp1 ramp2 : Z) :
  ramp1 ≤ ramp2 → ramp_threshold_code ramp2 ≤ ramp_threshold_code ramp1.
Proof.
  intros Hle. unfold ramp_threshold_code. apply inj_le.
  induction ramp_thresholds as [|t l IH]; [reflexivity|].
  rewrite !filter_cons.
  destruct (decide (ramp2 ≤ t)), (decide (ramp1 ≤ t)); cbn [length]; lia.
Qed.

(** X10.  [set_ramp_delay] accepts exactly the ramps 0..30000 uV/us:
    any other value, negative ones included, is refused with [-EINVAL]
    before any bus access.  An accepted ramp gets as code the number of
    the thresholds 230, 470, 940, 1900, 3800, 7500 and 15000 it does not
    exceed, so a larger ramp never gets a larger code. *)
Theorem set_ramp_range_and_order (r : regulator_dev) :
  (∀ ramp w, ramp < 0 ∨ 30000 < ramp →
     lp8755_buck_set_ramp r ramp w = Some (- EINVAL, w))
  ∧ (∀ ramp, 0 ≤ ramp ≤ 30000 →
       ramp_maps r ramp (ramp_threshold_code ramp)
       ∧ 0 ≤ ramp_threshold_code ramp ≤ 7)
  ∧ (∀ ramp1 ramp2, ramp1 ≤ ramp2 →
       ramp_threshold_code ramp2 ≤ ramp_threshold_code ramp1).
Proof.
  split; [|split].
  - intros ramp w Hramp. unfold lp8755_buck_set_ramp, ramp_regval.
    repeat match goal with
           | |- context [?a <=? ?b] => destruct (Z.leb_spec a b); try lia
           end; reflexivity.
  - intros ramp Hramp. pose proof (ramp_threshold_code_range ramp) as Hc.
    split; [|exact Hc].
    apply set_ramp_code; [apply ramp_regval_code, Hramp|exact Hc].
  - apply ramp_threshold_code_antitone.
Qed.

Lemma set_ramp_range_and_order_witness :
  lp8755_buck_set_ramp (rail 0) (-1) (quiet_world ∅)
  = Some (- EINVAL, quiet_world ∅)
  ∧ (∃ w', lp8755_buck_set_ramp (rail 0) 1000 (quiet_world ∅) = Some (0, w')
           ∧ Z.land (regs w' !!! (0x07 + rdev_get_id (rail 0))) 0x07
             = ramp_threshold_code 1000)
  ∧ ramp_threshold_code 2000 ≤ ramp_threshold_code 1000.
Proof.
  destruct (set_ramp_range_and_order (rail 0)) as (Hrej & Hacc & Hord).
  split; [apply Hrej; lia|]. split.
  - destruct (Hacc 1000) as [Hmaps _]; [lia|].
    apply (Hmaps (quiet_world ∅)). apply not_elem_of_nil.
  - apply Hord. lia.
Defined.

(** ** Results and errors of the reading operations *)

Lemma enable_time_ok (r : regulator_dev) (w : world) :
  bus_ok 1 w →
  ∃ w', lp8755_buck_enable_time r w
        = Some (100 * ((regs w !!! (0x12 + rdev_get_id r)) mod 256), w')
        ∧ regs w' = regs w.
Proof.
  intros Hbus. unfold lp8755_buck_enable_time.
  mstep. unfold uninitialized, gets at 1.
  mstep. rewrite read_ok by exact Hbus.
  change (0 <? 0) with false. cbv iota. unfold mret, M_ret. result_is.
  rewrite <- Z.land_assoc. change (Z.land 255 0xff) with (Z.ones 8).
  rewrite Z.land_ones by lia. apply Z.mul_comm.
Qed.

(** X11.  [enable_time] and [get_voltage_sel] keep results and errors
    apart.  When the read succeeds, [enable_time] returns 100 times the
    byte of register [0x12 + id], between 0 and 25500 microseconds, and
    [get_voltage_sel] a selector between 0 and 127; when the read fails
    both return the negative error of the bus. *)
Theorem reads_results_and_errors (r : regulator_dev) (w : world)
    (l : list bool) :
  desc r ∈ lp8755_regulators →
  (bus_ok 1 w →
   ∃ t v a b,
     lp8755_buck_enable_time r w = Some (t, a)
     ∧ t = 100 * ((regs w !!! (0x12 + rdev_get_id r)) mod 256)
     ∧ 0 ≤ t ≤ 25500
     ∧ lp8755_get_voltage_buck_sel r w = Some (v, b)
     ∧ 0 ≤ v ≤ 127)
  ∧ (faults w = true :: l →
     ∃ a b,
       lp8755_buck_enable_time r w = Some (- EIO, a)
       ∧ lp8755_get_voltage_buck_sel r w = Some (- EIO, b)
       ∧ - EIO < 0).
Proof.
  intros Hr. split.
  - intros Hbus.
    destruct (get_voltage_ok r w Hr Hbus) as (b & Hv & _).
    destruct (enable_time_ok r w Hbus) as (a & Ht & _).
    eexists _, _, a, b. split; [exact Ht|]. split; [reflexivity|].
    split; [|split; [exact Hv|]].
    + pose proof (Z.mod_pos_bound (regs w !!! (0x12 + rdev_get_id r)) 256).
      lia.
    + pose proof (Z.mod_pos_bound (regs w !!! enable_reg (desc r)) 128). lia.
  - intros Hf. destruct w as [rg fl st al ri re rq pc tr].
    cbn [faults] in Hf. subst fl.
    unfold lp8755_buck_enable_time, lp8755_get_voltage_buck_sel.
    bus_unfold. munfold. cbn.
    eexists _, _. split; [reflexivity|]. split; [reflexivity|].
    unfold EIO. lia.
Qed.

Lemma reads_results_and_errors_witness :
  ∃ t v a b,
    lp8755_buck_enable_time (rail 1) (quiet_world {[ 0x13 := 7 ]})
    = Some (t, a)
    ∧ t = 100 * (((regs (quiet_world {[ 0x13 := 7 ]}))
                    !!! (0x12 + rdev_get_id (rail 1))) mod 256)
    ∧ 0 ≤ t ≤ 25500
    ∧ lp8755_get_voltage_buck_sel (rail 1) (quiet_world {[ 0x13 := 7 ]})
      = Some (v, b)
    ∧ 0 ≤ v ≤ 127.
Proof.
  destruct (reads_results_and_errors (rail 1) (quiet_world {[ 0x13 := 7 ]}) [])
    as [H _].
  - apply rail_in_table. lia.
  - apply H. apply not_elem_of_nil.
Defined.

(** ** The interrupt handler, beyond power faults *)

(** X12.  When the read of status register A fails, or its
    acknowledgement does, the handler gives up with [IRQ_NONE]: no event
    is sent, no register changes and status register B is not accessed. *)
Theorem irq_handler_aborts (w : world) (l : list bool) :
  (faults w = true :: l →
   lp8755_irq_handler w
   = Some (IRQ_NONE, log (BusRead 0x0D false) (set_faults l w)))
  ∧ (faults w = false :: true :: l →
     lp8755_irq_handler w
     = Some (IRQ_NONE,
             log (BusWrite 0x0D 0x00 false)
               (log (BusRead 0x0D true) (set_faults l w)))).
Proof.
  destruct w as [rg fl st al ri re rq pc tr]. cbn [faults].
  unfold lp8755_irq_handler.
  split; intros ->; bus_unfold; munfold; reflexivity.
Qed.

Lemma irq_handler_aborts_witness :
  lp8755_irq_handler (World {[ 0x0D := 0xFC ]} [true] 0 [] None ∅ 0
                        (chip_with [Some (rail 0)] 0xFF) [])
  = Some (IRQ_NONE,
          log (BusRead 0x0D false)
            (set_faults [] (World {[ 0x0D := 0xFC ]} [true] 0 [] None ∅ 0
                              (chip_with [Some (rail 0)] 0xFF) []))).
Proof.
  destruct (irq_handler_aborts
              (World {[ 0x0D := 0xFC ]} [true] 0 [] None ∅ 0
                 (chip_with [Some (rail 0)] 0xFF) []) []) as [H _].
  apply H. reflexivity.
Defined.

Lemma test_flag (x bit p : Z) :
  p = 2 ^ bit → 0 ≤ bit → negb (Z.land x p =? 0) = Z.testbit x bit.
Proof.
  intros -> Hb. rewrite land_pow2_eqb by exact Hb. apply negb_involutive.
Qed.

Lemma live_handles_slots (c : lp8755_chip) :
  length (rdev c) = 6%nat →
  omap (λ i, mjoin (rdev c !! Z.to_nat i)) (seqZ 0 6) = live_handles c.
Proof.
  intros Hlen. unfold live_handles.
  destruct (rdev c) as [|? [|? [|? [|? [|? [|? [|? ?]]]]]]];
    try discriminate. reflexivity.
Qed.

(** The second half of the handler when its two bus transactions
    succeed. *)
Lemma irq_flag1_ok (w : world) :
  length (rdev (pchip w)) = 6%nat →
  bus_ok 2 w →
  ∃ w',
    irq_flag1 w = Some (IRQ_HANDLED, w')
    ∧ trace w' = trace w
        ++ [BusRead 0x0E true; BusWrite 0x0E 0x00 true]
        ++ broadcast LP8755_EVENT_OCP 0 (Z.land (regs w !!! 0x0E) 0xFF) (pchip w)
        ++ broadcast LP8755_EVENT_OVP 1 (Z.land (regs w !!! 0x0E) 0xFF) (pchip w)
    ∧ regs w' = <[0x0E := 0]> (regs w)
    ∧ pchip w' = pchip w.
Proof.
  intros Hlen Hbus. unfold irq_flag1.
  mstep. unfold uninitialized, gets at 1.
  mstep. rewrite read_ok by (apply bus_ok_2_1, Hbus).
  change (0 <? 0) with false. cbv iota.
  mstep. rewrite write_ok
    by (unfold bus_ok; cbn [faults]; apply bus_ok_2_drop, Hbus).
  change (0 <? 0) with false. cbv iota.
  mstep. unfold gets at 1. cbv beta. cbn [pchip regs].
  rewrite !(test_flag _ 0 0x01 eq_refl), !(test_flag _ 1 0x02 eq_refl) by lia.
  unfold broadcast.
  destruct (Z.testbit (Z.land (regs w !!! 0x0E) 0xFF) 0
            && Z.testbit (irqmask (pchip w)) 0);
    destruct (Z.testbit (Z.land (regs w !!! 0x0E) 0xFF) 1
              && Z.testbit (irqmask (pchip w)) 1);
    mstep; unfold skip;
    rewrite ?notify_all_run by exact Hlen;
    unfold mret at 1, M_ret at 1; mstep;
    rewrite ?notify_all_run by exact Hlen;
    unfold mret, M_ret; cbn [pchip log_all];
    rewrite ?live_handles_slots by exact Hlen;
    (eexists; split; [reflexivity|]);
    cbn [trace regs pchip log_all];
    rewrite <- ?app_assoc, ?app_nil_r;
    (split; [reflexivity|split; reflexivity]).
Qed.

(** X13.  A handler run in which all four bus transactions succeed:
    status register A is read and cleared, the power faults are sent,
    status register B is read and cleared, then an over-current event
    goes to every live rail in slot order if bit 0 is set in the value
    read and in the cached mask, and after it an over-voltage event to
    every live rail if bit 1 is; the handler returns [IRQ_HANDLED] and
    leaves the chip structure as it was. *)
Theorem irq_handler_full_run (w : world) :
  length (rdev (pchip w)) = 6%nat →
  bus_ok 4 w →
  let flag0 := Z.land (regs w !!! 0x0D) 0xFF in
  let flag1 := Z.land (regs w !!! 0x0E) 0xFF in
  let c := pchip w in
  ∃ w',
    lp8755_irq_handler w = Some (IRQ_HANDLED, w')
    ∧ added w w'
      = [BusRead 0x0D true; BusWrite 0x0D 0x00 true]
        ++ map (λ r, NotifierCallChain r LP8755_EVENT_PWR_FAULT)
               (pwr_fault_targets flag0 c)
        ++ [BusRead 0x0E true; BusWrite 0x0E 0x00 true]
        ++ broadcast LP8755_EVENT_OCP 0 flag1 c
        ++ broadcast LP8755_EVENT_OVP 1 flag1 c
    ∧ regs w' !!! 0x0D = 0
    ∧ regs w' !!! 0x0E = 0
    ∧ pchip w' = c.
Proof.
  intros Hlen Hbus flag0 flag1 c.
  apply (bus_ok_split 2 2) in Hbus as [Hb2 Hb2'].
  unfold lp8755_irq_handler.
  mstep. unfold uninitialized, gets at 1.
  mstep. rewrite read_ok by (apply bus_ok_2_1, Hb2).
  change (0 <? 0) with false. cbv iota.
  mstep. rewrite write_ok
    by (unfold bus_ok; cbn [faults]; apply bus_ok_2_drop, Hb2).
  change (0 <? 0) with false. cbv iota.
  mstep. rewrite notify_pwr_fault_run by exact Hlen.
  match goal with
  | |- context [irq_flag1 ?w1] =>
      destruct (irq_flag1_ok w1 Hlen) as (w' & Hrun & Htr & Hregs & Hc)
  end.
  { unfold bus_ok. cbn [faults log_all]. rewrite drop_drop. exact Hb2'. }
  exists w'. split; [exact Hrun|].
  cbn [trace regs pchip log_all] in Htr, Hregs, Hc.
  rewrite lookup_total_insert_ne in Htr by lia.
  split; [|split; [|split; [|exact Hc]]].
  - apply added_app. rewrite Htr, <- !app_assoc. reflexivity.
  - rewrite Hregs, lookup_total_insert_ne, lookup_total_insert_eq by lia.
    reflexivity.
  - rewrite Hregs, lookup_total_insert_eq. reflexivity.
Qed.

Lemma irq_handler_full_run_witness :
  ∃ w',
    lp8755_irq_handler
      (World {[ 0x0E := 0x01 ]} [] 0 [] None ∅ 0
         (chip_with [Some (rail 0); None; None; Some (rail 3); None; None]
            0x01) [])
    = Some (IRQ_HANDLED, w')
    ∧ notified LP8755_EVENT_OCP (trace w') = [rail 0; rail 3]
    ∧ notified LP8755_EVENT_OVP (trace w') = [].
Proof.
  destruct (irq_handler_full_run
              (World {[ 0x0E := 0x01 ]} [] 0 [] None ∅ 0
                 (chip_with [Some (rail 0); None; None; Some (rail 3); None;
                             None] 0x01) []))
    as (w' & Hrun & Hadd & _).
  - reflexivity.
  - apply not_elem_of_nil.
  - exists w'. split; [exact Hrun|].
    change (added _ w') with (trace w') in Hadd.
    rewrite Hadd. split; vm_compute; reflexivity.
Defined.

(** ** What the interrupt handler never does *)

Lemma notify_step_refl (touch : Z → Z → bool) (w : world) :
  notify_step touch w w.
Proof.
  split; [reflexivity|]. split; [apply frame_refl|].
  exists []. split; [symmetry; apply app_nil_r|].
  intros e He. inversion He.
Qed.

Lemma notify_step_trans (touch : Z → Z → bool) (w w1 w2 : world) :
  notify_step touch w w1 → notify_step touch w1 w2 → notify_step touch w w2.
Proof.
  intros (Hc1 & Hf1 & t1 & Ht1 & He1) (Hc2 & Hf2 & t2 & Ht2 & He2).
  split; [congruence|]. split; [eapply frame_trans; eassumption|].
  exists (t1 ++ t2). split; [rewrite Ht2, Ht1, app_assoc; reflexivity|].
  intros e He. apply elem_of_app in He as [He|He].
  - apply He1, He.
  - rewrite <- Hc1. apply He2, He.
Qed.

Lemma notify_step_weaken (t1 t2 : Z → Z → bool) (w w1 : world) :
  (∀ k m, 0 ≤ m → t2 k m = false → t1 k m = false) →
  notify_step t1 w w1 → notify_step t2 w w1.
Proof.
  intros Hsub (Hc & Hf & Ht). split; [exact Hc|].
  split; [eapply frame_weaken; eassumption|exact Ht].
Qed.

Lemma bus_event_only (e1 e : effect) :
  is_bus e1 = true → e ∈ [e1] →
  ∀ c : lp8755_chip,
    is_bus e = true ∨ ∃ r ev, e = NotifierCallChain r ev ∧ Some r ∈ rdev c.
Proof.
  intros H He c. apply list_elem_of_singleton in He as ->. left. exact H.
Qed.

Lemma read_notify_step (touch : Z → Z → bool) (reg val : Z) (w : world) :
  ∃ ret v w',
    lp8755_read reg val w = Some ((ret, v), w') ∧ notify_step touch w w'.
Proof.
  destruct w as [rg fl st al ri re rq pc tr].
  bus_unfold. munfold. unfold log, set_faults.
  destruct fl as [|[] fl]; cbn [faults];
    eexists _, _, _; (split; [reflexivity|]);
    (split; [reflexivity|]);
    (split; [apply frame_same_regs; reflexivity|]);
    eexists; (split; [reflexivity|]);
    intros e He; (eapply bus_event_only; [|exact He]); reflexivity.
Qed.

Lemma write_notify_step (reg val : Z) (w : world) :
  ∃ ret w',
    lp8755_write reg val w = Some (ret, w')
    ∧ notify_step (λ k _, k =? reg) w w'.
Proof.
  destruct (write_no_pwr_fault reg val w) as (ret & w' & Hrun & _).
  exists ret, w'. split; [exact Hrun|].
  pose proof (write_frame _ _ _ _ _ Hrun) as Hf.
  revert Hrun. destruct w as [rg fl st al ri re rq pc tr].
  bus_unfold. munfold. unfold log, set_faults, set_regs.
  destruct fl as [|[] fl]; cbn [faults]; intros [= <- <-];
    (split; [reflexivity|]); (split; [exact Hf|]);
    eexists; (split; [reflexivity|]);
    intros e He; (eapply bus_event_only; [|exact He]); reflexivity.
Qed.

Lemma log_all_notify_step (touch : Z → Z → bool) (ev : lp8755_event)
    (l : list regulator_dev) (w : world) :
  (∀ r, r ∈ l → Some r ∈ rdev (pchip w)) →
  notify_step touch w (log_all (map (λ r, NotifierCallChain r ev) l) w).
Proof.
  intros Hl. split; [reflexivity|].
  split; [apply frame_same_regs; reflexivity|].
  eexists. split; [reflexivity|].
  intros e He. right.
  apply list_elem_of_In, in_map_iff in He as (r & <- & Hr).
  exists r, ev. split; [reflexivity|]. apply Hl, list_elem_of_In, Hr.
Qed.

Lemma slot_live (c : lp8755_chip) (n : nat) (r : regulator_dev) :
  mjoin (rdev c !! n) = Some r → Some r ∈ rdev c.
Proof.
  destruct (rdev c !! n) as [[x|]|] eqn:E; cbn; intros [= ->].
  eapply list_elem_of_lookup_2, E.
Qed.

Lemma pwr_fault_targets_live (flag0 : Z) (c : lp8755_chip)
    (r : regulator_dev) :
  r ∈ pwr_fault_targets flag0 c → Some r ∈ rdev c.
Proof.
  unfold pwr_fault_targets. intros H.
  apply list_elem_of_omap in H as (i & _ & Hi).
  unfold pwr_fault_target in Hi.
  destruct (Z.testbit flag0 (2 + i) && Z.testbit (irqmask c) (2 + i));
    [|discriminate].
  eapply slot_live, Hi.
Qed.

Lemma all_slots_live (c : lp8755_chip) (r : regulator_dev) :
  r ∈ omap (λ i, mjoin (rdev c !! Z.to_nat i)) (seqZ 0 6) → Some r ∈ rdev c.
Proof.
  intros H. apply list_elem_of_omap in H as (i & _ & Hi).
  eapply slot_live, Hi.
Qed.

Lemma notify_all_notify_step (touch : Z → Z → bool) (b : bool)
    (ev : lp8755_event) (w : world) :
  length (rdev (pchip w)) = 6%nat →
  ∃ w', (if b then notify_all ev else skip) w = Some (tt, w')
        ∧ notify_step touch w w'.
Proof.
  intros Hlen. destruct b.
  - rewrite notify_all_run by exact Hlen. eexists. split; [reflexivity|].
    apply log_all_notify_step. intros r. apply all_slots_live.
  - exists w. split; [reflexivity|]. apply notify_step_refl.
Qed.

(** The second half of the handler, whatever the bus does. *)
Lemma irq_flag1_notify_step (w : world) :
  length (rdev (pchip w)) = 6%nat →
  ∃ ret w', irq_flag1 w = Some (ret, w') ∧ notify_step touch_status_b w w'.
Proof.
  intros Hlen. unfold irq_flag1.
  unfold mbind at 1, M_bind at 1, uninitialized, gets.
  destruct (read_notify_step touch_status_b 0x0E (stack w) w)
    as (ret & flag1 & w1 & Hr & H1).
  unfold mbind at 1, M_bind at 1. rewrite Hr.
  destruct (ret <? 0); [exists IRQ_NONE, w1; split; [reflexivity|exact H1]|].
  destruct (write_notify_step 0x0E 0x00 w1) as (ret2 & w2 & Hw & H2).
  unfold mbind at 1, M_bind at 1. rewrite Hw.
  pose proof (notify_step_trans _ _ _ _ H1 H2) as H12.
  destruct (ret2 <? 0); [exists IRQ_NONE, w2; split; [reflexivity|exact H12]|].
  assert (length (rdev (pchip w2)) = 6%nat) as Hlen2
    by (destruct H12 as [-> _]; exact Hlen).
  unfold mbind at 1, M_bind at 1. cbv beta iota.
  unfold mbind at 1, M_bind at 1.
  match goal with
  | |- context [(if ?b then notify_all LP8755_EVENT_OCP else skip) w2] =>
      destruct (notify_all_notify_step touch_status_b b LP8755_EVENT_OCP w2
                  Hlen2) as (w3 & Hn3 & H3)
  end.
  rewrite Hn3.
  assert (length (rdev (pchip w3)) = 6%nat) as Hlen3
    by (destruct H3 as [-> _]; exact Hlen2).
  unfold mbind at 1, M_bind at 1.
  match goal with
  | |- context [(if ?b then notify_all LP8755_EVENT_OVP else skip) w3] =>
      destruct (notify_all_notify_step touch_status_b b LP8755_EVENT_OVP w3
                  Hlen3) as (w4 & Hn4 & H4)
  end.
  rewrite Hn4.
  exists IRQ_HANDLED, w4. split; [reflexivity|].
  eauto using notify_step_trans.
Qed.

Lemma touch_status_b_sub (k m : Z) :
  0 ≤ m → touch_status k m = false → touch_status_b k m = false.
Proof. unfold touch_status, touch_status_b. intros _. apply orb_false_elim. Qed.

Lemma touch_status_a_sub (k m : Z) :
  0 ≤ m → touch_status k m = false → (k =? 0x0D) = false.
Proof. unfold touch_status. intros _ H. apply orb_false_elim in H. tauto. Qed.

(** The whole handler, whatever the bus does; with the part after the
    acknowledgement of status register A made explicit. *)
Lemma irq_handler_notify_step (w : world) :
  length (rdev (pchip w)) = 6%nat →
  ∃ ret w',
    lp8755_irq_handler w = Some (ret, w') ∧ notify_step touch_status w w'.
Proof.
  intros Hlen. unfold lp8755_irq_handler.
  unfold mbind at 1, M_bind at 1, uninitialized, gets.
  destruct (read_notify_step touch_status 0x0D (stack w) w)
    as (ret & flag0 & w1 & Hr & H1).
  unfold mbind at 1, M_bind at 1. rewrite Hr.
  destruct (ret <? 0); [exists IRQ_NONE, w1; split; [reflexivity|exact H1]|].
  destruct (write_notify_step 0x0D 0x00 w1) as (ret2 & w2 & Hw & H2).
  apply (notify_step_weaken _ touch_status) in H2;
    [|exact touch_status_a_sub].
  unfold mbind at 1, M_bind at 1. rewrite Hw.
  pose proof (notify_step_trans _ _ _ _ H1 H2) as H12.
  destruct (ret2 <? 0); [exists IRQ_NONE, w2; split; [reflexivity|exact H12]|].
  assert (length (rdev (pchip w2)) = 6%nat) as Hlen2
    by (destruct H12 as [-> _]; exact Hlen).
  unfold mbind at 1, M_bind at 1.
  rewrite notify_pwr_fault_run by exact Hlen2.
  match goal with
  | |- context [irq_flag1 ?w3] =>
      assert (notify_step touch_status w2 w3) as H3
        by (apply log_all_notify_step; intros r; apply pwr_fault_targets_live);
      destruct (irq_flag1_notify_step w3 Hlen2) as (ret4 & w4 & Hrun & H4)
  end.
  apply (notify_step_weaken _ touch_status) in H4;
    [|exact touch_status_b_sub].
  exists ret4, w4. split; [exact Hrun|].
  eauto using notify_step_trans.
Qed.

(** X14.  Whatever the bus does, and whatever the status registers hold,
    a run of the interrupt handler for a chip with six handle slots is
    defined; it leaves the chip structure as it was; every register
    other than the status registers 0x0D and 0x0E reads as before; and
    beside its bus transactions it only calls the notifier chain of
    handles that are stored in the chip structure. *)
Theorem irq_handler_confined (w : world) :
  length (rdev (pchip w)) = 6%nat →
  ∃ ret w',
    lp8755_irq_handler w = Some (ret, w')
    ∧ pchip w' = pchip w
    ∧ (∀ k, k ≠ 0x0D → k ≠ 0x0E →
         Z.land (regs w' !!! k) 0xFF = Z.land (regs w !!! k) 0xFF)
    ∧ (∀ e, e ∈ added w w' →
         is_bus e = true
         ∨ ∃ r ev, e = NotifierCallChain r ev ∧ Some r ∈ rdev (pchip w)).
Proof.
  intros Hlen.
  destruct (irq_handler_notify_step w Hlen)
    as (ret & w' & Hrun & Hc & Hf & t & Ht & He).
  exists ret, w'. split; [exact Hrun|]. split; [exact Hc|]. split.
  - intros k H1 H2. apply Z.bits_inj'. intros m Hm.
    apply (Hf k m Hm). unfold touch_status.
    apply Z.eqb_neq in H1, H2. rewrite H1, H2. reflexivity.
  - rewrite (added_app _ _ _ Ht). exact He.
Qed.

Lemma irq_handler_confined_witness :
  ∃ ret w',
    lp8755_irq_handler
      (World {[ 0x0D := 0xFF; 0x0E := 0xFF ]} [false; false; true] 0 [] None
         ∅ 0 (chip_with [Some (rail 0); None; None; None; None; Some (rail 5)]
                0xFF) [])
    = Some (ret, w')
    ∧ pchip w'
      = chip_with [Some (rail 0); None; None; None; None; Some (rail 5)] 0xFF.
Proof.
  destruct (irq_handler_confined
              (World {[ 0x0D := 0xFF; 0x0E := 0xFF ]} [false; false; true] 0
                 [] None ∅ 0
                 (chip_with [Some (rail 0); None; None; None; None;
                             Some (rail 5)] 0xFF) []))
    as (ret & w' & Hrun & Hc & _).
  - reflexivity.
  - exists ret, w'. split; [exact Hrun|exact Hc].
Defined.

(** After a run in which status register A was read and acknowledged,
    that register reads zero, whatever the second half did. *)
Lemma irq_handler_acked (ret : irqreturn_t) (w w' : world) :
  length (rdev (pchip w)) = 6%nat →
  bus_ok 2 w →
  lp8755_irq_handler w = Some (ret, w') →
  ∀ m, 0 ≤ m → reg_bit w' 0x0D m = false.
Proof.
  intros Hlen Hbus. unfold lp8755_irq_handler.
  mstep. unfold uninitialized, gets at 1.
  mstep. rewrite read_ok by (apply bus_ok_2_1, Hbus).
  change (0 <? 0) with false. cbv iota.
  mstep. rewrite write_ok
    by (unfold bus_ok; cbn [faults]; apply bus_ok_2_drop, Hbus).
  change (0 <? 0) with false. cbv iota.
  mstep. rewrite notify_pwr_fault_run by exact Hlen.
  match goal with
  | |- context [irq_flag1 ?w3] =>
      destruct (irq_flag1_notify_step w3 Hlen) as (r4 & w4 & Hrun & _ & Hf & _)
  end.
  rewrite Hrun. intros [= <- <-] m Hm.
  rewrite (Hf 0x0D m Hm) by reflexivity.
  unfold reg_bit. cbn [regs log_all].
  rewrite lookup_total_insert_eq. apply Z.bits_0.
Qed.

(** X15.  The handler and the operating modes.  The mode register of
    rail 5, 0x08 + 5, is the status register 0x0D that the handler
    acknowledges by writing zero.  So a run of the handler, whatever its
    outcome, the runs that give up at status register A included, leaves
    the mode that [get_mode] reports on a working bus for the rails 0..4
    as it was; but after a run in which the handler has read and
    acknowledged status register A, [get_mode] never reports Idle for
    rail 5. *)
Theorem irq_handler_and_modes (r : regulator_dev) (ret : irqreturn_t)
    (w w' v v' : world) :
  desc r ∈ lp8755_regulators →
  length (rdev (pchip w)) = 6%nat →
  lp8755_irq_handler w = Some (ret, w') →
  observes 2 v w → observes 2 v' w' →
  (rdev_get_id r ≠ 5 →
     ∃ md a b,
       lp8755_buck_get_mode r v = Some (md, a)
       ∧ lp8755_buck_get_mode r v' = Some (md, b))
  ∧ (rdev_get_id r = 5 →
     bus_ok 2 w →
     ∃ md b,
       lp8755_buck_get_mode r v' = Some (md, b)
       ∧ md ≠ REGULATOR_MODE_IDLE).
Proof.
  intros Hr Hlen Hrun Hv Hv'. destruct (rail_desc r Hr) as (Hid & _).
  split.
  - intros H5.
    destruct (irq_handler_notify_step w Hlen) as (ret1 & w1 & Hrun1 & _ & Hf & _).
    rewrite Hrun in Hrun1. injection Hrun1 as <- <-.
    apply (mode_observed r w w' v v' Hr); try assumption.
    + apply Hf; [lia|reflexivity].
    + apply Hf; [lia|]. unfold touch_status.
      apply orb_false_intro; apply Z.eqb_neq; lia.
  - intros H5 Hb. destruct Hv' as [Hregs Hb'].
    pose proof (irq_handler_acked ret w w' Hlen Hb Hrun 5 ltac:(lia)) as Hbit.
    rewrite <- (reg_bit_regs v' w') in Hbit by exact Hregs.
    destruct (get_mode_ok r v' Hid Hb') as (b & Hget).
    eexists _, b. split; [exact Hget|].
    rewrite H5. change (0x08 + 5) with 0x0D.
    unfold reg_bit in Hbit. rewrite Hbit.
    clear Hget Hbit. case_match; intros Heq; vm_compute in Heq; discriminate Heq.
Qed.

Lemma irq_handler_and_modes_witness :
  ∃ w' md a b,
    lp8755_irq_handler
      (World {[ 0x0A := 0x20 ]} [true] 0 [] None ∅ 0
         (chip_with [None; None; None; None; None; Some (rail 5)] 0) [])
    = Some (IRQ_NONE, w')
    ∧ lp8755_buck_get_mode (rail 2) (quiet_world {[ 0x0A := 0x20 ]})
      = Some (md, a)
    ∧ lp8755_buck_get_mode (rail 2) (set_faults [] w') = Some (md, b).
Proof.
  assert (∃ w',
            lp8755_irq_handler
              (World {[ 0x0A := 0x20 ]} [true] 0 [] None ∅ 0
                 (chip_with [None; None; None; None; None; Some (rail 5)] 0)
                 [])
            = Some (IRQ_NONE, w')) as (w' & Hrun)
    by (eexists; vm_compute; reflexivity).
  destruct (irq_handler_and_modes (rail 2) IRQ_NONE
              (World {[ 0x0A := 0x20 ]} [true] 0 [] None ∅ 0
                 (chip_with [None; None; None; None; None; Some (rail 5)] 0)
                 []) w' (quiet_world {[ 0x0A := 0x20 ]}) (set_faults [] w'))
    as [H _];
    [vm_compute; set_solver|reflexivity|exact Hrun
    |split; [reflexivity|apply not_elem_of_nil]
    |split; [reflexivity|apply not_elem_of_nil]|].
  destruct H as (md & a & b & Ha & Hb); [vm_compute; discriminate|].
  exists w', md, a, b. split; [exact Hrun|]. split; [exact Ha|exact Hb].
Defined.

(** ** The test-mode debug file *)

Lemma write_fail (reg val : Z) (w : world) (fl : list bool) :
  faults w = true :: fl →
  lp8755_write reg val w =
    Some (- EIO, World (regs w) fl (stack w) (allocs w) (regmap_init w)
                       (register_errs w) (request_irq_ret w) (pchip w)
                       (trace w ++ [BusWrite reg (Z.land val 0xFF) false])).
Proof.
  destruct w as [rg f st al ri re rq pc tr]. cbn [faults]. intros ->.
  bus_unfold. munfold. reflexivity.
Qed.

Lemma served_nil (n : nat) : served n [] = n.
Proof. destruct n; reflexivity. Qed.

Lemma served_le (n : nat) (fl : list bool) : (served n fl ≤ n)%nat.
Proof.
  revert fl. induction n as [|n IH]; intros [|[] fl]; cbn; try lia.
  specialize (IH fl). lia.
Qed.

(** A sequence of writes under any schedule: the writes that reach the
    device are the first ones, as many as the schedule serves. *)
Lemma write_seq_run (l : list (Z * Z)) (w : world) :
  ∃ ret w' t,
    write_seq l w = Some (ret, w')
    ∧ pchip w' = pchip w
    ∧ trace w' = trace w ++ t
    ∧ writes t = map (λ rv, (rv.1, Z.land rv.2 0xFF))
                     (take (served (length l) (faults w)) l)
    ∧ ret = (if (served (length l) (faults w) =? length l)%nat
             then 0 else - EIO).
Proof.
  revert w. induction l as [|[reg val] l IH]; intros w.
  - exists 0, w, []. cbn. rewrite app_nil_r. repeat split; reflexivity.
  - cbn [write_seq foldr fst snd length]. mstep.
    destruct (faults w) as [|[] fl] eqn:Hfl.
    + rewrite write_ok by (unfold bus_ok; rewrite Hfl; apply not_elem_of_nil).
      change (0 <? 0) with false. cbv iota.
      match goal with
      | |- context [foldr _ _ l ?w1] =>
          destruct (IH w1) as (ret & w' & t & Hrun & Hc & Ht & Hw & Hret)
      end.
      fold (write_seq l). rewrite Hrun. cbn [faults pchip trace] in *.
      rewrite Hfl in Hw, Hret. cbn [drop] in Hw, Hret.
      rewrite served_nil in *.
      exists ret, w', (BusWrite reg (Z.land val 0xFF) true :: t).
      split; [reflexivity|]. split; [exact Hc|].
      split; [rewrite Ht, <- app_assoc; reflexivity|].
      rewrite firstn_all in Hw.
      change (take (S (length l)) ((reg, val) :: l))
        with ((reg, val) :: take (length l) l).
      rewrite firstn_all. cbn [writes omap map fst snd]. split.
      * cbn. f_equal. exact Hw.
      * rewrite Nat.eqb_refl in *. exact Hret.
    + rewrite (write_fail _ _ _ fl Hfl).
      change (- EIO <? 0) with true. cbv iota.
      eexists _, _, [_]. split; [reflexivity|]. cbn [pchip trace].
      split; [reflexivity|]. split; [reflexivity|]. split; reflexivity.
    + rewrite write_ok
        by (unfold bus_ok; rewrite Hfl; cbn; intros H;
            apply list_elem_of_singleton in H; discriminate).
      change (0 <? 0) with false. cbv iota.
      match goal with
      | |- context [foldr _ _ l ?w1] =>
          destruct (IH w1) as (ret & w' & t & Hrun & Hc & Ht & Hw & Hret)
      end.
      fold (write_seq l). rewrite Hrun. cbn [faults pchip trace] in *.
      rewrite Hfl in Hw, Hret. cbn [drop] in Hw, Hret.
      exists ret, w', (BusWrite reg (Z.land val 0xFF) true :: t).
      split; [reflexivity|]. split; [exact Hc|].
      split; [rewrite Ht, <- app_assoc; reflexivity|].
      cbn [served take map writes omap fst snd]. split.
      * cbn. f_equal. exact Hw.
      * rewrite Hret. cbn [Nat.eqb]. reflexivity.
Qed.

Lemma write_seq_frame (l : list (Z * Z)) (w w' : world) (ret : Z) :
  write_seq l w = Some (ret, w') → frame (touch_writes l) w w'.
Proof.
  revert w. induction l as [|[reg val] l IH]; intros w.
  - intros [= _ <-]. apply frame_refl.
  - cbn [write_seq foldr fst snd]. mstep.
    destruct (lp8755_write reg val w) as [[r1 w1]|] eqn:Hw; [|discriminate].
    apply write_frame in Hw.
    apply (frame_weaken _ (touch_writes ((reg, val) :: l))) in Hw;
      [|intros k m _ H; apply orb_false_elim in H; tauto].
    destruct (r1 <? 0).
    + intros [= _ <-]. exact Hw.
    + intros H. apply IH in H.
      apply (frame_weaken _ (touch_writes ((reg, val) :: l))) in H;
        [|intros k m _ H'; apply orb_false_elim in H'; tauto].
      eapply frame_trans; eassumption.
Qed.

Lemma test_mode_set_unfold (r : regulator_dev) (val : Z) (w : world) :
  lp8755_test_mode_set r val w
  = write_seq test_mode_writes
      (set_pchip (set_test_mode (s32 (test_mode (pchip w) + 1))) w).
Proof. reflexivity. Qed.

(** X16.  Writing to the test-mode file, whatever value is written,
    whatever the counter holds and whatever the bus does: the counter is
    incremented first, as an [int] that wraps from [INT_MAX] to
    [INT_MIN], so the increment stays even when a write fails; the eight
    writes are attempted in program order and stop at the first failure,
    so the writes that reach the device are a prefix of
    [test_mode_writes], as long as the schedule serves; the result is 0
    when all eight went through and the bus error otherwise; and reading
    the file afterwards yields the new counter. *)
Theorem test_mode_set_sequence (r : regulator_dev) (val : Z) (w : world) :
  let k := served 8 (faults w) in
  let t := test_mode (pchip w) in
  ∃ ret w',
    lp8755_test_mode_set r val w = Some (ret, w')
    ∧ pchip w' = set_test_mode (s32 (t + 1)) (pchip w)
    ∧ (INT_MIN ≤ t < INT_MAX → test_mode (pchip w') = t + 1)
    ∧ (t = INT_MAX → test_mode (pchip w') = INT_MIN)
    ∧ writes (added w w') = take k test_mode_writes
    ∧ (k = 8%nat → ret = 0)
    ∧ (k ≠ 8%nat → ret = - EIO)
    ∧ lp8755_test_mode_show r w'
      = Some ((0, test_mode (pchip w') mod 2 ^ 64), w').
Proof.
  intros k t. rewrite test_mode_set_unfold.
  match goal with
  | |- context [write_seq _ ?w1] =>
      destruct (write_seq_run test_mode_writes w1)
        as (ret & w' & tr & Hrun & Hc & Ht & Hw & Hret)
  end.
  cbn [faults pchip trace set_pchip] in Hc, Ht, Hw, Hret.
  change (length test_mode_writes) with 8%nat in Hw, Hret.
  fold k t in Hw, Hret, Hc.
  exists ret, w'. split; [exact Hrun|]. split; [exact Hc|].
  rewrite Hc. cbn [test_mode set_test_mode].
  split; [|split; [|split; [|split; [|split]]]].
  - unfold INT_MIN, INT_MAX, s32. intros Hrange.
    destruct (Z.le_gt_cases 0 (t + 1)) as [Hnn|Hneg].
    + rewrite Z.mod_small by lia.
      destruct (Z.ltb_spec (t + 1) (2 ^ 31)); lia.
    + replace ((t + 1) mod 2 ^ 32) with (t + 1 + 2 ^ 32)
        by (apply Z.mod_unique with (q := -1); lia).
      destruct (Z.ltb_spec (t + 1 + 2 ^ 32) (2 ^ 31)); lia.
  - intros Hmax. rewrite Hmax. reflexivity.
  - rewrite (added_app _ _ _ Ht), Hw.
    pose proof (served_le 8 (faults w)) as Hle. fold k in Hle.
    do 9 (destruct k as [|k]; [reflexivity|]). lia.
  - intros ->. exact Hret.
  - intros Hne. rewrite Hret. apply Nat.eqb_neq in Hne. rewrite Hne.
    reflexivity.
  - unfold lp8755_test_mode_show. mstep. unfold gets at 1. rewrite Hc.
    reflexivity.
Qed.

Lemma test_mode_set_sequence_witness :
  ∃ ret w',
    lp8755_test_mode_set (rail 0) 7
      (World ∅ [false; false; false; false; true] 0 [] None ∅ 0
         (Chip zero_pdata 0 0 0 [] INT_MAX) [])
    = Some (ret, w')
    ∧ writes (added (World ∅ [false; false; false; false; true] 0 [] None ∅ 0
                       (Chip zero_pdata 0 0 0 [] INT_MAX) []) w')
      = [(0xDD, 0x00); (0xDD, 0x2C); (0xDD, 0x58); (0xFF, 0x01)]
    ∧ test_mode (pchip w') = INT_MIN
    ∧ ret = - EIO.
Proof.
  destruct (test_mode_set_sequence (rail 0) 7
              (World ∅ [false; false; false; false; true] 0 [] None ∅ 0
                 (Chip zero_pdata 0 0 0 [] INT_MAX) []))
    as (ret & w' & Hrun & _ & _ & Hwrap & Hw & _ & Hfail & _).
  exists ret, w'. split; [exact Hrun|]. split; [exact Hw|].
  split; [apply Hwrap; reflexivity|].
  apply Hfail. vm_compute. discriminate.
Defined.

(** X17.  The test-mode writes go to registers that [is_enabled],
    [get_voltage_sel] and [get_mode] do not read (one of them, 0x07, is
    the register of the ramp field of rail 0): whatever the counter
    holds and whatever the outcome of the writes, a bus error included,
    what these three answer on a working bus for every rail is as
    before. *)
Theorem test_mode_set_keeps_rails (r r' : regulator_dev) (val ret : Z)
    (w w1 v v1 : world) :
  desc r' ∈ lp8755_regulators →
  lp8755_test_mode_set r val w = Some (ret, w1) →
  observes 2 v w → observes 2 v1 w1 →
  (∃ en vs a b c d,
     lp8755_is_enabled_buck r' v = Some (en, a)
     ∧ lp8755_is_enabled_buck r' v1 = Some (en, b)
     ∧ lp8755_get_voltage_buck_sel r' v = Some (vs, c)
     ∧ lp8755_get_voltage_buck_sel r' v1 = Some (vs, d))
  ∧ (∃ md a b,
       lp8755_buck_get_mode r' v = Some (md, a)
       ∧ lp8755_buck_get_mode r' v1 = Some (md, b)).
Proof.
  intros Hr' Hrun Hv Hv1.
  rewrite test_mode_set_unfold in Hrun.
  apply write_seq_frame in Hrun.
  assert (frame (touch_writes test_mode_writes) w w1) as Hf.
  { intros k m Hm Ht. rewrite (Hrun k m Hm Ht). reflexivity. }
  clear Hrun.
  destruct (rail_desc r' Hr') as (Hid & He & _ & _ & _ & Hrange).
  assert (∀ k m, 0 ≤ k ≤ 13 → k ≠ 7 → 0 ≤ m →
                 reg_bit w1 k m = reg_bit w k m) as Hlow.
  { intros k m Hk H7 Hm. apply Hf; [exact Hm|].
    unfold touch_writes, test_mode_writes, existsb, fst,
      LP8755_REG_LOCK, LP8755_REG_DEBUG, LP8755_REG_B0_CTRL,
      LP8755_REG_PH_LEV_B0, LP8755_REG_PH_LEV_B3.
    eqb_lia. }
  split.
  - destruct Hv as [Hregs Hb]. destruct Hv1 as [Hregs1 Hb1].
    apply (enable_voltage_observed r' w w1 v v1 Hr').
    + rewrite He. intros m Hm. apply Hlow; lia.
    + split; [exact Hregs|]. apply (bus_ok_split 1 1) in Hb as [Hb _].
      exact Hb.
    + split; [exact Hregs1|]. apply (bus_ok_split 1 1) in Hb1 as [Hb1 _].
      exact Hb1.
  - apply (mode_observed r' w w1 v v1 Hr'); try assumption; apply Hlow; lia.
Qed.

Lemma test_mode_set_keeps_rails_witness :
  ∃ w1 md a b,
    lp8755_test_mode_set (rail 0) 0
      (World {[ 0x08 := 0x20 ]} [true] 0 [] None ∅ 0
         (Chip zero_pdata 0 0 0 [] INT_MAX) [])
    = Some (- EIO, w1)
    ∧ lp8755_buck_get_mode (rail 0) (quiet_world {[ 0x08 := 0x20 ]})
      = Some (md, a)
    ∧ lp8755_buck_get_mode (rail 0) (set_faults [] w1) = Some (md, b).
Proof.
  assert (∃ w1,
            lp8755_test_mode_set (rail 0) 0
              (World {[ 0x08 := 0x20 ]} [true] 0 [] None ∅ 0
                 (Chip zero_pdata 0 0 0 [] INT_MAX) [])
            = Some (- EIO, w1)) as (w1 & Hrun)
    by (eexists; vm_compute; reflexivity).
  destruct (test_mode_set_keeps_rails (rail 0) (rail 0) 0 (- EIO)
              (World {[ 0x08 := 0x20 ]} [true] 0 [] None ∅ 0
                 (Chip zero_pdata 0 0 0 [] INT_MAX) [])
              w1 (quiet_world {[ 0x08 := 0x20 ]}) (set_faults [] w1))
    as [_ (md & a & b & Ha & Hb)];
    [vm_compute; set_solver|exact Hrun
    |split; [reflexivity|apply not_elem_of_nil]
    |split; [reflexivity|apply not_elem_of_nil]|].
  exists w1, md, a, b. split; [exact Hrun|]. split; [exact Ha|exact Hb].
Defined.

(** ** Arming the interrupt line *)

Lemma read_fail (reg val : Z) (w : world) (fl : list bool) :
  faults w = true :: fl →
  lp8755_read reg val w =
    Some ((- EIO, val),
          World (regs w) fl (stack w) (allocs w) (regmap_init w)
                (register_errs w) (request_irq_ret w) (pchip w)
                (trace w ++ [BusRead reg false])).
Proof.
  destruct w as [rg f st al ri re rq pc tr]. cbn [faults]. intros ->.
  bus_unfold. munfold. reflexivity.
Qed.

(** X18.  The three outcomes of [lp8755_int_config].  Without an
    interrupt line it does nothing and returns 0.  With a line and a
    working bus it reads register 0x0F once, caches the byte as the
    interrupt mask, requests the line, and returns what the request
    returned.  With a line and a failing read it returns the bus error;
    the line is not requested and the cached mask stays as it was,
    whatever the uninitialised local held. *)
Theorem int_config_outcomes (w : world) :
  (irq (pchip w) = 0 → lp8755_int_config w = Some (0, w))
  ∧ (irq (pchip w) ≠ 0 → bus_ok 1 w →
     ∃ w',
       lp8755_int_config w = Some (request_irq_ret w, w')
       ∧ pchip w' = set_irqmask (Z.land (regs w !!! 0x0F) 0xFF) (pchip w)
       ∧ regs w' = regs w
       ∧ added w w' = [BusRead 0x0F true; RequestIrq (irq (pchip w))])
  ∧ (irq (pchip w) ≠ 0 → (∃ fl, faults w = true :: fl) →
     ∃ w',
       lp8755_int_config w = Some (- EIO, w')
       ∧ pchip w' = pchip w
       ∧ regs w' = regs w
       ∧ added w w' = [BusRead 0x0F false]).
Proof.
  unfold lp8755_int_config. split; [|split].
  - intros H0. mstep. unfold uninitialized, gets at 1. mstep. unfold gets at 1.
    rewrite H0. reflexivity.
  - intros Hirq Hbus.
    mstep. unfold uninitialized, gets at 1. mstep. unfold gets at 1.
    destruct (Z.eqb_spec (irq (pchip w)) 0) as [|_]; [contradiction|].
    mstep. rewrite read_ok by exact Hbus.
    change (0 <? 0) with false. cbv iota.
    mstep. unfold modify at 1. mstep. unfold modify at 1.
    mstep. unfold gets at 1. unfold mret, M_ret.
    eexists. split; [reflexivity|]. wsimpl.
    split; [reflexivity|]. split; [reflexivity|].
    apply added_app. cbn [trace log set_pchip]. rewrite <- app_assoc. reflexivity.
  - intros Hirq (fl & Hfl).
    mstep. unfold uninitialized, gets at 1. mstep. unfold gets at 1.
    destruct (Z.eqb_spec (irq (pchip w)) 0) as [|_]; [contradiction|].
    mstep. rewrite (read_fail _ _ _ fl Hfl).
    change (- EIO <? 0) with true. cbv iota.
    eexists. split; [reflexivity|]. wsimpl.
    split; [reflexivity|]. split; [reflexivity|].
    apply added_app. reflexivity.
Qed.

Lemma int_config_outcomes_witness :
  ∃ w',
    lp8755_int_config
      (World {[ 0x0F := 0x1FC ]} [] 0 [] None ∅ 0
         (Chip zero_pdata 17 0 0 [] 0) [])
    = Some (0, w')
    ∧ irqmask (pchip w') = 0xFC.
Proof.
  destruct (int_config_outcomes
              (World {[ 0x0F := 0x1FC ]} [] 0 [] None ∅ 0
                 (Chip zero_pdata 17 0 0 [] 0) []))
    as (_ & H & _).
  destruct H as (w' & Hrun & Hc & _).
  - cbn. discriminate.
  - apply not_elem_of_nil.
  - exists w'. split; [exact Hrun|]. rewrite Hc. reflexivity.
Defined.

(** ** Teardown *)

(** One write, whatever the bus does. *)
Lemma write_step (reg val : Z) (w : world) :
  ∃ ok w1,
    lp8755_write reg val w = Some (if ok : bool then 0 else - EIO, w1)
    ∧ pchip w1 = pchip w
    ∧ trace w1 = trace w ++ [BusWrite reg (Z.land val 0xFF) ok]
    ∧ faults w1 = drop 1 (faults w)
    ∧ regs w1 = (if ok then <[reg := Z.land val 0xFF]> (regs w) else regs w)
    ∧ (bus_ok 1 w → ok = true).
Proof.
  destruct (faults w) as [|[] fl] eqn:Hfl.
  - exists true. eexists. rewrite write_ok
      by (unfold bus_ok; rewrite Hfl; apply not_elem_of_nil).
    split; [reflexivity|]. cbn [pchip trace faults regs]. rewrite Hfl.
    repeat split; reflexivity.
  - exists false. eexists. rewrite (write_fail _ _ _ fl Hfl).
    split; [reflexivity|]. cbn [pchip trace faults regs].
    do 4 (split; [reflexivity|]).
    unfold bus_ok. rewrite Hfl. intros H. exfalso. apply H. left.
  - exists true. eexists. rewrite write_ok
      by (unfold bus_ok; rewrite Hfl; cbn; intros H;
          apply list_elem_of_singleton in H; discriminate).
    split; [reflexivity|]. cbn [pchip trace faults regs]. rewrite Hfl.
    repeat split; reflexivity.
Qed.

(** A loop of writes of zero whose results are not looked at. *)
Lemma unchecked_writes (l : list Z) (w : world) :
  ∃ w' oks,
    for_each (R := Empty_set) l
      (λ icnt, _ ← (_ ← lp8755_write icnt 0x00; skip); mret None) w
    = Some (None, w')
    ∧ pchip w' = pchip w
    ∧ length oks = length l
    ∧ trace w' = trace w ++ zip_with (λ i ok, BusWrite i 0 ok) l oks
    ∧ (∀ k, k ∉ l → regs w' !!! k = regs w !!! k)
    ∧ (bus_ok (length l) w → ∀ k, k ∈ l → regs w' !!! k = 0).
Proof.
  revert w. induction l as [|i l IH]; intros w.
  - exists w, []. cbn. rewrite app_nil_r.
    repeat split; try reflexivity. intros _ k Hk. inversion Hk.
  - destruct (write_step i 0x00 w)
      as (ok & w1 & Hw & Hc1 & Ht1 & Hf1 & Hr1 & Hok).
    destruct (IH w1) as (w' & oks & Hrun & Hc & Hlen & Ht & Hout & Hin).
    exists w', (ok :: oks). cbn [for_each].
    mstep. mstep. mstep. rewrite Hw. unfold skip at 1, mret at 1, M_ret at 1.
    unfold mret at 1, M_ret at 1. rewrite Hrun.
    split; [reflexivity|]. split; [congruence|].
    split; [cbn; rewrite Hlen; reflexivity|].
    split; [rewrite Ht, Ht1, <- app_assoc; reflexivity|]. split.
    + intros k Hk. apply not_elem_of_cons in Hk as [Hne Hk].
      rewrite (Hout k Hk), Hr1.
      destruct ok; [|reflexivity].
      rewrite lookup_total_insert_ne by congruence. reflexivity.
    + intros Hbus k Hk. unfold bus_ok in Hbus. cbn [length] in Hbus.
      apply (bus_ok_split 1 (length l)) in Hbus as [Hb1 Hbl].
      rewrite (Hok Hb1) in Hr1.
      destruct (decide (k ∈ l)) as [Hkl|Hkl].
      * apply Hin; [|exact Hkl]. unfold bus_ok. rewrite Hf1. exact Hbl.
      * apply elem_of_cons in Hk as [->|Hk]; [|contradiction].
        rewrite (Hout i Hkl), Hr1, lookup_total_insert_eq. reflexivity.
Qed.

Lemma mphase_buck_nreg (conf : lp8755_mphase) :
  conf ∈ mphase_buck → nreg conf ∈ [1; 2; 3; 4; 5; 6].
Proof.
  unfold mphase_buck. intros H.
  repeat (apply elem_of_cons in H as [->|H]; [cbn [nreg]; set_solver|]).
  inversion H.
Qed.

(** The first loop of [lp8755_remove]: the first [nreg] slots of the
    chip structure, whatever they hold. *)
Lemma unregister_first_nreg_run (w : world) (conf : lp8755_mphase) :
  length (rdev (pchip w)) = 6%nat →
  0 ≤ mphase (pchip w) →
  mphase_buck !! Z.to_nat (mphase (pchip w)) = Some conf →
  unregister_first_nreg w
  = Some (tt, log_all (map RegulatorUnregister
                           (take (Z.to_nat (nreg conf)) (rdev (pchip w)))) w).
Proof.
  intros Hlen Hm Hconf. unfold unregister_first_nreg.
  mstep. unfold gets at 1. mstep.
  rewrite (array_get_ok _ _ conf) by assumption.
  pose proof (mphase_buck_nreg conf (list_elem_of_lookup_2 _ _ _ Hconf)) as Hn.
  rewrite (for_all_log (pchip w) _
             (λ i, match rdev (pchip w) !! Z.to_nat i with
                   | Some x => [RegulatorUnregister x]
                   | None => []
                   end)); [|  |reflexivity].
  - f_equal. f_equal. f_equal.
    destruct (rdev (pchip w)) as [|? [|? [|? [|? [|? [|? [|? ?]]]]]]];
      try discriminate.
    repeat (apply elem_of_cons in Hn as [->|Hn]; [reflexivity|]).
    inversion Hn.
  - intros i w0 Hi Hc. mstep. unfold gets at 1. rewrite Hc.
    assert (nreg conf ≤ 6) as Hle.
    { clear -Hn.
      repeat (apply elem_of_cons in Hn as [->|Hn]; [lia|]). inversion Hn. }
    destruct (rdev_slot (pchip w) i Hlen) as (x & Hx); [lia|].
    mstep. rewrite (array_get_ok _ _ x) by (lia || assumption).
    rewrite Hx. reflexivity.
Qed.

(** The whole of [lp8755_remove], whatever the bus does. *)
Lemma remove_run (w : world) (conf : lp8755_mphase) :
  length (rdev (pchip w)) = 6%nat →
  0 ≤ mphase (pchip w) →
  mphase_buck !! Z.to_nat (mphase (pchip w)) = Some conf →
  ∃ w' oks,
    lp8755_remove w = Some (0, w')
    ∧ pchip w' = pchip w
    ∧ length oks = 6%nat
    ∧ added w w'
      = map RegulatorUnregister
            (take (Z.to_nat (nreg conf)) (rdev (pchip w)))
        ++ zip_with (λ i ok, BusWrite i 0 ok) (seqZ 0 6) oks
        ++ (if irq (pchip w) =? 0 then [] else [FreeIrq (irq (pchip w))])
    ∧ (∀ k, ¬ 0 ≤ k ≤ 5 → regs w' !!! k = regs w !!! k)
    ∧ (bus_ok 6 w → ∀ k, 0 ≤ k ≤ 5 → regs w' !!! k = 0).
Proof.
  intros Hlen Hm Hconf. unfold lp8755_remove.
  mstep. rewrite (unregister_first_nreg_run w conf) by assumption.
  mstep. unfold output_disable, for_all, for_loop. mstep.
  match goal with
  | |- context [for_each ?l _ ?w1] =>
      destruct (unchecked_writes l w1)
        as (w2 & oks & Hrun & Hc & Hoks & Ht & Hout & Hin)
  end.
  rewrite Hrun. unfold skip at 1, mret at 1, M_ret at 1.
  mstep. unfold gets at 1. mstep. rewrite Hc. cbn [pchip log_all].
  cbn [pchip log_all trace regs faults] in Hc, Ht, Hout, Hin.
  assert (∀ k, k ∈ seqZ 0 (6 - 0) ↔ 0 ≤ k ≤ 5) as Hseq
    by (intros k; rewrite elem_of_seqZ; lia).
  destruct (Z.eqb_spec (irq (pchip w)) 0) as [H0|H0]; cbn [negb].
  - exists w2, oks. split; [reflexivity|]. split; [exact Hc|].
    split; [exact Hoks|]. split; [|split].
    + apply added_app. rewrite Ht, app_nil_r, <- app_assoc. reflexivity.
    + intros k Hk. apply Hout. rewrite Hseq. exact Hk.
    + intros Hbus k Hk. apply Hin; [exact Hbus|]. apply Hseq, Hk.
  - unfold modify at 1. eexists _, oks. split; [reflexivity|].
    cbn [pchip log trace regs]. split; [exact Hc|].
    split; [exact Hoks|]. split; [|split].
    + apply added_app. cbn [trace log]. rewrite Ht, <- !app_assoc.
      reflexivity.
    + intros k Hk. apply Hout. rewrite Hseq. exact Hk.
    + intros Hbus k Hk. apply Hin; [exact Hbus|]. apply Hseq, Hk.
Qed.

(** X19.  [lp8755_remove] for a chip with six handle slots and a
    topology code of the table, whatever the bus does: it returns 0; it
    hands the first [nreg] slots to [regulator_unregister], in slot
    order and whatever they hold; then it attempts the six writes of
    zero to the registers 0..5 in order, going on after a failed write;
    and last it frees the interrupt line if and only if the chip has
    one.  The chip structure is left as it was, handles included. *)
Theorem remove_effects (w : world) (conf : lp8755_mphase) :
  length (rdev (pchip w)) = 6%nat →
  0 ≤ mphase (pchip w) →
  mphase_buck !! Z.to_nat (mphase (pchip w)) = Some conf →
  ∃ w' oks,
    lp8755_remove w = Some (0, w')
    ∧ pchip w' = pchip w
    ∧ length oks = 6%nat
    ∧ added w w'
      = map RegulatorUnregister
            (take (Z.to_nat (nreg conf)) (rdev (pchip w)))
        ++ zip_with (λ i ok, BusWrite i 0 ok) (seqZ 0 6) oks
        ++ (if irq (pchip w) =? 0 then [] else [FreeIrq (irq (pchip w))]).
Proof.
  intros Hlen Hm Hconf.
  destruct (remove_run w conf Hlen Hm Hconf)
    as (w' & oks & Hrun & Hc & Hoks & Ht & _).
  exists w', oks. auto.
Qed.

Lemma remove_effects_witness :
  ∃ w' oks,
    lp8755_remove
      (World ∅ [false; true; true] 0 [] None ∅ 0
         (Chip zero_pdata 9 0 5
            [Some (rail 0); None; None; None; None; Some (rail 5)] 0) [])
    = Some (0, w')
    ∧ added (World ∅ [false; true; true] 0 [] None ∅ 0
               (Chip zero_pdata 9 0 5
                  [Some (rail 0); None; None; None; None; Some (rail 5)] 0)
               []) w'
      = [RegulatorUnregister (Some (rail 0)); RegulatorUnregister None]
        ++ zip_with (λ i ok, BusWrite i 0 ok) (seqZ 0 6) oks
        ++ [FreeIrq 9].
Proof.
  destruct (remove_effects
              (World ∅ [false; true; true] 0 [] None ∅ 0
                 (Chip zero_pdata 9 0 5
                    [Some (rail 0); None; None; None; None; Some (rail 5)] 0)
                 []) (Mphase 2 [BUCK0; BUCK5; 0; 0; 0; 0]))
    as (w' & oks & Hrun & _ & _ & Ht).
  - reflexivity.
  - cbn. lia.
  - reflexivity.
  - exists w', oks. split; [exact Hrun|exact Ht].
Defined.

(** X20.  After a teardown during which the bus worked, every rail
    reads as disabled with selector 0, and the operating mode of every
    rail reads as it did before the teardown. *)
Theorem remove_disables_all_rails (r : regulator_dev) (ret : Z)
    (w w' : world) :
  desc r ∈ lp8755_regulators →
  length (rdev (pchip w)) = 6%nat →
  lp8755_remove w = Some (ret, w') →
  bus_ok 6 w → bus_ok 2 w' →
  (∃ a, lp8755_is_enabled_buck r w' = Some (0, a))
  ∧ (∃ a, lp8755_get_voltage_buck_sel r w' = Some (0, a))
  ∧ (∃ md a b,
       lp8755_buck_get_mode r w = Some (md, a)
       ∧ lp8755_buck_get_mode r w' = Some (md, b)).
Proof.
  intros Hr Hlen Hrun Hbus Hbus'.
  assert (∃ conf, 0 ≤ mphase (pchip w)
                  ∧ mphase_buck !! Z.to_nat (mphase (pchip w)) = Some conf)
    as (conf & Hm & Hconf).
  { revert Hrun. unfold lp8755_remove, unregister_first_nreg.
    mstep. mstep. unfold gets at 1. mstep. unfold array_get.
    destruct (Z.leb_spec 0 (mphase (pchip w))); [|discriminate].
    destruct (mphase_buck !! Z.to_nat (mphase (pchip w))) as [conf|];
      [|rewrite Tauto.if_same; discriminate].
    intros _. exists conf. split; [assumption|reflexivity]. }
  destruct (remove_run w conf Hlen Hm Hconf)
    as (w2 & oks & Hrun2 & _ & _ & _ & Hout & Hin).
  rewrite Hrun in Hrun2. injection Hrun2 as -> <-.
  specialize (Hin Hbus).
  destruct (rail_desc r Hr) as (Hid & He & _ & _ & _ & Hrange).
  pose proof (bus_ok_split 1 1 _ Hbus') as [Hb1 _].
  destruct (is_enabled_ok r w' Hr Hb1) as (a & Ha & _).
  destruct (get_voltage_ok r w' Hr Hb1) as (b & Hb & _).
  rewrite He, (Hin _ Hrange) in Ha, Hb.
  split; [exists a; exact Ha|]. split; [exists b; exact Hb|].
  apply mode_same; try assumption.
  - unfold reg_bit. rewrite Hout by lia. reflexivity.
  - unfold reg_bit. rewrite Hout by lia. reflexivity.
  - apply (bus_ok_split 2 4) in Hbus as [Hb2 _]. exact Hb2.
Qed.

Lemma remove_disables_all_rails_witness :
  ∃ w' a,
    lp8755_remove
      (World {[ 0x02 := 0xFF ]} [] 0 [] None ∅ 0
         (Chip zero_pdata 0 0 6 [Some (rail 0); None; None; None; None; None]
            0) [])
    = Some (0, w')
    ∧ lp8755_is_enabled_buck (rail 5) w' = Some (0, a).
Proof.
  assert (∃ w',
            lp8755_remove
              (World {[ 0x02 := 0xFF ]} [] 0 [] None ∅ 0
                 (Chip zero_pdata 0 0 6
                    [Some (rail 0); None; None; None; None; None] 0) [])
            = Some (0, w')
            ∧ bus_ok 2 w') as (w' & Hrun & Hb').
  { eexists. split; [vm_compute; reflexivity|apply not_elem_of_nil]. }
  destruct (remove_disables_all_rails (rail 5) 0
              (World {[ 0x02 := 0xFF ]} [] 0 [] None ∅ 0
                 (Chip zero_pdata 0 0 6
                    [Some (rail 0); None; None; None; None; None] 0) [])
              w') as [(a & Ha) _];
    [vm_compute; set_solver|reflexivity|exact Hrun|apply not_elem_of_nil
    |exact Hb'|].
  exists w', a. split; [exact Hrun|exact Ha].
Defined.

(** ** Bring-up of the rails, for every topology of the table *)

Lemma mphase_buck_cases (conf : lp8755_mphase) (P : lp8755_mphase → Prop) :
  conf ∈ mphase_buck →
  Forall P mphase_buck → P conf.
Proof. intros Hin HP. rewrite Forall_forall in HP. apply HP, Hin. Qed.

(** The loop over the indices of a table row is a loop over its rails. *)
Lemma init_loop_unfold (conf : lp8755_mphase) (w : world) :
  conf ∈ mphase_buck →
  for_loop 0 (nreg conf)
    (λ icnt, buck_num ← array_get (buck_num conf) icnt;
             regulator_init_buck buck_num) w
  = for_each (rails_of conf) regulator_init_buck w.
Proof.
  intros Hin. revert w. pattern conf. apply (mphase_buck_cases conf); [exact Hin|].
  unfold mphase_buck. repeat constructor; intros w; reflexivity.
Qed.

Lemma same_wiring_refl (w : world) : same_wiring w w.
Proof. repeat split. Qed.

Lemma same_wiring_trans (w w1 w2 : world) :
  same_wiring w w1 → same_wiring w1 w2 → same_wiring w w2.
Proof. intros (? & ? & ?) (? & ? & ?). repeat split; congruence. Qed.

Lemma same_wiring_chip (w w1 : world) :
  pchip w1 = pchip w → same_wiring w w1.
Proof. intros H. unfold same_wiring. rewrite H. repeat split. Qed.

Lemma array_get_inv {A : Type} (a : list A) (i : Z) (x : A) (w w1 : world) :
  array_get a i w = Some (x, w1) → w1 = w.
Proof.
  unfold array_get. destruct (_ && _); [|discriminate].
  destruct (a !! Z.to_nat i); [|discriminate]. intros [= _ <-]. reflexivity.
Qed.

Lemma array_set_inv {A : Type} (a a' : list A) (i : Z) (x : A)
    (w w1 : world) :
  array_set a i x w = Some (a', w1) → w1 = w.
Proof.
  unfold array_set. destruct (_ && _); [|discriminate].
  intros [= _ <-]. reflexivity.
Qed.

Lemma set_default_data_wiring (b : Z) (w w1 : world) :
  set_default_data b w = Some (tt, w1) → same_wiring w w1.
Proof.
  unfold set_default_data. intros H.
  apply bind_inv in H as (dflt & wa & Ha & H). apply array_get_inv in Ha as ->.
  apply bind_inv in H as (data & wb & Hb & H). injection Hb as <- <-.
  apply bind_inv in H as (data' & wc & Hc & H). apply array_set_inv in Hc as ->.
  injection H as <-. repeat split.
Qed.

Lemma store_rdev_wiring (b : Z) (r : option regulator_dev) (w w1 : world) :
  store_rdev b r w = Some (tt, w1) → same_wiring w w1.
Proof.
  unfold store_rdev. intros H.
  apply bind_inv in H as (l & wa & Ha & H). injection Ha as <- <-.
  apply bind_inv in H as (l' & wb & Hb & H). apply array_set_inv in Hb as ->.
  injection H as <-. repeat split.
Qed.

Lemma set_ramp_wiring (r : regulator_dev) (ramp ret : Z) (w w1 : world) :
  lp8755_buck_set_ramp r ramp w = Some (ret, w1) → same_wiring w w1.
Proof.
  intros H. destruct (set_ramp_total r ramp w) as (ret' & w' & Hrun & _ & Hc).
  rewrite H in Hrun. injection Hrun as <- <-. apply same_wiring_chip, Hc.
Qed.

(** The body of the bring-up loop leaves the wiring of the chip as it
    was. *)
Lemma regulator_init_buck_wiring (b : Z) (res : option Z) (w w1 : world) :
  regulator_init_buck b w = Some (res, w1) → same_wiring w w1.
Proof.
  unfold regulator_init_buck. intros H.
  apply bind_inv in H as (data & wa & Ha & H). injection Ha as <- <-.
  apply bind_inv in H as (init & wb & Hb & H). apply array_get_inv in Hb as ->.
  apply bind_inv in H as ([] & wc & Hc & H).
  assert (same_wiring w wc) as H1.
  { destruct init; [injection Hc as <-; apply same_wiring_refl|].
    apply set_default_data_wiring in Hc. exact Hc. }
  clear Hc. apply (same_wiring_trans _ _ _ H1). clear H1.
  apply bind_inv in H as (d & wd & Hd & H). apply array_get_inv in Hd as ->.
  apply bind_inv in H as (data' & we & He & H). injection He as <- <-.
  apply bind_inv in H as (init' & wf & Hf & H). apply array_get_inv in Hf as ->.
  apply bind_inv in H as (p & wg & Hg & H).
  assert (same_wiring wc wg) as H2.
  { unfold regulator_register in Hg.
    apply bind_inv in Hg as (errs & wh & Hh & Hg). injection Hh as <- <-.
    destruct (register_errs _ !! id d);
      apply bind_inv in Hg as ([] & wi & Hi & Hg);
      injection Hi as <-; injection Hg as <- <-; repeat split. }
  apply (same_wiring_trans _ _ _ H2). clear H2 Hg.
  destruct p as [err|r]; cycle 1.
  - apply bind_inv in H as ([] & wh & Hh & H). apply store_rdev_wiring in Hh.
    apply (same_wiring_trans _ _ _ Hh). clear Hh.
    apply bind_inv in H as ([] & wi & Hi & H). injection Hi as <-.
    apply bind_inv in H as (ramps & wj & Hj & H). injection Hj as <- <-.
    apply bind_inv in H as (ramp & wk & Hk & H). apply array_get_inv in Hk as ->.
    apply bind_inv in H as (ret & wl & Hl & H). apply set_ramp_wiring in Hl.
    injection H as <- <-. exact Hl.
  - apply bind_inv in H as ([] & wh & Hh & H). apply store_rdev_wiring in Hh.
    injection H as <- <-. exact Hh.
Qed.

Lemma handle_id (r : regulator_dev) (b : Z) :
  desc r = lp8755_buck_desc b → rdev_get_id r = b.
Proof. intros H. unfold rdev_get_id. rewrite H. reflexivity. Qed.

(** The bring-up loop over the rails [l]: the rails are registered in
    order until the framework refuses one. *)
Lemma init_loop_run (l : list Z) (w : world) :
  (∀ b, b ∈ l → 0 ≤ b < 6) →
  wf_chip (pchip w) →
  ∃ w' hs,
    for_each l regulator_init_buck w
    = Some (snd <$> refused (register_errs w) l, w')
    ∧ wf_chip (pchip w')
    ∧ same_wiring w w'
    ∧ map rdev_get_id hs = accepted (register_errs w) l
    ∧ rdev (pchip w')
      = match refused (register_errs w) l with
        | Some (b, _) =>
            <[Z.to_nat b := None]> (foldl store_handle (rdev (pchip w)) hs)
        | None => foldl store_handle (rdev (pchip w)) hs
        end
    ∧ steps w w'
        (concat (map (λ r, [RegulatorRegister (rdev_get_id r) true;
                            DebugfsCreateFile r]) hs)
         ++ match refused (register_errs w) l with
            | Some (b, _) => [RegulatorRegister b false]
            | None => []
            end).
Proof.
  revert w. induction l as [|b l IH]; intros w Hl Hwf.
  - exists w, []. cbn. split; [reflexivity|]. split; [exact Hwf|].
    split; [apply same_wiring_refl|]. split; [reflexivity|].
    split; [reflexivity|apply steps_refl].
  - assert (0 ≤ b < 6) as Hb by (apply Hl; left).
    cbn [for_each accepted refused]. mstep.
    destruct (register_errs w !! b) as [err|] eqn:He.
    + destruct (regulator_init_buck_err b err w Hb Hwf He)
        as (w1 & Hrun & Hrd & Hwf1 & Hs).
      rewrite Hrun. exists w1, []. split; [reflexivity|].
      split; [exact Hwf1|].
      split; [eapply regulator_init_buck_wiring, Hrun|].
      split; [reflexivity|]. split; [exact Hrd|exact Hs].
    + destruct (regulator_init_buck_ok b w Hb Hwf He)
        as (w1 & r & Hrun & Hd & Hrd & Hwf1 & Hs).
      rewrite Hrun.
      destruct (IH w1) as (w' & hs & Hrun' & Hwf' & Hsw & Hids & Hrd' & Hs');
        [intros b' Hb'; apply Hl; right; exact Hb'|exact Hwf1|].
      rewrite (steps_errs _ _ _ Hs) in Hrun', Hids, Hrd', Hs'.
      pose proof (handle_id r b Hd) as Hid.
      exists w', (r :: hs). split; [exact Hrun'|]. split; [exact Hwf'|].
      split; [eapply same_wiring_trans;
              [eapply regulator_init_buck_wiring, Hrun|exact Hsw]|].
      split; [cbn [map]; rewrite Hid, Hids; reflexivity|].
      split.
      * rewrite Hrd', Hrd. cbn [foldl].
        replace (store_handle (rdev (pchip w)) r)
          with (<[Z.to_nat b := Some r]> (rdev (pchip w)))
          by (unfold store_handle; rewrite Hid; reflexivity).
        reflexivity.
      * cbn [map concat]. rewrite Hid.
        change ([RegulatorRegister b true; DebugfsCreateFile r] ++ ?x ++ ?y)
          with (([RegulatorRegister b true; DebugfsCreateFile r] ++ x) ++ y).
        rewrite <- app_assoc.
        exact (steps_trans _ _ _ _ _ Hs Hs').
Qed.

Lemma rails_in_range (conf : lp8755_mphase) :
  conf ∈ mphase_buck → ∀ b, b ∈ rails_of conf → 0 ≤ b < 6.
Proof.
  intros Hin. pattern conf. apply (mphase_buck_cases conf); [exact Hin|].
  unfold mphase_buck.
  repeat apply Forall_cons_2; try apply Forall_nil_2; intros b Hb;
    unfold rails_of in Hb; cbn [nreg buck_num] in Hb;
    repeat (apply elem_of_cons in Hb as [->|Hb]; [vm_compute; split; congruence|]);
    inversion Hb.
Qed.

(** [lp8755_regulator_init] for every topology of the table and every
    answer of the framework. *)
Lemma regulator_init_run (w : world) (conf : lp8755_mphase) :
  wf_chip (pchip w) →
  0 ≤ mphase (pchip w) →
  mphase_buck !! Z.to_nat (mphase (pchip w)) = Some conf →
  ∃ w' hs,
    lp8755_regulator_init w
    = Some (match refused (register_errs w) (rails_of conf) with
            | Some (_, err) => err
            | None => 0
            end, w')
    ∧ wf_chip (pchip w')
    ∧ same_wiring w w'
    ∧ map rdev_get_id hs = accepted (register_errs w) (rails_of conf)
    ∧ rdev (pchip w')
      = match refused (register_errs w) (rails_of conf) with
        | Some (b, _) =>
            <[Z.to_nat b := None]> (foldl store_handle (rdev (pchip w)) hs)
        | None => foldl store_handle (rdev (pchip w)) hs
        end
    ∧ steps w w'
        (concat (map (λ r, [RegulatorRegister (rdev_get_id r) true;
                            DebugfsCreateFile r]) hs)
         ++ match refused (register_errs w) (rails_of conf) with
            | Some (b, _) =>
                RegulatorRegister b false
                :: map RegulatorUnregister (rdev (pchip w'))
            | None => []
            end).
Proof.
  intros Hwf Hm Hconf.
  pose proof (list_elem_of_lookup_2 _ _ _ Hconf) as Hin.
  unfold lp8755_regulator_init.
  mstep. unfold gets at 1. mstep.
  rewrite (array_get_ok _ _ conf) by assumption.
  mstep. rewrite (init_loop_unfold conf w Hin).
  destruct (init_loop_run (rails_of conf) w (rails_in_range conf Hin) Hwf)
    as (w1 & hs & Hrun & Hwf1 & Hsw & Hids & Hrd & Hs).
  rewrite Hrun.
  destruct (refused (register_errs w) (rails_of conf)) as [[b err]|];
    cbn [fmap option_fmap option_map snd].
  - mstep. rewrite unregister_all_run by apply Hwf1.
    unfold mret, M_ret. eexists _, hs. split; [reflexivity|].
    cbn [pchip log_all]. split; [exact Hwf1|]. split; [exact Hsw|].
    split; [exact Hids|]. split; [exact Hrd|].
    pose proof (steps_trans _ _ _ _ _ Hs (steps_log_all
                  (map RegulatorUnregister (rdev (pchip w1))) w1)) as H.
    rewrite <- app_assoc in H. cbn [app] in H.
    replace (framework_effects (map RegulatorUnregister (rdev (pchip w1))))
      with (map RegulatorUnregister (rdev (pchip w1))) in H; [exact H|].
    clear. induction (rdev (pchip w1)) as [|x l IH]; [reflexivity|].
    cbn [map]. unfold framework_effects in *. rewrite filter_cons.
    cbn. rewrite <- IH. reflexivity.
  - unfold mret, M_ret. exists w1, hs. split; [reflexivity|].
    split; [exact Hwf1|]. split; [exact Hsw|].
    split; [exact Hids|]. split; [exact Hrd|exact Hs].
Qed.

(** *** Slots and handles *)

Lemma omap_all_none {A : Type} (l : list (option A)) :
  (∀ n, (n < length l)%nat → l !! n = Some None) → omap (λ r, r) l = [].
Proof.
  induction l as [|x l IH]; intros H; [reflexivity|].
  pose proof (H 0%nat ltac:(cbn; lia)) as H0. injection H0 as ->.
  cbn. apply IH. intros n Hn. apply (H (S n)). cbn. lia.
Qed.

Lemma omap_take_none {A : Type} (d : list (option A)) (lo hi : nat) :
  (lo ≤ hi)%nat →
  (∀ n, (lo ≤ n)%nat → (n < hi)%nat → (n < length d)%nat →
        d !! n = Some None) →
  omap (λ r, r) (take hi d) = omap (λ r, r) (take lo d).
Proof.
  intros Hle H. replace (take hi d) with (take (lo + (hi - lo)) d)
    by (f_equal; lia).
  rewrite <- take_take_drop, omap_app.
  rewrite (omap_all_none (take (hi - lo) (drop lo d))), app_nil_r;
    [reflexivity|].
  intros n Hn. rewrite length_take, length_drop in Hn.
  rewrite lookup_take_lt, lookup_drop by lia. apply H; lia.
Qed.

(** Handles stored one after the other in ascending slots, above the
    slots in use, are the live handles in slot order. *)
Lemma live_after_inserts (hs : list regulator_dev) :
  ∀ (d : list (option regulator_dev)) (lo : nat),
    ascending (map rdev_get_id hs) →
    Forall (λ r, Z.of_nat lo ≤ rdev_get_id r < Z.of_nat (length d)) hs →
    (∀ n, (lo ≤ n)%nat → (n < length d)%nat → d !! n = Some None) →
    omap (λ r, r) (foldl store_handle d hs)
    = omap (λ r, r) (take lo d) ++ hs.
Proof.
  induction hs as [|r hs IH]; intros d lo Hs Hr Hnone.
  - cbn [foldl]. rewrite app_nil_r.
    rewrite <- (firstn_all d) at 1.
    destruct (Nat.le_gt_cases lo (length d)) as [Hle|Hgt].
    + apply omap_take_none; [exact Hle|]. intros n ? ? ?. apply Hnone; lia.
    + rewrite (take_ge d lo) by lia. rewrite firstn_all. reflexivity.
  - cbn [foldl map ascending] in *. destruct Hs as [Hlt Hs].
    apply Forall_cons in Hr as [Hr0 Hr].
    set (b := Z.to_nat (rdev_get_id r)).
    assert (lo ≤ b < length d)%nat as Hb by (unfold b; lia).
    rewrite (IH (store_handle d r) (S b)).
    + unfold store_handle. fold b.
      rewrite (take_S_r _ _ (Some r))
        by (apply list_lookup_insert_eq; lia).
      rewrite take_insert_ge by lia. rewrite omap_app. cbn [omap].
      rewrite (omap_take_none d lo b) by (try lia; intros; apply Hnone; lia).
      rewrite <- app_assoc. reflexivity.
    + exact Hs.
    + unfold store_handle. rewrite length_insert.
      rewrite Forall_fmap in Hlt. rewrite Forall_forall in *.
      intros r' Hr'. specialize (Hr r' Hr'). specialize (Hlt r' Hr').
      cbn in Hlt. unfold b. lia.
    + unfold store_handle. fold b. intros n Hn Hlen.
      rewrite length_insert in Hlen.
      rewrite list_lookup_insert_ne by lia. apply Hnone; lia.
Qed.

Lemma lookup_after_inserts (hs : list regulator_dev)
    (d : list (option regulator_dev)) (n : nat) :
  Forall (λ r, Z.to_nat (rdev_get_id r) ≠ n) hs →
  foldl store_handle d hs !! n = d !! n.
Proof.
  revert d. induction hs as [|r hs IH]; intros d H; [reflexivity|].
  apply Forall_cons in H as [H0 H]. cbn [foldl]. rewrite IH by exact H.
  unfold store_handle. apply list_lookup_insert_ne. exact H0.
Qed.

Lemma length_after_inserts (hs : list regulator_dev)
    (d : list (option regulator_dev)) :
  length (foldl store_handle d hs) = length d.
Proof.
  revert d. induction hs as [|r hs IH]; intros d; [reflexivity|].
  cbn [foldl]. rewrite IH. unfold store_handle. apply length_insert.
Qed.

(** *** Which rails are accepted *)

Lemma accepted_subset (errs : gmap Z Z) (l : list Z) (x : Z) :
  x ∈ accepted errs l → x ∈ l.
Proof.
  induction l as [|b l IH]; cbn; [auto|].
  destruct (errs !! b); [intros H; inversion H|].
  intros H. apply elem_of_cons in H as [->|H]; [left|right; auto].
Qed.

Lemma accepted_sorted (errs : gmap Z Z) (l : list Z) :
  ascending l → ascending (accepted errs l).
Proof.
  induction l as [|b l IH]; intros Hs; cbn; [constructor|].
  destruct Hs as [Hlt Hs].
  destruct (errs !! b); cbn; [constructor|]. split; [|auto].
  rewrite Forall_forall in *. intros x Hx.
  apply Hlt, (accepted_subset errs), Hx.
Qed.

Lemma accepted_below_refused (errs : gmap Z Z) (l : list Z) (b err : Z) :
  ascending l →
  refused errs l = Some (b, err) →
  b ∈ l ∧ Forall (λ x, x < b) (accepted errs l).
Proof.
  induction l as [|a l IH]; intros Hs; cbn; [discriminate|].
  destruct Hs as [Hlt Hs].
  destruct (errs !! a) as [e|].
  - intros [= <- <-]. split; [left|constructor].
  - intros H. destruct (IH Hs H) as [Hin Hall]. split; [right; exact Hin|].
    constructor; [|exact Hall].
    rewrite Forall_forall in Hlt. apply Hlt, Hin.
Qed.

Lemma accepted_all (errs : gmap Z Z) (l : list Z) :
  refused errs l = None → accepted errs l = l.
Proof.
  induction l as [|a l IH]; cbn; [reflexivity|].
  destruct (errs !! a); [discriminate|]. intros H. rewrite IH; auto.
Qed.

Lemma rails_sorted (conf : lp8755_mphase) :
  conf ∈ mphase_buck → ascending (rails_of conf).
Proof.
  intros Hin. pattern conf. apply (mphase_buck_cases conf); [exact Hin|].
  unfold mphase_buck.
  repeat apply Forall_cons_2; try apply Forall_nil_2;
    vm_compute; repeat split; repeat constructor.
Qed.

(** *** Reading the trace of a bring-up *)

Lemma registered_app (t1 t2 : list effect) :
  registered (t1 ++ t2) = registered t1 ++ registered t2.
Proof. apply omap_app. Qed.

Lemma register_calls_app (t1 t2 : list effect) :
  register_calls (t1 ++ t2) = register_calls t1 ++ register_calls t2.
Proof. apply omap_app. Qed.

Lemma unregistered_app (t1 t2 : list effect) :
  unregistered (t1 ++ t2) = unregistered t1 ++ unregistered t2.
Proof. apply omap_app. Qed.

Lemma handles_trace (hs : list regulator_dev) :
  let t := concat (map (λ r, [RegulatorRegister (rdev_get_id r) true;
                              DebugfsCreateFile r]) hs) in
  registered t = map rdev_get_id hs
  ∧ register_calls t = map rdev_get_id hs
  ∧ unregistered t = [].
Proof.
  induction hs as [|r hs (IH1 & IH2 & IH3)]; [repeat split|].
  cbn zeta in *. cbn [map concat].
  rewrite registered_app, register_calls_app, unregistered_app, IH1, IH2, IH3.
  repeat split.
Qed.

Lemma unregister_trace (d : list (option regulator_dev)) :
  let t := map RegulatorUnregister d in
  registered t = []
  ∧ register_calls t = []
  ∧ unregistered t = map rdev_get_id (omap (λ r, r) d).
Proof.
  induction d as [|x d (IH1 & IH2 & IH3)]; [repeat split|].
  cbn zeta in *. cbn [map].
  change (RegulatorUnregister x :: ?t) with ([RegulatorUnregister x] ++ t).
  rewrite registered_app, register_calls_app, unregistered_app, IH1, IH2, IH3.
  repeat split. destruct x; reflexivity.
Qed.

(** The handles stored after a bring-up that started from empty slots
    are those of the accepted rails, in slot order. *)
Lemma slots_after_init (conf : lp8755_mphase) (errs : gmap Z Z)
    (hs : list regulator_dev) :
  conf ∈ mphase_buck →
  map rdev_get_id hs = accepted errs (rails_of conf) →
  omap (λ r, r)
       match refused errs (rails_of conf) with
       | Some (b, _) =>
           <[Z.to_nat b := None]> (foldl store_handle (replicate 6 None) hs)
       | None => foldl store_handle (replicate 6 None) hs
       end
  = hs.
Proof.
  intros Hin Hids.
  pose proof (rails_sorted conf Hin) as Hs.
  pose proof (rails_in_range conf Hin) as Hr.
  assert (omap (λ r, r) (foldl store_handle (replicate 6 None) hs) = hs)
    as Hlive.
  { rewrite (live_after_inserts hs _ 0); [reflexivity| | |].
    - rewrite Hids. apply accepted_sorted, Hs.
    - rewrite Forall_forall. intros r Hin'. rewrite length_replicate.
      assert (rdev_get_id r ∈ accepted errs (rails_of conf)) as Ha
        by (rewrite <- Hids; apply list_elem_of_fmap_2, Hin').
      apply accepted_subset, Hr in Ha. lia.
    - intros n _ Hn. rewrite length_replicate in Hn.
      apply lookup_replicate_2. exact Hn. }
  destruct (refused errs (rails_of conf)) as [[b err]|] eqn:Href;
    [|exact Hlive].
  destruct (accepted_below_refused errs _ b err Hs Href) as [Hb Hlt].
  rewrite list_insert_id; [exact Hlive|].
  rewrite lookup_after_inserts.
  - apply lookup_replicate_2. apply Hr in Hb. lia.
  - rewrite <- Hids, Forall_fmap in Hlt. rewrite Forall_forall in *.
    intros r Hin'. specialize (Hlt r Hin'). cbn in Hlt.
    apply Hr in Hb.
    assert (rdev_get_id r ∈ accepted errs (rails_of conf)) as Ha
      by (rewrite <- Hids; apply list_elem_of_fmap_2, Hin').
    apply accepted_subset, Hr in Ha. lia.
Qed.

(** [lp8755_regulator_init] on empty handle slots, read through the
    framework effects. *)
Lemma regulator_init_summary (w : world) (conf : lp8755_mphase) :
  wf_chip (pchip w) →
  rdev (pchip w) = replicate 6 None →
  0 ≤ mphase (pchip w) →
  mphase_buck !! Z.to_nat (mphase (pchip w)) = Some conf →
  let rails := rails_of conf in
  let errs := register_errs w in
  ∃ w' evs hs,
    lp8755_regulator_init w
    = Some (match refused errs rails with
            | Some (_, err) => err
            | None => 0
            end, w')
    ∧ steps w w' evs
    ∧ wf_chip (pchip w')
    ∧ same_wiring w w'
    ∧ registered evs = accepted errs rails
    ∧ register_calls evs
      = accepted errs rails
        ++ match refused errs rails with Some (b, _) => [b] | None => [] end
    ∧ unregistered evs
      = match refused errs rails with
        | Some _ => accepted errs rails
        | None => []
        end
    ∧ map rdev_get_id hs = accepted errs rails
    ∧ live_handles (pchip w') = hs
    ∧ (refused errs rails = None →
       rdev (pchip w') = foldl store_handle (replicate 6 None) hs).
Proof.
  intros Hwf Hrd Hm Hconf rails errs.
  pose proof (list_elem_of_lookup_2 _ _ _ Hconf) as Hin.
  destruct (regulator_init_run w conf Hwf Hm Hconf)
    as (w' & hs & Hrun & Hwf' & Hsw & Hids & Hrd' & Hs).
  fold rails errs in Hrun, Hids, Hrd', Hs.
  eexists w', _, hs. split; [exact Hrun|]. split; [exact Hs|].
  split; [exact Hwf'|]. split; [exact Hsw|].
  rewrite registered_app, register_calls_app, unregistered_app.
  destruct (handles_trace hs) as (-> & -> & ->).
  assert (omap (λ r, r) (rdev (pchip w')) = hs) as Hlive.
  { rewrite Hrd', Hrd. apply (slots_after_init conf errs hs Hin Hids). }
  unfold live_handles. rewrite Hlive, Hids.
  destruct (refused errs rails) as [[b err]|] eqn:Href.
  - change (RegulatorRegister b false :: ?t)
      with ([RegulatorRegister b false] ++ t).
    rewrite registered_app, register_calls_app, unregistered_app.
    destruct (unregister_trace (rdev (pchip w'))) as (-> & -> & ->).
    rewrite Hlive, Hids. cbn [registered register_calls unregistered omap app].
    rewrite !app_nil_r. repeat split. discriminate.
  - cbn. rewrite !app_nil_r. repeat split.
    intros _. rewrite Hrd', Hrd. reflexivity.
Qed.

(** X21.  [lp8755_regulator_init] for every topology of the table and
    every answer of the framework, on a chip structure with empty handle
    slots.  The rails of the topology are registered in the order of the
    table row until the framework refuses one.  If none is refused the
    result is 0 and nothing is unregistered.  If one is refused, no
    further registration is attempted, the result is the error of the
    refused registration, and exactly the rails registered before are
    unregistered, in the order of their registration.  In both cases the
    handles left in the slots are those of the registered rails. *)
Theorem regulator_init_outcome (w : world) (conf : lp8755_mphase) :
  wf_chip (pchip w) →
  rdev (pchip w) = replicate 6 None →
  0 ≤ mphase (pchip w) →
  mphase_buck !! Z.to_nat (mphase (pchip w)) = Some conf →
  let rails := rails_of conf in
  let errs := register_errs w in
  ∃ w',
    lp8755_regulator_init w
    = Some (match refused errs rails with
            | Some (_, err) => err
            | None => 0
            end, w')
    ∧ registered (added w w') = accepted errs rails
    ∧ register_calls (added w w')
      = accepted errs rails
        ++ match refused errs rails with Some (b, _) => [b] | None => [] end
    ∧ unregistered (added w w')
      = match refused errs rails with
        | Some _ => accepted errs rails
        | None => []
        end
    ∧ map rdev_get_id (live_handles (pchip w')) = accepted errs rails
    ∧ (refused errs rails = None → accepted errs rails = rails).
Proof.
  intros Hwf Hrd Hm Hconf rails errs.
  destruct (regulator_init_summary w conf Hwf Hrd Hm Hconf)
    as (w' & evs & hs & Hrun & Hs & _ & _ & Hreg & Hcalls & Hun & Hids
        & Hlive & _).
  fold rails errs in Hrun, Hreg, Hcalls, Hun, Hids.
  exists w'. split; [exact Hrun|].
  apply steps_added in Hs.
  rewrite <- registered_framework, <- register_calls_framework,
    <- unregistered_framework, Hs, Hlive.
  split; [exact Hreg|]. split; [exact Hcalls|]. split; [exact Hun|].
  split; [exact Hids|]. apply accepted_all.
Qed.

Lemma regulator_init_outcome_witness :
  ∃ w',
    lp8755_regulator_init
      (World ∅ [] 0 [] None {[ 5 := - EINVAL ]} 0 zero_chip [])
    = Some (- EINVAL, w')
    ∧ registered
        (added (World ∅ [] 0 [] None {[ 5 := - EINVAL ]} 0 zero_chip []) w')
      = [0; 3]
    ∧ unregistered
        (added (World ∅ [] 0 [] None {[ 5 := - EINVAL ]} 0 zero_chip []) w')
      = [0; 3].
Proof.
  destruct (regulator_init_outcome
              (World ∅ [] 0 [] None {[ 5 := - EINVAL ]} 0 zero_chip [])
              (Mphase 3 [BUCK0; BUCK3; BUCK5; 0; 0; 0]))
    as (w' & Hrun & Hreg & _ & Hun & _).
  - repeat split.
  - reflexivity.
  - cbn. lia.
  - reflexivity.
  - exists w'. split; [exact Hrun|]. split; [exact Hreg|exact Hun].
Defined.

(** ** Reading the topology from the chip *)

Lemma init_data_loop_unfold (conf : lp8755_mphase) (w : world) :
  conf ∈ mphase_buck →
  for_all 0 (nreg conf)
    (λ icnt, buck_num ← array_get (buck_num conf) icnt;
             set_default_data buck_num) w
  = (for_each (R := Empty_set) (rails_of conf)
       (λ b, _ ← set_default_data b; mret None) ≫= λ _, skip) w.
Proof.
  intros Hin. revert w. pattern conf. apply (mphase_buck_cases conf); [exact Hin|].
  unfold mphase_buck. repeat constructor; intros w; reflexivity.
Qed.

Lemma set_defaults_run (l : list Z) (w : world) :
  (∀ b, b ∈ l → 0 ≤ b < 6) →
  length (buck_data (pdata (pchip w))) = 6%nat →
  for_each (R := Empty_set) l (λ b, _ ← set_default_data b; mret None) w
  = Some (None,
          set_pchip (set_buck_data
                       (foldl store_default (buck_data (pdata (pchip w))) l))
                    w).
Proof.
  revert w. induction l as [|b l IH]; intros w Hl Hlen.
  - cbn. destruct w as [? ? ? ? ? ? ? [[] ? ? ? ? ?] ?]. reflexivity.
  - cbn [for_each foldl]. mstep. mstep.
    rewrite set_default_data_ok by (try apply Hl; try left; assumption).
    unfold mret at 1, M_ret at 1.
    rewrite IH.
    + reflexivity.
    + intros b' Hb'. apply Hl. right. exact Hb'.
    + cbn. rewrite length_insert. exact Hlen.
Qed.

Lemma length_store_defaults (l : list Z)
    (d : list (option regulator_init_data)) :
  length (foldl store_default d l) = length d.
Proof.
  revert d. induction l as [|b l IH]; intros d; [reflexivity|].
  cbn [foldl]. rewrite IH. unfold store_default. apply length_insert.
Qed.

(** [lp8755_init_data] for every topology code of the table. *)
Lemma init_data_run (w : world) (conf : lp8755_mphase) :
  bus_ok 1 w →
  mphase_buck !! Z.to_nat (Z.land (regs w !!! 0x3D) 0x0F) = Some conf →
  length (buck_data (pdata (pchip w))) = 6%nat →
  lp8755_init_data w
  = Some (0,
          World (regs w) (drop 1 (faults w)) (stack w) (allocs w)
            (regmap_init w) (register_errs w) (request_irq_ret w)
            (set_buck_data
               (foldl store_default (buck_data (pdata (pchip w)))
                      (rails_of conf))
               (set_mphase (Z.land (regs w !!! 0x3D) 0x0F) (pchip w)))
            (trace w ++ [BusRead 0x3D true])).
Proof.
  intros Hbus Hconf Hlen.
  pose proof (list_elem_of_lookup_2 _ _ _ Hconf) as Hin.
  unfold lp8755_init_data.
  mstep. unfold uninitialized, gets at 1.
  mstep. rewrite read_ok by exact Hbus.
  change (0 <? 0) with false. cbv iota.
  mstep. unfold modify at 1. mstep. unfold gets at 1. wsimpl.
  rewrite land_byte_nibble.
  mstep. rewrite (array_get_ok _ _ conf)
    by (try apply Z.land_nonneg; try assumption; right; lia).
  mstep. rewrite (init_data_loop_unfold conf _ Hin).
  mstep. rewrite set_defaults_run;
    [|apply rails_in_range, Hin|exact Hlen].
  reflexivity.
Qed.

Lemma lookup_store_defaults (l : list Z)
    (d : list (option regulator_init_data)) (b : Z) :
  (∀ x, x ∈ l → 0 ≤ x) →
  0 ≤ b < Z.of_nat (length d) →
  foldl store_default d l !! Z.to_nat b
  = if bool_decide (b ∈ l) then Some (Some (lp8755_buck_init b))
    else d !! Z.to_nat b.
Proof.
  revert d. induction l as [|a l IH]; intros d Hl Hb; [reflexivity|].
  cbn [foldl]. rewrite IH;
    [|intros x Hx; apply Hl; right; exact Hx
     |unfold store_default; rewrite length_insert; exact Hb].
  assert (0 ≤ a) as Ha by (apply Hl; left).
  destruct (decide (b ∈ l)) as [Hin|Hnin].
  - rewrite !bool_decide_eq_true_2; [reflexivity|right; exact Hin|exact Hin].
  - rewrite (bool_decide_eq_false_2 (b ∈ l)) by exact Hnin.
    unfold store_default. destruct (decide (a = b)) as [->|Hne].
    + rewrite bool_decide_eq_true_2 by left.
      apply list_lookup_insert_eq. lia.
    + rewrite bool_decide_eq_false_2
        by (intros H; apply elem_of_cons in H as [?|?]; congruence).
      apply list_lookup_insert_ne. lia.
Qed.

(** X22.  [lp8755_init_data] for every topology code of the table.
    When the read of the configuration register 0x3D succeeds, the code
    is the low nibble of the byte read; the call returns 0, stores the
    code, and installs the default constraints for exactly the rails of
    the topology, leaving the other slots of the platform data, the
    handles and the registers as they were; the read is its only effect.
    When the read fails the call returns the bus error and leaves the
    chip structure untouched. *)
Theorem init_data_outcomes (w : world) (conf : lp8755_mphase) :
  length (buck_data (pdata (pchip w))) = 6%nat →
  (bus_ok 1 w →
   mphase_buck !! Z.to_nat (Z.land (regs w !!! 0x3D) 0x0F) = Some conf →
   ∃ w',
     lp8755_init_data w = Some (0, w')
     ∧ mphase (pchip w') = Z.land (regs w !!! 0x3D) 0x0F
     ∧ (∀ b, 0 ≤ b < 6 →
          buck_data (pdata (pchip w')) !! Z.to_nat b
          = if bool_decide (b ∈ rails_of conf)
            then Some (Some (lp8755_buck_init b))
            else buck_data (pdata (pchip w)) !! Z.to_nat b)
     ∧ rdev (pchip w') = rdev (pchip w)
     ∧ regs w' = regs w
     ∧ added w w' = [BusRead 0x3D true])
  ∧ ((∃ fl, faults w = true :: fl) →
     ∃ w',
       lp8755_init_data w = Some (- EIO, w')
       ∧ pchip w' = pchip w
       ∧ added w w' = [BusRead 0x3D false]).
Proof.
  intros Hlen. split.
  - intros Hbus Hconf. rewrite (init_data_run w conf Hbus Hconf Hlen).
    eexists. split; [reflexivity|]. wsimpl. cbn [pdata buck_data mphase rdev].
    split; [reflexivity|]. split; [|split; [reflexivity|split; [reflexivity|]]].
    + intros b Hb. apply lookup_store_defaults; [|lia].
      intros x Hx.
      apply (rails_in_range conf (list_elem_of_lookup_2 _ _ _ Hconf)) in Hx.
      lia.
    + apply added_app. reflexivity.
  - intros (fl & Hfl). unfold lp8755_init_data.
    mstep. unfold uninitialized, gets at 1.
    mstep. rewrite (read_fail _ _ _ fl Hfl).
    change (- EIO <? 0) with true. cbv iota.
    eexists. split; [reflexivity|]. split; [reflexivity|].
    apply added_app. reflexivity.
Qed.

Lemma init_data_outcomes_witness :
  ∃ w',
    lp8755_init_data (quiet_world {[ 0x3D := 0xF7 ]}) = Some (0, w')
    ∧ mphase (pchip w') = 7
    ∧ buck_data (pdata (pchip w')) !! 3%nat = Some (Some (lp8755_buck_init 3))
    ∧ buck_data (pdata (pchip w')) !! 5%nat = Some None.
Proof.
  destruct (init_data_outcomes (quiet_world {[ 0x3D := 0xF7 ]})
              (Mphase 2 [BUCK0; BUCK3; 0; 0; 0; 0])) as [H _].
  - reflexivity.
  - destruct H as (w' & Hrun & Hm & Hd & _).
    + apply not_elem_of_nil.
    + reflexivity.
    + exists w'. split; [exact Hrun|]. split; [exact Hm|].
      split; [apply (Hd 3); lia|apply (Hd 5); lia].
Defined.

(** ** Probe *)

(** Up to the call of [lp8755_regulator_init]: when the adapter has
    plain I2C, the allocations and the register map succeed and the
    topology is known, [lp8755_probe] goes on to bring the rails up, on
    a chip structure with empty handle slots. *)
Lemma probe_to_bring_up (client : i2c_client) (w : world)
    (conf : lp8755_mphase) :
  i2c_func_i2c client = true →
  true ∉ take 2 (allocs w) →
  regmap_init w = None →
  topology_known client w conf →
  ∃ w0,
    lp8755_probe client w = probe_bring_up client w0
    ∧ wf_chip (pchip w0)
    ∧ rdev (pchip w0) = replicate 6 None
    ∧ 0 ≤ mphase (pchip w0)
    ∧ mphase_buck !! Z.to_nat (mphase (pchip w0)) = Some conf
    ∧ steps w w0 []
    ∧ writes (added w w0) = [].
Proof.
  intros Hfunc Halloc Hregmap Htopo.
  unfold lp8755_probe. rewrite Hfunc. cbn [negb]. cbv zeta.
  pose proof (take_2_head _ Halloc) as Ha1.
  mstep. rewrite kzalloc_ok by exact Ha1. cbn [negb].
  mstep. unfold modify at 1. mstep. unfold gets at 1. wsimpl.
  rewrite Hregmap. unfold topology_known in Htopo.
  destruct (platform_data client) as [pd|].
  - destruct Htopo as (Hm & Hconf & Hl2 & Hl3).
    mstep. unfold modify at 1. mstep. unfold modify at 1. wsimpl.
    eexists. split; [reflexivity|]. wsimpl.
    split; [repeat split; assumption|]. split; [reflexivity|].
    split; [exact Hm|]. split; [exact Hconf|]. split.
    + unfold steps. wsimpl. do 4 (split; [reflexivity|]).
      exists []. rewrite app_nil_r. split; reflexivity.
    + rewrite (added_app _ _ []); [reflexivity|].
      wsimpl. rewrite app_nil_r. reflexivity.
  - destruct Htopo as (Hbus & Hconf).
    pose proof (bus_ok_2_drop _ Halloc) as Ha2.
    mstep. rewrite kzalloc_ok by (wsimpl; exact Ha2). cbn [negb].
    mstep. unfold modify at 1. mstep.
    rewrite (init_data_run _ conf); [|exact Hbus|exact Hconf|reflexivity].
    change (0 <? 0) with false. cbv iota.
    eexists. split; [reflexivity|]. wsimpl.
    split; [repeat split; cbn; rewrite ?length_store_defaults; reflexivity|].
    split; [reflexivity|].
    split; [cbn; apply Z.land_nonneg; right; lia|].
    split; [exact Hconf|]. split.
    + unfold steps. wsimpl. do 4 (split; [reflexivity|]).
      eexists. split; reflexivity.
    + rewrite (added_app _ _ [BusRead 0x3D true]); reflexivity.
Qed.

(** [lp8755_int_config], whatever the bus does. *)
Lemma int_config_total (w : world) :
  ∃ ret w' evs,
    lp8755_int_config w = Some (ret, w')
    ∧ steps w w' evs
    ∧ registered evs = [] ∧ register_calls evs = [] ∧ unregistered evs = []
    ∧ rdev (pchip w') = rdev (pchip w)
    ∧ mphase (pchip w') = mphase (pchip w)
    ∧ irq (pchip w') = irq (pchip w)
    ∧ (irq (pchip w) = 0 → ret = 0)
    ∧ (irq (pchip w) ≠ 0 → request_irq_ret w < 0 → ret < 0)
    ∧ (ret < 0 → irq (pchip w) ≠ 0).
Proof.
  unfold lp8755_int_config.
  mstep. unfold uninitialized, gets at 1. mstep. unfold gets at 1.
  destruct (Z.eqb_spec (irq (pchip w)) 0) as [H0|H0].
  - exists 0, w, []. split; [reflexivity|]. split; [apply steps_refl|].
    repeat split; try reflexivity; lia.
  - mstep. destruct (faults w) as [|[] fl] eqn:Hfl.
    + rewrite read_ok by (unfold bus_ok; rewrite Hfl; apply not_elem_of_nil).
      change (0 <? 0) with false. cbv iota.
      mstep. unfold modify at 1. mstep. unfold modify at 1.
      mstep. unfold gets at 1. unfold mret, M_ret. wsimpl.
      eexists _, _, [RequestIrq (irq (pchip w))].
      split; [reflexivity|]. split.
      { unfold steps. wsimpl. do 4 (split; [reflexivity|]).
        eexists. rewrite <- app_assoc. split; reflexivity. }
      repeat split; try reflexivity; try contradiction; intros; assumption.
    + rewrite (read_fail _ _ _ fl Hfl).
      change (- EIO <? 0) with true. cbv iota. unfold mret, M_ret.
      eexists _, _, []. split; [reflexivity|]. split.
      { unfold steps. wsimpl. do 4 (split; [reflexivity|]).
        eexists. split; reflexivity. }
      repeat split; try reflexivity; try contradiction;
        intros; try assumption; unfold EIO; lia.
    + rewrite read_ok
        by (unfold bus_ok; rewrite Hfl; cbn; intros H;
            apply list_elem_of_singleton in H; discriminate).
      change (0 <? 0) with false. cbv iota.
      mstep. unfold modify at 1. mstep. unfold modify at 1.
      mstep. unfold gets at 1. unfold mret, M_ret. wsimpl.
      eexists _, _, [RequestIrq (irq (pchip w))].
      split; [reflexivity|]. split.
      { unfold steps. wsimpl. do 4 (split; [reflexivity|]).
        eexists. rewrite <- app_assoc. split; reflexivity. }
      repeat split; try reflexivity; try contradiction; intros; assumption.
Qed.

(** The live handles among the first [n] slots, after handles were
    stored in ascending slots. *)
Lemma live_prefix_after_inserts (hs : list regulator_dev) (n : nat) :
  ∀ (d : list (option regulator_dev)) (lo : nat),
    ascending (map rdev_get_id hs) →
    Forall (λ r, Z.of_nat lo ≤ rdev_get_id r < Z.of_nat (length d)) hs →
    (∀ k, (lo ≤ k)%nat → (k < length d)%nat → d !! k = Some None) →
    omap (λ r, r) (take n (foldl store_handle d hs))
    = omap (λ r, r) (take (lo `min` n) d)
      ++ filter (λ r, rdev_get_id r < Z.of_nat n) hs.
Proof.
  induction hs as [|r hs IH]; intros d lo Hs Hr Hnone.
  - cbn [foldl]. rewrite filter_nil, app_nil_r.
    destruct (Nat.le_gt_cases n lo) as [Hle|Hgt].
    + rewrite Nat.min_r by exact Hle. reflexivity.
    + rewrite Nat.min_l by lia.
      destruct (Nat.le_gt_cases n (length d)) as [Hn|Hn].
      * apply omap_take_none; [lia|]. intros k ? ? ?. apply Hnone; lia.
      * rewrite (take_ge d n) by lia. rewrite <- (firstn_all d) at 1.
        destruct (Nat.le_gt_cases lo (length d)) as [Hlo|Hlo].
        -- apply omap_take_none; [lia|]. intros k ? ? ?. apply Hnone; lia.
        -- rewrite (take_ge d lo) by lia. rewrite firstn_all. reflexivity.
  - cbn [foldl map ascending] in *. destruct Hs as [Hlt Hs].
    apply Forall_cons in Hr as [Hr0 Hr].
    set (b := Z.to_nat (rdev_get_id r)).
    assert (lo ≤ b < length d)%nat as Hb by (unfold b; lia).
    rewrite (IH (store_handle d r) (S b)).
    + unfold store_handle. fold b.
      destruct (decide (rdev_get_id r < Z.of_nat n)) as [Hin|Hout].
      * rewrite filter_cons_True by exact Hin.
        assert (b < n)%nat as Hbn by (unfold b; lia).
        rewrite (Nat.min_l (S b) n), (Nat.min_l lo n) by lia.
        rewrite (take_S_r _ _ (Some r))
          by (apply list_lookup_insert_eq; lia).
        rewrite take_insert_ge by lia. rewrite omap_app. cbn [omap].
        rewrite (omap_take_none d lo b)
          by (try lia; intros; apply Hnone; lia).
        rewrite <- app_assoc. reflexivity.
      * rewrite filter_cons_False by exact Hout.
        assert (n ≤ b)%nat as Hbn by (unfold b; lia).
        rewrite (Nat.min_r (S b) n) by lia.
        rewrite take_insert_ge by lia. f_equal.
        destruct (Nat.le_gt_cases n lo) as [Hle|Hgt].
        -- rewrite Nat.min_r by exact Hle. reflexivity.
        -- rewrite Nat.min_l by lia.
           apply omap_take_none; [lia|]. intros k ? ? ?. apply Hnone; lia.
    + exact Hs.
    + unfold store_handle. rewrite length_insert.
      rewrite Forall_fmap in Hlt. rewrite Forall_forall in *.
      intros r' Hr'. specialize (Hr r' Hr'). specialize (Hlt r' Hr').
      cbn in Hlt. unfold b. lia.
    + unfold store_handle. fold b. intros k Hk Hlen.
      rewrite length_insert in Hlen.
      rewrite list_lookup_insert_ne by lia. apply Hnone; lia.
Qed.

Lemma filter_handle_ids (hs : list regulator_dev) (n : Z) :
  map rdev_get_id (filter (λ r, rdev_get_id r < n) hs)
  = filter (λ b, b < n) (map rdev_get_id hs).
Proof.
  induction hs as [|r hs IH]; [reflexivity|]. cbn [map].
  destruct (decide (rdev_get_id r < n)) as [H|H].
  - rewrite !filter_cons_True by exact H. cbn [map]. rewrite IH. reflexivity.
  - rewrite !filter_cons_False by exact H. exact IH.
Qed.

Lemma framework_effects_unregister (d : list (option regulator_dev)) :
  framework_effects (map RegulatorUnregister d) = map RegulatorUnregister d.
Proof.
  induction d as [|x d IH]; [reflexivity|].
  cbn [map]. unfold framework_effects in *. rewrite filter_cons.
  cbn. rewrite IH. reflexivity.
Qed.

(** The rails that the loop at [err_irq] unregisters after a bring-up
    in which every rail of the topology was accepted: those whose
    number is below [nreg]. *)
Lemma first_slots_after_init (conf : lp8755_mphase)
    (hs : list regulator_dev) :
  conf ∈ mphase_buck →
  map rdev_get_id hs = rails_of conf →
  unregistered
    (map RegulatorUnregister
       (take (Z.to_nat (nreg conf))
             (foldl store_handle (replicate 6 None) hs)))
  = filter (λ b, b < nreg conf) (rails_of conf).
Proof.
  intros Hin Hids.
  destruct (unregister_trace
              (take (Z.to_nat (nreg conf))
                    (foldl store_handle (replicate 6 None) hs)))
    as (_ & _ & ->).
  rewrite (live_prefix_after_inserts hs _ _ 0).
  - rewrite Nat.min_0_l.
    change (omap _ (take 0 _)) with (@nil regulator_dev).
    cbn [app]. rewrite filter_handle_ids, Hids.
    pose proof (mphase_buck_nreg conf Hin) as Hn.
    rewrite Z2Nat.id; [reflexivity|].
    repeat (apply elem_of_cons in Hn as [->|Hn]; [lia|]). inversion Hn.
  - rewrite Hids. apply rails_sorted, Hin.
  - rewrite Forall_forall. intros r Hr. rewrite length_replicate.
    assert (rdev_get_id r ∈ rails_of conf) as Ha
      by (rewrite <- Hids; apply list_elem_of_fmap_2, Hr).
    apply (rails_in_range conf Hin) in Ha. lia.
  - intros k _ Hk. rewrite length_replicate in Hk.
    apply lookup_replicate_2. exact Hk.
Qed.

(** Bring-up when the framework accepts every rail of the topology. *)
Lemma bring_up_accepted (client : i2c_client) (w : world)
    (conf : lp8755_mphase) :
  wf_chip (pchip w) →
  rdev (pchip w) = replicate 6 None →
  0 ≤ mphase (pchip w) →
  mphase_buck !! Z.to_nat (mphase (pchip w)) = Some conf →
  refused (register_errs w) (rails_of conf) = None →
  ∃ ret w' evs,
    probe_bring_up client w = Some (ret, w')
    ∧ steps w w' evs
    ∧ registered evs = rails_of conf
    ∧ register_calls evs = rails_of conf
    ∧ (client_irq client = 0 → ret = 0)
    ∧ (client_irq client ≠ 0 → request_irq_ret w < 0 → ret < 0)
    ∧ (0 ≤ ret →
       unregistered evs = []
       ∧ map rdev_get_id (live_handles (pchip w')) = rails_of conf)
    ∧ (ret < 0 →
       client_irq client ≠ 0
       ∧ unregistered evs = filter (λ b, b < nreg conf) (rails_of conf))
    ∧ (0 ≤ ret →
       ∃ hs,
         map rdev_get_id hs = rails_of conf
         ∧ rdev (pchip w') = foldl store_handle (replicate 6 None) hs
         ∧ mphase (pchip w') = mphase (pchip w)
         ∧ irq (pchip w') = client_irq client).
Proof.
  intros Hwf Hrd Hm Hconf Href.
  pose proof (list_elem_of_lookup_2 _ _ _ Hconf) as Hin.
  destruct (regulator_init_summary w conf Hwf Hrd Hm Hconf)
    as (w1 & evs1 & hs & Hrun & Hs1 & Hwf1 & (Hm1 & _ & _) & Hreg & Hcalls
        & Hun & Hids & Hlive & Hslots).
  cbv zeta in *. rewrite Href in *. specialize (Hslots eq_refl).
  rewrite (accepted_all _ _ Href), ?app_nil_r in *.
  unfold probe_bring_up. mstep. rewrite Hrun.
  change (0 <? 0) with false. cbv iota.
  mstep. unfold modify at 1. mstep.
  match goal with
  | |- context [lp8755_int_config ?w2] =>
      destruct (int_config_total w2)
        as (ret & w3 & evs3 & Hrun3 & Hs3 & Hreg3 & Hcalls3 & Hun3 & Hrd3
            & Hm3 & Hirq3 & Hzero & Hneg & Hline);
      assert (steps w1 w2 []) as Hs2
  end.
  { unfold steps. wsimpl. do 4 (split; [reflexivity|]).
    exists []. rewrite app_nil_r. split; reflexivity. }
  rewrite Hrun3. cbn [pchip set_pchip irq set_irq rdev mphase] in *.
  pose proof (steps_trans _ _ _ _ _ (steps_trans _ _ _ _ _ Hs1 Hs2) Hs3)
    as Hs13.
  rewrite app_nil_r in Hs13.
  destruct (Z.ltb_spec ret 0) as [Hlt|Hge].
  - (* err_irq *)
    mstep. rewrite (unregister_first_nreg_run w3 conf);
      [|rewrite Hrd3; apply Hwf1|rewrite Hm3, Hm1; exact Hm
       |rewrite Hm3, Hm1; exact Hconf].
    mstep.
    match goal with
    | |- context [output_disable ?w4] =>
        destruct (output_disable_total w4) as (w5 & Hrun5 & Hs5 & _);
        pose proof (steps_log_all
                      (map RegulatorUnregister
                         (take (Z.to_nat (nreg conf)) (rdev (pchip w3))))
                      w3) as Hs4
    end.
    rewrite Hrun5. unfold mret, M_ret.
    rewrite framework_effects_unregister in Hs4.
    pose proof (steps_trans _ _ _ _ _ (steps_trans _ _ _ _ _ Hs13 Hs4) Hs5)
      as Hs15.
    rewrite app_nil_r in Hs15.
    eexists ret, w5, _. split; [reflexivity|]. split; [exact Hs15|].
    rewrite !registered_app, !register_calls_app, !unregistered_app.
    rewrite Hreg, Hcalls, Hun, Hreg3, Hcalls3, Hun3.
    destruct (unregister_trace
                (take (Z.to_nat (nreg conf)) (rdev (pchip w3))))
      as (-> & -> & _).
    rewrite !app_nil_r. split; [reflexivity|]. split; [reflexivity|].
    split; [exact Hzero|]. split.
    { intros Hc Hr. apply Hneg; [exact Hc|].
      destruct Hs1 as (_ & _ & _ & He & _).
      cbn [request_irq_ret set_pchip]. rewrite He. exact Hr. }
    split; [lia|]. split; [|lia]. intros _. split; [apply Hline, Hlt|].
    cbn [app]. rewrite Hrd3, Hslots.
    apply first_slots_after_init; assumption.
  - unfold mret, M_ret. eexists ret, w3, _.
    split; [reflexivity|]. split; [exact Hs13|].
    rewrite !registered_app, !register_calls_app, !unregistered_app.
    rewrite Hreg, Hcalls, Hun, Hreg3, Hcalls3, Hun3, !app_nil_r.
    split; [reflexivity|]. split; [reflexivity|].
    split; [exact Hzero|]. split.
    { intros Hc Hr. apply Hneg; [exact Hc|].
      destruct Hs1 as (_ & _ & _ & He & _).
      cbn [request_irq_ret set_pchip]. rewrite He. exact Hr. }
    split; [|split; [lia|]].
    + intros _. split; [reflexivity|].
      unfold live_handles in *. rewrite Hrd3. cbn [rdev]. rewrite Hlive.
      exact Hids.
    + intros _. exists hs. split; [exact Hids|].
      rewrite Hrd3, Hm3, Hirq3. cbn [rdev mphase irq]. auto.
Qed.

Lemma kzalloc_fail (w : world) (al : list bool) :
  allocs w = true :: al →
  devm_kzalloc w = Some (false, set_allocs al w).
Proof.
  destruct w as [rg fl st a ri re rq pc tr]. cbn. intros ->. reflexivity.
Qed.

(** X23.  The early ways out of [lp8755_probe].  Without plain I2C on
    the adapter it returns [-EOPNOTSUPP] and does nothing.  When the
    allocation of the chip structure fails it returns [-ENOMEM]; when
    the register map cannot be set up it returns that error; when there
    is no platform data and its allocation fails it returns [-ENOMEM]:
    in these three cases without any effect on bus or framework.  When
    there is no platform data and the read of the topology fails it
    returns the bus error, and the failed read is its only effect: no
    output is disabled on this path. *)
Theorem probe_early_failures (client : i2c_client) (w : world) :
  (i2c_func_i2c client = false →
   lp8755_probe client w = Some (- EOPNOTSUPP, w))
  ∧ (i2c_func_i2c client = true →
     (∃ al, allocs w = true :: al) →
     ∃ w', lp8755_probe client w = Some (- ENOMEM, w') ∧ added w w' = [])
  ∧ (i2c_func_i2c client = true →
     true ∉ take 1 (allocs w) →
     ∀ err, regmap_init w = Some err →
     ∃ w', lp8755_probe client w = Some (err, w') ∧ added w w' = [])
  ∧ (i2c_func_i2c client = true →
     platform_data client = None →
     regmap_init w = None →
     (∃ al, allocs w = false :: true :: al) →
     ∃ w', lp8755_probe client w = Some (- ENOMEM, w') ∧ added w w' = [])
  ∧ (i2c_func_i2c client = true →
     platform_data client = None →
     regmap_init w = None →
     true ∉ take 2 (allocs w) →
     (∃ fl, faults w = true :: fl) →
     ∃ w',
       lp8755_probe client w = Some (- EIO, w')
       ∧ added w w' = [BusRead 0x3D false]).
Proof.
  unfold lp8755_probe. split; [|split; [|split; [|split]]].
  - intros ->. reflexivity.
  - intros -> (al & Hal). cbn [negb]. mstep. rewrite (kzalloc_fail w al Hal).
    cbn [negb]. eexists. split; [reflexivity|].
    apply added_app. cbn. rewrite app_nil_r. reflexivity.
  - intros -> Ha err He. cbn [negb]. mstep. rewrite kzalloc_ok by exact Ha.
    cbn [negb]. mstep. unfold modify at 1. mstep. unfold gets at 1. wsimpl.
    rewrite He. eexists. split; [reflexivity|].
    apply added_app. cbn. rewrite app_nil_r. reflexivity.
  - intros -> -> He (al & Hal). cbn [negb]. cbv zeta.
    mstep. rewrite kzalloc_ok
      by (rewrite Hal; cbn; intros H; apply list_elem_of_singleton in H;
          discriminate).
    cbn [negb]. mstep. unfold modify at 1. mstep. unfold gets at 1. wsimpl.
    rewrite He. mstep.
    rewrite (kzalloc_fail _ al) by (wsimpl; rewrite Hal; reflexivity).
    cbn [negb]. eexists. split; [reflexivity|].
    apply added_app. cbn. rewrite app_nil_r. reflexivity.
  - intros -> -> He Ha (fl & Hfl). cbn [negb]. cbv zeta.
    mstep. rewrite kzalloc_ok by (apply take_2_head, Ha).
    cbn [negb]. mstep. unfold modify at 1. mstep. unfold gets at 1. wsimpl.
    rewrite He. mstep.
    rewrite kzalloc_ok by (wsimpl; apply bus_ok_2_drop, Ha).
    cbn [negb]. mstep. unfold modify at 1. mstep.
    unfold lp8755_init_data at 1.
    mstep. unfold uninitialized, gets at 1.
    mstep. rewrite (read_fail _ _ _ fl) by (wsimpl; exact Hfl).
    change (- EIO <? 0) with true. cbv iota.
    unfold mret at 1, M_ret at 1.
    change (- EIO <? 0) with true. cbv iota.
    eexists. split; [reflexivity|].
    apply added_app. reflexivity.
Qed.

Lemma probe_early_failures_witness :
  ∃ w',
    lp8755_probe bare_client
      (World ∅ [true] 0 [] None ∅ 0 zero_chip [])
    = Some (- EIO, w')
    ∧ added (World ∅ [true] 0 [] None ∅ 0 zero_chip []) w'
      = [BusRead 0x3D false].
Proof.
  destruct (probe_early_failures bare_client
              (World ∅ [true] 0 [] None ∅ 0 zero_chip []))
    as (_ & _ & _ & _ & H).
  apply H.
  - reflexivity.
  - reflexivity.
  - reflexivity.
  - apply not_elem_of_nil.
  - exists []. reflexivity.
Defined.

(** Bring-up when the framework refuses a rail of the topology. *)
Lemma bring_up_refused (client : i2c_client) (w : world)
    (conf : lp8755_mphase) (b err : Z) :
  wf_chip (pchip w) →
  rdev (pchip w) = replicate 6 None →
  0 ≤ mphase (pchip w) →
  mphase_buck !! Z.to_nat (mphase (pchip w)) = Some conf →
  refused (register_errs w) (rails_of conf) = Some (b, err) →
  err < 0 →
  ∃ w' evs,
    probe_bring_up client w = Some (err, w')
    ∧ steps w w' evs
    ∧ registered evs = accepted (register_errs w) (rails_of conf)
    ∧ register_calls evs = accepted (register_errs w) (rails_of conf) ++ [b]
    ∧ unregistered evs = accepted (register_errs w) (rails_of conf).
Proof.
  intros Hwf Hrd Hm Hconf Href Herr.
  destruct (regulator_init_summary w conf Hwf Hrd Hm Hconf)
    as (w1 & evs1 & hs & Hrun & Hs1 & _ & _ & Hreg & Hcalls & Hun & _).
  cbv zeta in *. rewrite Href in *.
  unfold probe_bring_up. mstep. rewrite Hrun.
  destruct (Z.ltb_spec err 0) as [_|]; [|lia].
  destruct (output_disable_total w1) as (w2 & Hout & Hs2 & _).
  mstep. rewrite Hout. unfold mret, M_ret.
  exists w2, evs1. split; [reflexivity|].
  pose proof (steps_trans _ _ _ _ _ Hs1 Hs2) as H12.
  rewrite app_nil_r in H12. auto.
Qed.

(** X24.  A probe that reaches bring-up with a topology of the table,
    when the framework accepts every rail: the rails of the topology are
    registered, each once, in the order of the table row, whatever the
    bus does from then on; without an interrupt line the result is 0;
    and whenever the result is not negative, no rail is unregistered and
    the handles stored in the chip structure are those of the rails of
    the topology. *)
Theorem probe_registers_topology (client : i2c_client) (w : world)
    (conf : lp8755_mphase) :
  i2c_func_i2c client = true →
  true ∉ take 2 (allocs w) →
  regmap_init w = None →
  topology_known client w conf →
  refused (register_errs w) (rails_of conf) = None →
  ∃ ret w',
    lp8755_probe client w = Some (ret, w')
    ∧ registered (added w w') = rails_of conf
    ∧ register_calls (added w w') = rails_of conf
    ∧ (client_irq client = 0 → ret = 0)
    ∧ (0 ≤ ret →
       unregistered (added w w') = []
       ∧ map rdev_get_id (live_handles (pchip w')) = rails_of conf).
Proof.
  intros Hfunc Halloc Hregmap Htopo Href.
  destruct (probe_to_bring_up client w conf Hfunc Halloc Hregmap Htopo)
    as (w0 & Hrun0 & Hwf & Hrd & Hm & Hconf & Hs0 & _).
  rewrite <- (steps_errs _ _ _ Hs0) in Href.
  destruct (bring_up_accepted client w0 conf Hwf Hrd Hm Hconf Href)
    as (ret & w' & evs & Hrun & Hs & Hreg & Hcalls & Hzero & _ & Hok & _ & _).
  exists ret, w'. split; [rewrite Hrun0; exact Hrun|].
  pose proof (steps_added _ _ _ (steps_trans _ _ _ _ _ Hs0 Hs)) as Hadd.
  cbn [app] in Hadd.
  rewrite <- registered_framework, <- register_calls_framework,
    <- unregistered_framework, Hadd.
  auto.
Qed.

Lemma probe_registers_topology_witness :
  ∃ ret w',
    lp8755_probe bare_client
      (World {[ 0x3D := 8 ]} [false; true; true; true] 0 [] None ∅ 0
         zero_chip [])
    = Some (ret, w')
    ∧ registered
        (added (World {[ 0x3D := 8 ]} [false; true; true; true] 0 [] None ∅ 0
                  zero_chip []) w')
      = [0; 2; 3; 5]
    ∧ ret = 0.
Proof.
  destruct (probe_registers_topology bare_client
              (World {[ 0x3D := 8 ]} [false; true; true; true] 0 [] None ∅ 0
                 zero_chip [])
              (Mphase 4 [BUCK0; BUCK2; BUCK3; BUCK5; 0; 0]))
    as (ret & w' & Hrun & Hreg & _ & Hzero & _).
  - reflexivity.
  - apply not_elem_of_nil.
  - reflexivity.
  - split; [|reflexivity]. unfold bus_ok. cbn. intros H.
    apply list_elem_of_singleton in H. discriminate.
  - reflexivity.
  - exists ret, w'. split; [exact Hrun|]. split; [exact Hreg|].
    apply Hzero. reflexivity.
Defined.

(** X25.  A probe that fails after the rails were brought up, because
    the interrupt line could not be armed.  With an interrupt line whose
    request the kernel refuses, the result is negative whatever the bus
    does.  And whenever the result is negative after every rail of the
    topology was accepted, the rails handed back to the framework are
    those stored in the first [nreg] slots, that is the rails of the
    topology whose number is below [nreg], not all the rails that were
    registered. *)
Theorem probe_irq_failure_unregisters_first_slots (client : i2c_client)
    (w : world) (conf : lp8755_mphase) :
  i2c_func_i2c client = true →
  true ∉ take 2 (allocs w) →
  regmap_init w = None →
  topology_known client w conf →
  refused (register_errs w) (rails_of conf) = None →
  ∃ ret w',
    lp8755_probe client w = Some (ret, w')
    ∧ registered (added w w') = rails_of conf
    ∧ (client_irq client ≠ 0 → request_irq_ret w < 0 → ret < 0)
    ∧ (ret < 0 →
       client_irq client ≠ 0
       ∧ unregistered (added w w')
         = filter (λ b, b < nreg conf) (rails_of conf)).
Proof.
  intros Hfunc Halloc Hregmap Htopo Href.
  destruct (probe_to_bring_up client w conf Hfunc Halloc Hregmap Htopo)
    as (w0 & Hrun0 & Hwf & Hrd & Hm & Hconf & Hs0 & _).
  rewrite <- (steps_errs _ _ _ Hs0) in Href.
  destruct (bring_up_accepted client w0 conf Hwf Hrd Hm Hconf Href)
    as (ret & w' & evs & Hrun & Hs & Hreg & _ & _ & Hneg & _ & Hfail & _).
  exists ret, w'. split; [rewrite Hrun0; exact Hrun|].
  pose proof (steps_added _ _ _ (steps_trans _ _ _ _ _ Hs0 Hs)) as Hadd.
  cbn [app] in Hadd.
  rewrite <- registered_framework, <- unregistered_framework, Hadd.
  split; [exact Hreg|]. split; [|exact Hfail].
  intros Hc Hr. apply Hneg; [exact Hc|].
  destruct Hs0 as (_ & _ & _ & -> & _). exact Hr.
Qed.

Lemma probe_irq_failure_unregisters_first_slots_witness :
  ∃ ret w',
    lp8755_probe (I2cClient true None 42)
      (World {[ 0x3D := 0 ]} [] 0 [] None ∅ (- 16) zero_chip [])
    = Some (ret, w')
    ∧ registered
        (added (World {[ 0x3D := 0 ]} [] 0 [] None ∅ (- 16) zero_chip []) w')
      = [0; 3; 5]
    ∧ unregistered
        (added (World {[ 0x3D := 0 ]} [] 0 [] None ∅ (- 16) zero_chip []) w')
      = [0].
Proof.
  destruct (probe_irq_failure_unregisters_first_slots
              (I2cClient true None 42)
              (World {[ 0x3D := 0 ]} [] 0 [] None ∅ (- 16) zero_chip [])
              (Mphase 3 [BUCK0; BUCK3; BUCK5; 0; 0; 0]))
    as (ret & w' & Hrun & Hreg & Hneg & Hfail).
  - reflexivity.
  - apply not_elem_of_nil.
  - reflexivity.
  - split; [apply not_elem_of_nil|reflexivity].
  - reflexivity.
  - exists ret, w'. split; [exact Hrun|]. split; [exact Hreg|].
    destruct Hfail as [_ Hun].
    + apply Hneg; [discriminate|reflexivity].
    + exact Hun.
Defined.

(** X26.  A probe that reaches bring-up with a topology of the table,
    when the framework refuses a rail [b] of the topology with the
    error [err]: for every topology and every position of the refused
    rail, the rails before [b] in the table row are registered, [b] is
    the last registration attempted, exactly the rails that were
    registered are unregistered, in the same order, and the probe
    returns [err], whatever the bus does. *)
Theorem probe_registration_refused (client : i2c_client) (w : world)
    (conf : lp8755_mphase) (b err : Z) :
  i2c_func_i2c client = true →
  true ∉ take 2 (allocs w) →
  regmap_init w = None →
  topology_known client w conf →
  refused (register_errs w) (rails_of conf) = Some (b, err) →
  err < 0 →
  ∃ w',
    lp8755_probe client w = Some (err, w')
    ∧ registered (added w w') = accepted (register_errs w) (rails_of conf)
    ∧ register_calls (added w w')
      = accepted (register_errs w) (rails_of conf) ++ [b]
    ∧ unregistered (added w w')
      = accepted (register_errs w) (rails_of conf).
Proof.
  intros Hfunc Halloc Hregmap Htopo Href Herr.
  destruct (probe_to_bring_up client w conf Hfunc Halloc Hregmap Htopo)
    as (w0 & Hrun0 & Hwf & Hrd & Hm & Hconf & Hs0 & _).
  rewrite <- (steps_errs _ _ _ Hs0) in *.
  destruct (bring_up_refused client w0 conf b err Hwf Hrd Hm Hconf Href Herr)
    as (w' & evs & Hrun & Hs & Hreg & Hcalls & Hun).
  exists w'. split; [rewrite Hrun0; exact Hrun|].
  pose proof (steps_added _ _ _ (steps_trans _ _ _ _ _ Hs0 Hs)) as Hadd.
  cbn [app] in Hadd.
  rewrite <- registered_framework, <- register_calls_framework,
    <- unregistered_framework, Hadd.
  auto.
Qed.

Lemma probe_registration_refused_witness :
  ∃ w',
    lp8755_probe bare_client
      (World {[ 0x3D := 2 ]} [] 0 [] None {[ 4 := - ENOMEM ]} 0 zero_chip [])
    = Some (- ENOMEM, w')
    ∧ register_calls
        (added (World {[ 0x3D := 2 ]} [] 0 [] None {[ 4 := - ENOMEM ]} 0
                  zero_chip []) w')
      = [0; 2; 3; 4]
    ∧ unregistered
        (added (World {[ 0x3D := 2 ]} [] 0 [] None {[ 4 := - ENOMEM ]} 0
                  zero_chip []) w')
      = [0; 2; 3].
Proof.
  destruct (probe_registration_refused bare_client
              (World {[ 0x3D := 2 ]} [] 0 [] None {[ 4 := - ENOMEM ]} 0
                 zero_chip [])
              (Mphase 5 [BUCK0; BUCK2; BUCK3; BUCK4; BUCK5; 0])
              4 (- ENOMEM))
    as (w' & Hrun & _ & Hcalls & Hun).
  - reflexivity.
  - apply not_elem_of_nil.
  - reflexivity.
  - split; [apply not_elem_of_nil|reflexivity].
  - reflexivity.
  - unfold ENOMEM. lia.
  - exists w'. split; [exact Hrun|]. split; [exact Hcalls|exact Hun].
Defined.

(** ** Bring-up followed by teardown *)

Lemma unregistered_writes (l : list Z) (oks : list bool) :
  unregistered (zip_with (λ i ok, BusWrite i 0 ok) l oks) = [].
Proof.
  revert oks. induction l as [|i l IH]; intros [|ok oks]; try reflexivity.
  cbn [zip_with]. apply IH.
Qed.

Lemma remove_trace_free_irq (d : list (option regulator_dev)) (l : list Z)
    (oks : list bool) (line x : Z) :
  FreeIrq x
  ∈ map RegulatorUnregister d
    ++ zip_with (λ i ok, BusWrite i 0 ok) l oks
    ++ (if line =? 0 then [] else [FreeIrq line])
  ↔ line ≠ 0 ∧ x = line.
Proof.
  rewrite !elem_of_app. split.
  - intros [H|[H|H]].
    + apply list_elem_of_fmap in H as (? & ? & _). discriminate.
    + apply elem_of_lookup_zip_with in H as (? & ? & ? & ? & _). discriminate.
    + destruct (Z.eqb_spec line 0); [inversion H|].
      apply list_elem_of_singleton in H as [= ->]. auto.
  - intros [Hne ->]. right. right.
    destruct (Z.eqb_spec line 0); [contradiction|]. left.
Qed.

(** X27.  Teardown after a bring-up that succeeded, for every topology
    of the table and whatever the bus does: [lp8755_remove] returns 0
    and hands back to the framework the rails stored in the first [nreg]
    slots, that is the rails of the topology whose number is below
    [nreg], where bring-up had registered all the rails of the
    topology; and it frees the interrupt line exactly when the client
    has one. *)
Theorem probe_then_remove (client : i2c_client) (w w' : world)
    (conf : lp8755_mphase) (ret : Z) :
  i2c_func_i2c client = true →
  true ∉ take 2 (allocs w) →
  regmap_init w = None →
  topology_known client w conf →
  refused (register_errs w) (rails_of conf) = None →
  lp8755_probe client w = Some (ret, w') →
  0 ≤ ret →
  ∃ w'',
    lp8755_remove w' = Some (0, w'')
    ∧ registered (added w w') = rails_of conf
    ∧ unregistered (added w' w'')
      = filter (λ b, b < nreg conf) (rails_of conf)
    ∧ (∀ x, FreeIrq x ∈ added w' w''
            ↔ client_irq client ≠ 0 ∧ x = client_irq client).
Proof.
  intros Hfunc Halloc Hregmap Htopo Href Hprobe Hret.
  destruct (probe_to_bring_up client w conf Hfunc Halloc Hregmap Htopo)
    as (w0 & Hrun0 & Hwf & Hrd & Hm & Hconf & Hs0 & _).
  rewrite <- (steps_errs _ _ _ Hs0) in Href.
  destruct (bring_up_accepted client w0 conf Hwf Hrd Hm Hconf Href)
    as (ret1 & w1 & evs & Hrun & Hs & Hreg & _ & _ & _ & _ & _ & Hok).
  rewrite Hrun0, Hrun in Hprobe. injection Hprobe as -> ->.
  destruct (Hok Hret) as (hs & Hids & Hslots & Hmphase & Hirq).
  pose proof (list_elem_of_lookup_2 _ _ _ Hconf) as Hin.
  destruct (remove_run w' conf) as (w'' & oks & Hrem & _ & _ & Hadd & _).
  { rewrite Hslots, length_after_inserts. reflexivity. }
  { rewrite Hmphase. exact Hm. }
  { rewrite Hmphase. exact Hconf. }
  exists w''. split; [exact Hrem|]. split; [|split].
  - pose proof (steps_added _ _ _ (steps_trans _ _ _ _ _ Hs0 Hs)) as Ha.
    cbn [app] in Ha. rewrite <- registered_framework, Ha. exact Hreg.
  - rewrite Hadd, !unregistered_app, unregistered_writes, Hslots.
    rewrite (first_slots_after_init conf hs Hin Hids).
    destruct (irq (pchip w') =? 0); cbn; rewrite app_nil_r; reflexivity.
  - intros x. rewrite Hadd, remove_trace_free_irq, Hirq. reflexivity.
Qed.

Lemma probe_then_remove_witness :
  ∃ w' w'',
    lp8755_probe bare_client (quiet_world {[ 0x3D := 4 ]}) = Some (0, w')
    ∧ lp8755_remove w' = Some (0, w'')
    ∧ registered (added (quiet_world {[ 0x3D := 4 ]}) w') = [0; 4; 5]
    ∧ unregistered (added w' w'') = [0].
Proof.
  assert (∃ w', lp8755_probe bare_client (quiet_world {[ 0x3D := 4 ]})
                = Some (0, w')) as (w' & Hprobe)
    by (eexists; vm_compute; reflexivity).
  destruct (probe_then_remove bare_client (quiet_world {[ 0x3D := 4 ]}) w'
              (Mphase 3 [BUCK0; BUCK4; BUCK5; 0; 0; 0]) 0)
    as (w'' & Hrem & Hreg & Hun & _).
  - reflexivity.
  - apply not_elem_of_nil.
  - reflexivity.
  - split; [apply not_elem_of_nil|reflexivity].
  - reflexivity.
  - exact Hprobe.
  - lia.
  - exists w', w''. split; [exact Hprobe|]. split; [exact Hrem|].
    split; [exact Hreg|exact Hun].
Defined.
